(** * RAM Resource Controls: the eviction engine and its policy layer

    A shallow embedding of the decision-making code of the extension,

    - [WhitelistManager] (allow / deny domain sets with wildcard patterns),
    - [ResourceControls] v3.0, "Advanced Core Module" (memory sampling,
      sleep score, tiered selection, emergency pass, settings update),
    - the selection loop of the service worker (background.js),

    followed by the properties of the specification that concern them.

    Conventions of the embedding.

    - Times are integer milliseconds ([Z]), as [Date.now()] gives them; one
      cycle is evaluated at a single instant [now].
    - Counts, scores and megabytes are integers ([Z]).  Quantities that the
      code multiplies by decimal constants (usage percentage, the effective
      sleep timer, tier fractions) are exact rationals ([Q]); [NaN] and
      infinities of JavaScript numbers are outside the model.
    - A JavaScript [Map] keyed by tab id is a [gmap Z _]; a [Set] of strings
      is a duplicate-free list in insertion order.
    - A call that may throw returns a [Completion]; [try]/[catch] is
      [tryCatch].
    - Host effects ([chrome.tabs.discard]) are recorded in an explicit log
      of requests, with the host's answer given by an oracle.
    - Persistence to [chrome.storage], console output and the wall-clock
      performance counters are not part of the model.

    Limits of the embedding.

    - The code computes with IEEE doubles; the exact rationals of the model
      agree with it on comparisons of integers with constants, but a
      product such as [baseTimer * 0.7] or the one-decimal rounding of the
      usage percentage can differ in the last place.  Properties of the
      effective timer are therefore stated for a product that is only
      required to round monotonically ([calculateEffectiveSleepTimerWith]).
    - [trim] and [toLowerCase] act on ASCII; other white space and letters
      are left as they are.
    - [URL.hostname] parses the URL shapes of tabs; it does no
      percent-decoding and no canonicalisation of numeric hosts.
    - A regular expression has a meaning only when the domain it is built
      from holds, besides [.] and [*], no syntax character and only ASCII;
      results that mention compiled patterns are limited to such domains.
    - The optimal sleep time the worker computes for a tab is a rational
      given from outside. *)

From Stdlib Require Import ZArith QArith Qround List String Ascii Bool Lia.
From Stdlib Require Import Permutation Sorted Lqa.
From stdpp Require Import gmap.
Import ListNotations.
Local Open Scope Z_scope.

(* ===================================================================== *)
(** ** JavaScript primitives used by the sources *)
(* ===================================================================== *)

Module JS.

(** Result of evaluating an expression that may throw. *)
Inductive Completion (A : Type) : Type :=
| Normal (a : A)
| Throw (name : string).
Arguments Normal {A} a.
Arguments Throw {A} name.

Definition tryCatch {A : Type} (body : Completion A)
    (handler : string -> Completion A) : Completion A :=
  match body with
  | Normal a => Normal a
  | Throw e => handler e
  end.

Definition bind {A B : Type} (c : Completion A)
    (k : A -> Completion B) : Completion B :=
  match c with
  | Normal a => k a
  | Throw e => Throw e
  end.

(** *** Characters *)

Definition code (c : ascii) : N := N_of_ascii c.

Definition inRange (lo hi : N) (c : ascii) : bool :=
  ((lo <=? code c) && (code c <=? hi))%N.

Definition isUpper : ascii -> bool := inRange 65 90.
Definition isLower : ascii -> bool := inRange 97 122.
Definition isDigit : ascii -> bool := inRange 48 57.
Definition isAlpha (c : ascii) : bool := isUpper c || isLower c.

Definition toLowerChar (c : ascii) : ascii :=
  if isUpper c then ascii_of_N (code c + 32) else c.

Definition toUpperChar (c : ascii) : ascii :=
  if isLower c then ascii_of_N (code c - 32) else c.

Definition charIn (c : ascii) (set : string) : bool :=
  existsb (Ascii.eqb c) (list_ascii_of_string set).

(** White space removed by [String.prototype.trim] (ASCII part). *)
Definition isWhiteSpace (c : ascii) : bool :=
  inRange 9 13 c || Ascii.eqb c " ".

(** Line terminators, which the regular-expression atom [.] rejects. *)
Definition isLineTerminator (c : ascii) : bool :=
  (code c =? 10)%N || (code c =? 13)%N.

(** *** Strings *)

Definition startsWith (s p : string) : bool := String.prefix p s.

(** [s.includes(p)]; also the meaning of [/p/.test(s)] for a literal. *)
Fixpoint includes (s p : string) : bool :=
  String.prefix p s ||
  match s with
  | EmptyString => false
  | String _ s' => includes s' p
  end.

(** [/a|b|c/.test(s)] for literal alternatives. *)
Definition testAlternatives (alts : list string) (s : string) : bool :=
  existsb (includes s) alts.

Fixpoint toLowerCase (s : string) : string :=
  match s with
  | EmptyString => EmptyString
  | String c s' => String (toLowerChar c) (toLowerCase s')
  end.

Fixpoint trimStart (s : string) : string :=
  match s with
  | EmptyString => EmptyString
  | String c s' => if isWhiteSpace c then trimStart s' else s
  end.

Fixpoint trimEnd (s : string) : string :=
  match s with
  | EmptyString => EmptyString
  | String c s' =>
      match trimEnd s' with
      | EmptyString => if isWhiteSpace c then EmptyString
                       else String c EmptyString
      | r => String c r
      end
  end.

Definition trim (s : string) : string := trimEnd (trimStart s).

(** [s.split(sep)[0]] for a one-character separator. *)
Fixpoint splitFirst (sep : ascii) (s : string) : string :=
  match s with
  | EmptyString => EmptyString
  | String c s' =>
      if Ascii.eqb c sep then EmptyString else String c (splitFirst sep s')
  end.

(** [s.replace(/c/g, by)] for a one-character pattern. *)
Fixpoint replaceAll (c : ascii) (by_ : string) (s : string) : string :=
  match s with
  | EmptyString => EmptyString
  | String x s' =>
      if Ascii.eqb x c then (by_ ++ replaceAll c by_ s')%string
      else String x (replaceAll c by_ s')
  end.

Fixpoint dropChars (n : nat) (s : string) : string :=
  match n, s with
  | O, _ => s
  | S _, EmptyString => EmptyString
  | S n', String _ s' => dropChars n' s'
  end.

(** [s.replace(/^https?:\/\//, '')]. *)
Definition stripHttpScheme (s : string) : string :=
  if String.prefix "https://" s then dropChars 8 s
  else if String.prefix "http://" s then dropChars 7 s
  else s.

(** *** Sets of strings ([Set]) in insertion order *)

Definition setHas (s : list string) (x : string) : bool :=
  existsb (String.eqb x) s.

Definition setAdd (s : list string) (x : string) : list string :=
  if setHas s x then s else s ++ [x].

Definition setDelete (s : list string) (x : string) : list string :=
  List.filter (fun y => negb (String.eqb x y)) s.

(** *** Regular expressions: the fragment [compilePatterns] produces

    The sources build every pattern as ['^' + body + '$'] with flag [i],
    where [body] is a domain in which [.] became [\.] and [*] became
    [.*].  The fragment below is that shape for domains whose other
    characters are not regular-expression syntax characters; a source
    outside the fragment is not given a meaning ([None]). *)

Inductive ReNode : Type :=
| ReChar (c : ascii)     (* a literal character, compared ignoring case *)
| ReDotStar.             (* [.*] *)

Definition RegExp : Type := list ReNode.

Definition isSyntaxChar (c : ascii) : bool := charIn c "^$\.*+?()[]{}|".

Definition isPatternChar (c : ascii) : bool :=
  negb (isSyntaxChar c) && (code c <? 128)%N.

Fixpoint parseAnchoredBody (src : string) : option RegExp :=
  match src with
  | EmptyString => None
  | String c rest =>
      match rest with
      | EmptyString => if Ascii.eqb c "$" then Some [] else None
      | String c' rest' =>
          if Ascii.eqb c "\" && Ascii.eqb c' "."
          then option_map (cons (ReChar ".")) (parseAnchoredBody rest')
          else if Ascii.eqb c "." && Ascii.eqb c' "*"
          then option_map (cons ReDotStar) (parseAnchoredBody rest')
          else if isPatternChar c
          then option_map (cons (ReChar c)) (parseAnchoredBody rest)
          else None
      end
  end.

(** [new RegExp(src, 'i')] on the fragment. *)
Definition RegExp_new (src : string) : option RegExp :=
  match src with
  | String "^" body => parseAnchoredBody body
  | _ => None
  end.

(** Case-insensitive comparison canonicalises with [toUpperCase]. *)
Definition ciEq (a b : ascii) : bool :=
  Ascii.eqb (toUpperChar a) (toUpperChar b).

(** Anchored match of the whole subject.  The engine tries the longest
    run for [.*] first; the order of the attempts does not change whether
    some attempt succeeds. *)
Fixpoint matchNodes (nodes : RegExp) : string -> bool :=
  match nodes with
  | [] => fun s => match s with EmptyString => true | _ => false end
  | ReChar c :: rest =>
      fun s =>
        match s with
        | String x s' => ciEq c x && matchNodes rest s'
        | EmptyString => false
        end
  | ReDotStar :: rest =>
      fix star (s : string) : bool :=
        match s with
        | String x s' =>
            (negb (isLineTerminator x) && star s') || matchNodes rest s
        | EmptyString => matchNodes rest s
        end
  end.

Definition RegExp_test (re : RegExp) (s : string) : bool := matchNodes re s.

(** *** Numbers *)

(** [Math.round(a / b)] for integers with [b > 0]: halves go up. *)
Definition Math_round_div (a b : Z) : Z := (2 * a + b) / (2 * b).

(** [Math.ceil] of a rational. *)
Definition Math_ceil (x : Q) : Z := Qceiling x.

Definition Qltb (x y : Q) : bool := negb (Qle_bool y x).
Definition Qgtb (x y : Q) : bool := Qltb y x.

End JS.

(* ===================================================================== *)
(** ** The platform's [URL] class, as far as [hostname] goes *)
(* ===================================================================== *)

(** A model of [new URL(input).hostname] for the URL shapes tabs have:
    [scheme://userinfo@host:port/path?query#fragment], [file:] URLs and
    scheme-only URLs such as [about:blank].  There is no base URL, so an
    input without a scheme throws.  Hosts are taken verbatim, lower-cased
    for the special schemes; percent-decoding, IDNA and IPv4
    canonicalisation are not modelled. *)

Module URL.
Import JS.

Definition isTabOrNewline (c : ascii) : bool :=
  (code c =? 9)%N || isLineTerminator c.

Definition isC0OrSpace (c : ascii) : bool := (code c <=? 32)%N.

Fixpoint removeTabNewline (s : string) : string :=
  match s with
  | EmptyString => EmptyString
  | String c s' =>
      if isTabOrNewline c then removeTabNewline s'
      else String c (removeTabNewline s')
  end.

Fixpoint stripLeading (s : string) : string :=
  match s with
  | EmptyString => EmptyString
  | String c s' => if isC0OrSpace c then stripLeading s' else s
  end.

Fixpoint stripTrailing (s : string) : string :=
  match s with
  | EmptyString => EmptyString
  | String c s' =>
      match stripTrailing s' with
      | EmptyString => if isC0OrSpace c then EmptyString
                       else String c EmptyString
      | r => String c r
      end
  end.

Definition isSchemeChar (c : ascii) : bool :=
  isAlpha c || isDigit c || charIn c "+-.".

(** Splits [scheme ":" rest]; [None] when no scheme can be read. *)
Fixpoint splitScheme (s : string) : option (string * string) :=
  match s with
  | EmptyString => None
  | String c rest =>
      if Ascii.eqb c ":" then Some (EmptyString, rest)
      else if isSchemeChar c then
        match splitScheme rest with
        | Some (sch, r) => Some (String c sch, r)
        | None => None
        end
      else None
  end.

Definition startsWithAlpha (s : string) : bool :=
  match s with
  | String c _ => isAlpha c
  | EmptyString => false
  end.

Definition isSpecial (scheme : string) : bool :=
  existsb (String.eqb scheme) ["http"; "https"; "ws"; "wss"; "ftp"]%string.

Fixpoint takeUntil (stop : ascii -> bool) (s : string) : string :=
  match s with
  | EmptyString => EmptyString
  | String c s' => if stop c then EmptyString else String c (takeUntil stop s')
  end.

Fixpoint dropUntil (stop : ascii -> bool) (s : string) : string :=
  match s with
  | EmptyString => EmptyString
  | String c s' => if stop c then s else dropUntil stop s'
  end.

Fixpoint dropWhile (p : ascii -> bool) (s : string) : string :=
  match s with
  | EmptyString => EmptyString
  | String c s' => if p c then dropWhile p s' else s
  end.

(** The part of the authority after its last ["@"], if it has one. *)
Fixpoint afterLastAt (s : string) : option string :=
  match s with
  | EmptyString => None
  | String c s' =>
      match afterLastAt s' with
      | Some r => Some r
      | None => if Ascii.eqb c "@" then Some s' else None
      end
  end.

Definition hostAndPort (authority : string) : string :=
  match afterLastAt authority with
  | Some r => r
  | None => authority
  end.

Fixpoint allDigits (s : string) : bool :=
  match s with
  | EmptyString => true
  | String c s' => isDigit c && allDigits s'
  end.

Fixpoint decimalValue (acc : N) (s : string) : N :=
  match s with
  | EmptyString => acc
  | String c s' => decimalValue (acc * 10 + (code c - 48))%N s'
  end.

Definition validPort (rest : string) : bool :=
  match rest with
  | EmptyString => true
  | String c digits =>
      Ascii.eqb c ":" && allDigits digits && (decimalValue 0 digits <=? 65535)%N
  end.

Definition isForbiddenHostChar (c : ascii) : bool :=
  (code c <=? 32)%N || charIn c "#/:<>?@[\]^|".

Definition isForbiddenDomainChar (c : ascii) : bool :=
  isForbiddenHostChar c || Ascii.eqb c "%" || (code c =? 127)%N.

Fixpoint anyChar (p : ascii -> bool) (s : string) : bool :=
  match s with
  | EmptyString => false
  | String c s' => p c || anyChar p s'
  end.

Definition invalidURL {A : Type} : Completion A := Throw "TypeError".

Fixpoint allChars (p : ascii -> bool) (s : string) : bool :=
  match s with
  | EmptyString => true
  | String c s' => p c && allChars p s'
  end.

Definition isIPv6Char (c : ascii) : bool :=
  isDigit c || inRange 65 70 c || inRange 97 102 c || charIn c ":.".

(** Host of an authority: a bracketed IPv6 literal is kept as written,
    otherwise the host runs up to the port separator. *)
Definition parseHost (special : bool) (hp : string) : Completion string :=
  if String.prefix "[" hp then
    let inside := takeUntil (Ascii.eqb "]") (dropChars 1 hp) in
    match dropUntil (Ascii.eqb "]") hp with
    | String _ after =>
        if validPort after && allChars isIPv6Char inside
        then Normal (toLowerCase ("[" ++ inside ++ "]"))
        else invalidURL
    | EmptyString => invalidURL
    end
  else
    let host := takeUntil (Ascii.eqb ":") hp in
    let rest := dropUntil (Ascii.eqb ":") hp in
    if negb (validPort rest) then invalidURL
    else if special then
      if String.eqb host "" || anyChar isForbiddenDomainChar host
      then invalidURL
      else Normal (toLowerCase host)
    else
      if anyChar isForbiddenHostChar host then invalidURL
      else Normal host.

Definition isSlash (special : bool) (c : ascii) : bool :=
  Ascii.eqb c "/" || (special && Ascii.eqb c "\").

Definition endsAuthority (special : bool) (c : ascii) : bool :=
  isSlash special c || Ascii.eqb c "?" || Ascii.eqb c "#".

Definition isDriveLetter (s : string) : bool :=
  match s with
  | String a (String b EmptyString) => isAlpha a && charIn b ":|"
  | _ => false
  end.

(** Host of a [file:] URL: what stands between the two slashes and the
    path, unless it is empty, a drive letter or [localhost]. *)
Definition fileHost (rest : string) : Completion string :=
  match rest with
  | String a (String b after) =>
      if isSlash true a && isSlash true b then
        let authority := takeUntil (endsAuthority true) after in
        if String.eqb authority "" || isDriveLetter authority
        then Normal EmptyString
        else
          match parseHost true authority with
          | Normal h =>
              if String.eqb h "localhost" then Normal EmptyString
              else Normal h
          | Throw e => Throw e
          end
      else Normal EmptyString
  | _ => Normal EmptyString
  end.

(** [new URL(input).hostname]. *)
Definition hostname (input : string) : Completion string :=
  let s := removeTabNewline (stripTrailing (stripLeading input)) in
  if negb (startsWithAlpha s) then invalidURL
  else
    match splitScheme s with
    | None => invalidURL
    | Some (sch, rest) =>
        let scheme := toLowerCase sch in
        if isSpecial scheme then
          parseHost true
            (hostAndPort (takeUntil (endsAuthority true)
                            (dropWhile (isSlash true) rest)))
        else if String.eqb scheme "file" then fileHost rest
        else if String.prefix "//" rest then
          parseHost false
            (hostAndPort (takeUntil (endsAuthority false) (dropChars 2 rest)))
        else Normal EmptyString
    end.

End URL.

(* ===================================================================== *)
(** ** Rule objects exchanged with WhitelistManager *)
(* ===================================================================== *)

(** The argument of [importRules] and the result of [getLists]: an object
    whose [whitelist] and [blacklist] arrays may each be absent. *)
Module RulesData.
Record t : Type := mk {
  whitelist : option (list string);
  blacklist : option (list string)
}.
End RulesData.

(** The result of [exportRules]. *)
Module RulesExport.
Record t : Type := mk {
  whitelist : list string;
  blacklist : list string;
  exportDate : string;
  version : string
}.

(** The export read back as the argument of [importRules]. *)
Definition asData (e : t) : RulesData.t :=
  RulesData.mk (Some (whitelist e)) (Some (blacklist e)).
End RulesExport.

(* ===================================================================== *)
(** ** WhitelistManager *)
(* ===================================================================== *)

Module WhitelistManager.
Import JS.

(** The object's fields: the two sets and [this.patterns].  A mutator
    answers [None] when a domain of the set it recompiles lies outside the
    modelled fragment of regular expressions. *)
Record t : Type := mk {
  whitelist : list string;
  blacklist : list string;
  patterns_whitelist : list RegExp;
  patterns_blacklist : list RegExp
}.

Definition constructor : t := mk [] [] [] [].

(** The [type] argument of [compilePatterns]; the callers pass one of the
    two literals ['whitelist'] and ['blacklist']. *)
Inductive ListType : Type := Whitelist | Blacklist.

(** The source text handed to [new RegExp]:
    [domain.replace(/\./g, '\\.').replace(/\*/g, '.*')] between anchors. *)
Definition patternSource (domain : string) : string :=
  ("^" ++ replaceAll "*" ".*" (replaceAll "." "\." domain) ++ "$")%string.

(** The loop of [compilePatterns] over one set. *)
Fixpoint compileList (domains : list string) : option (list RegExp) :=
  match domains with
  | [] => Some []
  | domain :: rest =>
      match RegExp_new (patternSource domain), compileList rest with
      | Some re, Some res => Some (re :: res)
      | _, _ => None
      end
  end.

Definition compilePatterns (type : ListType) (m : t) : option t :=
  match type with
  | Whitelist =>
      option_map
        (fun ps => mk (whitelist m) (blacklist m) ps (patterns_blacklist m))
        (compileList (whitelist m))
  | Blacklist =>
      option_map
        (fun ps => mk (whitelist m) (blacklist m) (patterns_whitelist m) ps)
        (compileList (blacklist m))
  end.

(** [normalizeDomain]; [None] is [null]. *)
Definition normalizeDomain (domain : string) : option string :=
  if String.eqb domain "" then None
  else
    let domain := toLowerCase (trim domain) in
    let domain := stripHttpScheme domain in
    let domain := splitFirst "/" domain in
    let domain := splitFirst ":" domain in
    Some domain.

Definition setWhitelist (m : t) (w : list string) : t :=
  mk w (blacklist m) (patterns_whitelist m) (patterns_blacklist m).

Definition setBlacklist (m : t) (b : list string) : t :=
  mk (whitelist m) b (patterns_whitelist m) (patterns_blacklist m).

Definition addToWhitelist (domain : string) (m : t) : option (bool * t) :=
  match normalizeDomain domain with
  | Some d =>
      if String.eqb d "" then Some (false, m)
      else option_map (pair true)
             (compilePatterns Whitelist (setWhitelist m (setAdd (whitelist m) d)))
  | None => Some (false, m)
  end.

Definition removeFromWhitelist (domain : string) (m : t) : option (bool * t) :=
  match normalizeDomain domain with
  | Some d =>
      if setHas (whitelist m) d
      then option_map (pair true)
             (compilePatterns Whitelist
                (setWhitelist m (setDelete (whitelist m) d)))
      else Some (false, m)
  | None => Some (false, m)
  end.

Definition addToBlacklist (domain : string) (m : t) : option (bool * t) :=
  match normalizeDomain domain with
  | Some d =>
      if String.eqb d "" then Some (false, m)
      else option_map (pair true)
             (compilePatterns Blacklist (setBlacklist m (setAdd (blacklist m) d)))
  | None => Some (false, m)
  end.

Definition removeFromBlacklist (domain : string) (m : t) : option (bool * t) :=
  match normalizeDomain domain with
  | Some d =>
      if setHas (blacklist m) d
      then option_map (pair true)
             (compilePatterns Blacklist
                (setBlacklist m (setDelete (blacklist m) d)))
      else Some (false, m)
  | None => Some (false, m)
  end.

(** [initialize]: the stored arrays, when present, are added as they are
    (without normalisation) and compiled. *)
Definition initialize (storedWhitelist storedBlacklist : option (list string))
    (m : t) : option t :=
  let step1 :=
    match storedWhitelist with
    | Some ds =>
        compilePatterns Whitelist
          (setWhitelist m (fold_left setAdd ds (whitelist m)))
    | None => Some m
    end in
  match step1 with
  | Some m1 =>
      match storedBlacklist with
      | Some ds =>
          compilePatterns Blacklist
            (setBlacklist m1 (fold_left setAdd ds (blacklist m1)))
      | None => Some m1
      end
  | None => None
  end.

Definition clearAll (m : t) : t := mk [] [] [] [].

Definition isWhitelisted (m : t) (url : string) : Completion bool :=
  tryCatch
    (bind (URL.hostname url) (fun domain =>
       (* Exact match *)
       if setHas (whitelist m) domain then Normal true
       (* Pattern match *)
       else Normal (existsb (fun pattern => RegExp_test pattern domain)
                      (patterns_whitelist m))))
    (fun _ => Normal false).

Definition isBlacklisted (m : t) (url : string) : Completion bool :=
  tryCatch
    (bind (URL.hostname url) (fun domain =>
       if setHas (blacklist m) domain then Normal true
       else Normal (existsb (fun pattern => RegExp_test pattern domain)
                      (patterns_blacklist m))))
    (fun _ => Normal false).

(** [canSleep]: [Some false] never sleeps, [Some true] sleeps quickly,
    [None] is [null], "use default rules". *)
Definition canSleep (m : t) (url : string) : Completion (option bool) :=
  bind (isWhitelisted m url) (fun w =>
    if w then Normal (Some false)
    else bind (isBlacklisted m url) (fun b =>
      if b then Normal (Some true) else Normal None)).

(** [getSleepPriority]: 0 never sleep, 1 normal, 2 priority sleep. *)
Definition getSleepPriority (m : t) (url : string) : Completion Z :=
  bind (isWhitelisted m url) (fun w =>
    if w then Normal 0
    else bind (isBlacklisted m url) (fun b =>
      if b then Normal 2 else Normal 1)).

(** [importRules]: a list that is present replaces the set ([clear], then
    [add] for each entry, without normalisation) and is compiled. *)
Definition importRules (data : RulesData.t) (m : t) : option (bool * t) :=
  let step1 :=
    match RulesData.whitelist data with
    | Some ds =>
        compilePatterns Whitelist (setWhitelist m (fold_left setAdd ds []))
    | None => Some m
    end in
  match step1 with
  | Some m1 =>
      let step2 :=
        match RulesData.blacklist data with
        | Some ds =>
            compilePatterns Blacklist
              (setBlacklist m1 (fold_left setAdd ds []))
        | None => Some m1
        end in
      option_map (pair true) step2
  | None => None
  end.

(** [exportRules]; [isoDate] is [new Date().toISOString()]. *)
Definition exportRules (isoDate : string) (m : t) : RulesExport.t :=
  RulesExport.mk (whitelist m) (blacklist m) isoDate "2.0.0".

(** [Array.prototype.sort()] without comparator on strings: ascending by
    code units (bytes here), by insertion. *)
Fixpoint insertString (x : string) (sorted : list string) : list string :=
  match sorted with
  | [] => [x]
  | y :: rest =>
      if String.leb x y then x :: sorted else y :: insertString x rest
  end.

Fixpoint sortStrings (l : list string) : list string :=
  match l with
  | [] => []
  | x :: rest => insertString x (sortStrings rest)
  end.

(** [getLists]. *)
Definition getLists (m : t) : RulesData.t :=
  RulesData.mk (Some (sortStrings (whitelist m)))
    (Some (sortStrings (blacklist m))).

(** [getStats]: [(whitelistCount, blacklistCount, totalRules)]. *)
Definition getStats (m : t) : Z * Z * Z :=
  let w := Z.of_nat (length (whitelist m)) in
  let b := Z.of_nat (length (blacklist m)) in
  (w, b, w + b).

End WhitelistManager.

(* ===================================================================== *)
(** ** ResourceControls v3.0 (Advanced Core Module) *)
(* ===================================================================== *)

(** A tab as the host reports it ([chrome.tabs.Tab]); [url = None] is an
    [undefined] url. *)
Module Tab.
Record t : Type := mk {
  id : Z;
  url : option string;
  discarded : bool;
  audible : bool
}.
End Tab.

(** The argument of [updateConfig]: an object holding any subset of the
    settings. *)
Module NewConfig.
Record t : Type := mk {
  ramLimit : option Z;
  sleepTimer : option Z;
  autoSleep : option bool;
  aggressiveMode : option bool;
  checkInterval : option Z;
  updateInterval : option Z;
  minInactiveTime : option Z;
  maxCacheAge : option Z;
  emergencyThreshold : option Q;
  warningThreshold : option Q;
  optimalThreshold : option Q
}.

(** The empty object. *)
Definition empty : t :=
  mk None None None None None None None None None None None.

(** Objects with a single setting, as the callers build them. *)
Definition ofRamLimit (v : Z) : t :=
  mk (Some v) None None None None None None None None None None.

Definition ofModes (autoSleep aggressiveMode : bool) : t :=
  mk None None (Some autoSleep) (Some aggressiveMode) None None None None
    None None None.

End NewConfig.

Module ResourceControls.
Import JS.

Inductive MemoryStatus : Type := optimal | elevated | warning | critical.

Record Config : Type := mkConfig {
  ramLimit : Z;
  sleepTimer : Z;
  autoSleep : bool;
  aggressiveMode : bool;
  checkInterval : Z;
  updateInterval : Z;
  minInactiveTime : Z;
  maxCacheAge : Z;
  emergencyThreshold : Q;
  warningThreshold : Q;
  optimalThreshold : Q
}.

Record TabMetadata : Type := mkMetadata {
  createdAt : Z;
  activationCount : Z;
  totalActiveTime : Z;
  lastSleepTime : option Z;
  sleepCount : Z;
  domain : string;
  category : string
}.

Record MemoryReading : Type := mkReading {
  totalMB : Z;
  availableMB : Z;
  usedMB : Z;
  usagePercent : Q;
  totalBytes : Z;
  availableBytes : Z;
  status : MemoryStatus;
  timestamp : Z;
  stale : bool
}.

Record Stats : Type := mkStats {
  checksPerformed : Z;
  emergencySleeps : Z
}.

Record State : Type := mkState {
  config : Config;
  tabActivityTimes : gmap Z Z;
  tabMetadata : gmap Z TabMetadata;
  memoryCache : option MemoryReading;
  memoryCacheTime : Z;
  sleepHistory : gmap Z Z;
  stats : Stats
}.

Definition constructor : State :=
  mkState
    (mkConfig 2000 10 false false 60000 3000 60000 2000 85 70 60)
    ∅ ∅ None 0 ∅ (mkStats 0 0).

(** A number used as a condition: [0] is falsy. *)
Definition truthy (n : Z) : bool := negb (n =? 0).

(** *** updateConfig *)

(** The range validation, which rewrites [newConfig] in place. *)
Definition validateRanges (newConfig : NewConfig.t) : NewConfig.t :=
  let ramLimit' :=
    match NewConfig.ramLimit newConfig with
    | Some v => if truthy v then Some (Z.max 1000 (Z.min 5000 v)) else Some v
    | None => None
    end in
  let sleepTimer' :=
    match NewConfig.sleepTimer newConfig with
    | Some v => if truthy v then Some (Z.max 1 (Z.min 60 v)) else Some v
    | None => None
    end in
  NewConfig.mk ramLimit' sleepTimer'
    (NewConfig.autoSleep newConfig) (NewConfig.aggressiveMode newConfig)
    (NewConfig.checkInterval newConfig) (NewConfig.updateInterval newConfig)
    (NewConfig.minInactiveTime newConfig) (NewConfig.maxCacheAge newConfig)
    (NewConfig.emergencyThreshold newConfig)
    (NewConfig.warningThreshold newConfig)
    (NewConfig.optimalThreshold newConfig).

(** [Object.assign(this.config, newConfig)]. *)
Definition assign (c : Config) (n : NewConfig.t) : Config :=
  mkConfig
    (default (ramLimit c) (NewConfig.ramLimit n))
    (default (sleepTimer c) (NewConfig.sleepTimer n))
    (default (autoSleep c) (NewConfig.autoSleep n))
    (default (aggressiveMode c) (NewConfig.aggressiveMode n))
    (default (checkInterval c) (NewConfig.checkInterval n))
    (default (updateInterval c) (NewConfig.updateInterval n))
    (default (minInactiveTime c) (NewConfig.minInactiveTime n))
    (default (maxCacheAge c) (NewConfig.maxCacheAge n))
    (default (emergencyThreshold c) (NewConfig.emergencyThreshold n))
    (default (warningThreshold c) (NewConfig.warningThreshold n))
    (default (optimalThreshold c) (NewConfig.optimalThreshold n)).

Definition setConfig (st : State) (c : Config) : State :=
  mkState c (tabActivityTimes st) (tabMetadata st) (memoryCache st)
    (memoryCacheTime st) (sleepHistory st) (stats st).

Definition updateConfig (newConfig : NewConfig.t) (st : State) : State :=
  setConfig st (assign (config st) (validateRanges newConfig)).

(** *** getMemoryInfo *)

(** What [chrome.system.memory.getInfo()] resolves to. *)
Record MemoryInfo : Type := mkMemoryInfo {
  capacity : Z;
  availableCapacity : Z
}.

(** [parseFloat(x.toFixed(1))]: the nearest multiple of one tenth, halves
    away from zero. *)
Definition toFixed1 (x : Q) : Q :=
  if Qltb x 0
  then (- (inject_Z (Qfloor (- x * 10 + 0.5)) / 10))%Q
  else (inject_Z (Qfloor (x * 10 + 0.5)) / 10)%Q.

(** The threshold cascade that determines [status]. *)
Definition determineStatus (c : Config) (usagePercent : Q) : MemoryStatus :=
  if Qgtb usagePercent (emergencyThreshold c) then critical
  else if Qgtb usagePercent (warningThreshold c) then warning
  else if Qgtb usagePercent (optimalThreshold c) then elevated
  else optimal.

(** The reading built on the success path. *)
Definition readMemory (c : Config) (now : Z) (memoryInfo : MemoryInfo)
    : MemoryReading :=
  let totalBytes := capacity memoryInfo in
  let availableBytes := availableCapacity memoryInfo in
  let totalMB := Math_round_div totalBytes (1024 * 1024) in
  let availableMB := Math_round_div availableBytes (1024 * 1024) in
  let usedMB := totalMB - availableMB in
  let usagePercent :=
    toFixed1 (inject_Z usedMB / inject_Z totalMB * 100)%Q in
  mkReading totalMB availableMB usedMB usagePercent totalBytes availableBytes
    (determineStatus c usagePercent) now false.

Definition setStale (r : MemoryReading) : MemoryReading :=
  mkReading (totalMB r) (availableMB r) (usedMB r) (usagePercent r)
    (totalBytes r) (availableBytes r) (status r) (timestamp r) true.

Definition setMemoryCache (st : State) (r : MemoryReading) (now : Z) : State :=
  mkState (config st) (tabActivityTimes st) (tabMetadata st) (Some r) now
    (sleepHistory st) (stats st).

Definition cacheIsFresh (st : State) (now : Z) : bool :=
  match memoryCache st with
  | Some _ => now - memoryCacheTime st <? maxCacheAge (config st)
  | None => false
  end.

(** [getMemoryInfo]; [source] is the outcome of the host query, which is
    consulted only when the cache is not fresh.  [None] is [null]. *)
Definition getMemoryInfo (now : Z) (source : Completion MemoryInfo)
    (st : State) : option MemoryReading * State :=
  if cacheIsFresh st now then (memoryCache st, st)
  else
    match source with
    | Normal memoryInfo =>
        let r := readMemory (config st) now memoryInfo in
        (Some r, setMemoryCache st r now)
    | Throw _ =>
        (* Fallback to stale cache *)
        match memoryCache st with
        | Some c => (Some (setStale c), st)
        | None => (None, st)
        end
    end.

(** *** Scoring *)

(** [calculateSleepScore].  The score is a sum of integers, so the final
    [Math.round] leaves it unchanged. *)
Definition calculateSleepScore (now : Z) (tab : Tab.t) (inactiveTime : Z)
    (metadata : option TabMetadata) (isActive isSleeping : bool) : Z :=
  if isActive || isSleeping then 0
  else
    let score := 50 in
    (* Inactivity score *)
    let inactiveMinutes := (inject_Z inactiveTime / 60000)%Q in
    let score :=
      if Qgtb inactiveMinutes 60 then score + 30
      else if Qgtb inactiveMinutes 30 then score + 20
      else if Qgtb inactiveMinutes 15 then score + 10
      else if Qgtb inactiveMinutes 5 then score + 5
      else score in
    (* Metadata score *)
    let score :=
      match metadata with
      | Some md =>
          let score :=
            if activationCount md <? 3 then score + 15
            else if activationCount md <? 10 then score + 5
            else if activationCount md >? 30 then score - 15
            else score in
          match lastSleepTime md with
          | Some t =>
              if truthy t && (now - t <? 300000) then score - 20 else score
          | None => score
          end
      | None => score
      end in
    (* URL-based score *)
    let score :=
      match URL.hostname (default "undefined"%string (Tab.url tab)) with
      | Normal hostname =>
          let score :=
            if testAlternatives
                 ["gmail"; "docs.google"; "drive"; "calendar"; "notion";
                  "slack"]%string hostname
            then score - 15 else score in
          let score :=
            if testAlternatives
                 ["facebook"; "twitter"; "instagram"; "tiktok"; "youtube";
                  "netflix"]%string hostname
            then score + 10 else score in
          if testAlternatives ["news"; "blog"; "medium"; "reddit"]%string
               hostname
          then score + 5 else score
      | Throw _ => score
      end in
    Z.max 0 (Z.min 100 score).

(** *** getTabsInfo *)

Record TabInfo : Type := mkTabInfo {
  id : Z;
  url : string;
  isActive : bool;
  isSleeping : bool;
  audible : bool;
  lastActivity : Z;
  inactiveTime : Z;
  inactiveMinutes : Z;
  metadata : option TabMetadata;
  sleepScore : Z
}.

Record TabsInfo : Type := mkTabsInfo {
  tabs : list TabInfo;
  total : Z;
  active : Z;
  sleeping : Z
}.

Definition orElse (s : option string) (d : string) : string :=
  match s with
  | Some (String c r) => String c r
  | _ => d
  end.

(** One iteration of the loop over the host's tabs.  The estimated RAM of
    a tab is randomised and plays no part in the selection; it is left
    out. *)
Definition tabInfo (st : State) (now : Z) (activeTab : option Tab.t)
    (tab : Tab.t) : TabInfo :=
  let isActive :=
    match activeTab with
    | Some a => Tab.id tab =? Tab.id a
    | None => false
    end in
  let isSleeping := Tab.discarded tab in
  let lastActivity :=
    match tabActivityTimes st !! Tab.id tab with
    | Some t => if truthy t then t else now
    | None => now
    end in
  let inactiveTime := now - lastActivity in
  let metadata := tabMetadata st !! Tab.id tab in
  let sleepScore :=
    calculateSleepScore now tab inactiveTime metadata isActive isSleeping in
  mkTabInfo (Tab.id tab) (orElse (Tab.url tab) "about:blank") isActive
    isSleeping (Tab.audible tab) lastActivity inactiveTime
    (inactiveTime / 60000) metadata sleepScore.

Definition count (p : TabInfo -> bool) (l : list TabInfo) : Z :=
  Z.of_nat (length (List.filter p l)).

(** [getTabsInfo]; [query] is the outcome of the two [chrome.tabs.query]
    calls: all tabs and the active tab of the current window. *)
Definition getTabsInfo (now : Z)
    (query : Completion (list Tab.t * option Tab.t)) (st : State) : TabsInfo :=
  match query with
  | Normal (hostTabs, activeTab) =>
      let tabsInfo := map (tabInfo st now activeTab) hostTabs in
      mkTabsInfo tabsInfo (Z.of_nat (length hostTabs))
        (count (fun info => negb (isSleeping info)) tabsInfo)
        (count isSleeping tabsInfo)
  | Throw _ => mkTabsInfo [] 0 0 0
  end.

(** *** Candidate filters *)

Definition isSystemPage (url : string) : bool :=
  startsWith url "chrome://" ||
  startsWith url "chrome-extension://" ||
  startsWith url "edge://" ||
  startsWith url "about:" ||
  startsWith url "data:".

Definition isValidSleepCandidate (tab : TabInfo) : bool :=
  negb (isActive tab) &&
  negb (isSleeping tab) &&
  negb (audible tab) &&
  negb (isSystemPage (url tab)).

Definition calculateEffectiveSleepTimer (c : Config) (baseTimer : Q)
    (usagePercent : Q) : Q :=
  if negb (aggressiveMode c) then baseTimer
  else if Qgtb usagePercent 85 then (baseTimer * 0.2)%Q
  else if Qgtb usagePercent 80 then (baseTimer * 0.3)%Q
  else if Qgtb usagePercent 75 then (baseTimer * 0.5)%Q
  else if Qgtb usagePercent 70 then (baseTimer * 0.6)%Q
  else if Qgtb usagePercent 65 then (baseTimer * 0.7)%Q
  else if Qgtb usagePercent 60 then (baseTimer * 0.8)%Q
  else if Qgtb usagePercent 55 then (baseTimer * 0.9)%Q
  else baseTimer.

(** [calculateEffectiveSleepTimer] with the product [baseTimer * k] left
    to the caller: the code multiplies doubles, whose product is the
    exact one rounded to the nearest double. *)
Definition calculateEffectiveSleepTimerWith (times : Q -> Q -> Q)
    (c : Config) (baseTimer : Q) (usagePercent : Q) : Q :=
  if negb (aggressiveMode c) then baseTimer
  else if Qgtb usagePercent 85 then times baseTimer 0.2%Q
  else if Qgtb usagePercent 80 then times baseTimer 0.3%Q
  else if Qgtb usagePercent 75 then times baseTimer 0.5%Q
  else if Qgtb usagePercent 70 then times baseTimer 0.6%Q
  else if Qgtb usagePercent 65 then times baseTimer 0.7%Q
  else if Qgtb usagePercent 60 then times baseTimer 0.8%Q
  else if Qgtb usagePercent 55 then times baseTimer 0.9%Q
  else baseTimer.

Definition shouldTabSleep (now : Z) (tab : TabInfo) (effectiveSleepTimer : Q)
    (usagePercent : Q) : bool :=
  (* Time check *)
  if Qltb (inject_Z (inactiveTime tab)) effectiveSleepTimer then false
  else
    (* the two statements after the metadata block *)
    let byPressureOrScore :=
      (* Critical RAM = aggressive *)
      if Qgtb usagePercent 85 then true
      (* Score-based decision *)
      else sleepScore tab >? 60 in
    (* Metadata checks *)
    match metadata tab with
    | Some md =>
        (* New tabs grace period *)
        let age := now - createdAt md in
        if age <? 180000 then false
        (* Frequent tabs protection *)
        else if activationCount md >? 30
        then Qgtb (inject_Z (inactiveTime tab)) (effectiveSleepTimer * 2)
        else if activationCount md >? 15
        then Qgtb (inject_Z (inactiveTime tab)) (effectiveSleepTimer * 1.5)
        else byPressureOrScore
    | None => byPressureOrScore
    end.

(** *** Sorting by score

    [array.sort((a, b) => b.sleepScore - a.sleepScore)]: the sort is
    stable and the comparator is a total preorder on integer scores, so
    the result is the stable descending arrangement, computed here by
    insertion. *)

Fixpoint insertByScore (x : TabInfo) (sorted : list TabInfo) : list TabInfo :=
  match sorted with
  | [] => [x]
  | y :: rest =>
      if sleepScore x <? sleepScore y then y :: insertByScore x rest
      else x :: sorted
  end.

Fixpoint sortByScore (l : list TabInfo) : list TabInfo :=
  match l with
  | [] => []
  | x :: rest => insertByScore x (sortByScore rest)
  end.

(** *** The tiered pass of checkAndSleepTabs *)

(** [candidates]: filter, annotate with [shouldSleep], filter, sort. *)
Definition sleepCandidates (now : Z) (effectiveSleepTimer usagePercent : Q)
    (tabs : list TabInfo) : list TabInfo :=
  sortByScore
    (List.filter (fun tab => shouldTabSleep now tab effectiveSleepTimer usagePercent)
       (List.filter isValidSleepCandidate tabs)).

(** [Math.ceil(candidates.length * f)] on exact rationals.  In double
    arithmetic the product of a count below 2^48 with one of the constants
    0.8, 0.6, 0.4, 0.3 (and 0.7 below) rounds to the exact integer when
    the exact product is one and stays strictly between the neighbouring
    integers otherwise, so the ceiling is the same. *)
Definition targetCount (status : MemoryStatus) (candidates : list TabInfo) : Z :=
  let n := inject_Z (Z.of_nat (length candidates)) in
  match status with
  | critical => Math_ceil (n * 0.8)
  | warning => Math_ceil (n * 0.6)
  | elevated => Math_ceil (n * 0.4)
  | optimal => Math_ceil (n * 0.3)
  end.

(** [candidates.slice(0, targetCount)], the array [toSleep]. *)
Definition slice0 (n : Z) (l : list TabInfo) : list TabInfo :=
  firstn (Z.to_nat n) l.

Definition tieredSelection (status : MemoryStatus) (candidates : list TabInfo)
    : list TabInfo :=
  slice0 (targetCount status candidates) candidates.

(** The answer of the host to [chrome.tabs.discard(id)]: [true] when the
    promise resolves, [false] when it rejects.  It may depend on the
    requests made before. *)
Definition DiscardOracle : Type := list Z -> Z -> bool.

Definition recordSleep (now tabId : Z) (st : State) : State :=
  let tabMetadata' :=
    match tabMetadata st !! tabId with
    | Some md =>
        <[tabId := mkMetadata (createdAt md) (activationCount md)
                     (totalActiveTime md) (Some now) (sleepCount md + 1)
                     (domain md) (category md)]> (tabMetadata st)
    | None => tabMetadata st
    end in
  mkState (config st) (tabActivityTimes st) tabMetadata' (memoryCache st)
    (memoryCacheTime st) (<[tabId := now]> (sleepHistory st)) (stats st).

(** The running values of a discard loop: the count of successes, the
    requests sent to the host so far (oldest first) and the engine state. *)
Record Loop : Type := mkLoop {
  sleptCount : Z;
  requests : list Z;
  state : State
}.

(** Body of [for (const tab of toSleep)]. *)
Definition sleepStep (discard : DiscardOracle) (now : Z) (acc : Loop)
    (tab : TabInfo) : Loop :=
  if discard (requests acc) (id tab)
  then mkLoop (sleptCount acc + 1) (requests acc ++ [id tab])
         (recordSleep now (id tab) (state acc))
  else mkLoop (sleptCount acc) (requests acc ++ [id tab]) (state acc).

(** *** emergencySleep *)

Definition emergencyCandidates (tabs : list TabInfo) : list TabInfo :=
  sortByScore
    (List.filter (fun t => negb (isSleeping t) && negb (isActive t) &&
                      negb (audible t) && negb (isSystemPage (url t)))
       tabs).

Definition emergencyTarget (tabs : list TabInfo) : Z :=
  Math_ceil (inject_Z (Z.of_nat (length (emergencyCandidates tabs))) * 0.7).

(** The handles the loop of [emergencySleep] visits:
    [candidates[i]] for [i < toSleep && i < candidates.length]. *)
Definition emergencySelection (tabs : list TabInfo) (alreadySlept : Z)
    : list TabInfo :=
  let toSleep := Z.max 0 (emergencyTarget tabs - alreadySlept) in
  slice0 toSleep (emergencyCandidates tabs).

Definition emergencyStep (discard : DiscardOracle) (acc : Z * list Z)
    (tab : TabInfo) : Z * list Z :=
  let (sleptCount, requests) := acc in
  if discard requests (id tab) then (sleptCount + 1, requests ++ [id tab])
  else (sleptCount, requests ++ [id tab]).

(** [emergencySleep(tabs, alreadySlept)]; [requests] are the discard
    requests already made in the cycle.  Returns its own count of
    successes and the extended request log. *)
Definition emergencySleep (discard : DiscardOracle) (tabs : list TabInfo)
    (alreadySlept : Z) (requests : list Z) : Z * list Z :=
  fold_left (emergencyStep discard) (emergencySelection tabs alreadySlept)
    (0, requests).

(** *** checkAndSleepTabs *)

Inductive CheckResult : Type :=
| Skipped (reason : string)
| Checked (slept checked candidates : Z) (memory : Q)
    (status : MemoryStatus) (effectiveTimer : Z).

Record Outcome : Type := mkOutcome {
  result : CheckResult;
  discardRequests : list Z;
  finalState : State
}.

Definition isCritical (s : MemoryStatus) : bool :=
  match s with
  | critical => true
  | _ => false
  end.

(** The guard of the emergency pass. *)
Definition emergencyPassRuns (c : Config) (memoryInfo : MemoryReading) : bool :=
  aggressiveMode c && isCritical (status memoryInfo).

Definition setStats (st : State) (s : Stats) : State :=
  mkState (config st) (tabActivityTimes st) (tabMetadata st) (memoryCache st)
    (memoryCacheTime st) (sleepHistory st) s.

Definition sleepTimerMs (c : Config) : Z :=
  Z.max (sleepTimer c * 60 * 1000) (minInactiveTime c).

(** The dynamic threshold of a cycle. *)
Definition effectiveTimerOf (c : Config) (memoryInfo : MemoryReading) : Q :=
  calculateEffectiveSleepTimer c (inject_Z (sleepTimerMs c))
    (usagePercent memoryInfo).

(** The array [candidates] of a cycle. *)
Definition cycleCandidates (now : Z) (c : Config) (memoryInfo : MemoryReading)
    (tabsInfo : TabsInfo) : list TabInfo :=
  sleepCandidates now (effectiveTimerOf c memoryInfo)
    (usagePercent memoryInfo) (tabs tabsInfo).

(** The tiered pass: [toSleep] and the loop that discards it. *)
Definition tieredPass (discard : DiscardOracle) (now : Z) (st : State)
    (memoryInfo : MemoryReading) (tabsInfo : TabsInfo) : Loop :=
  let candidates := cycleCandidates now (config st) memoryInfo tabsInfo in
  let toSleep := tieredSelection (status memoryInfo) candidates in
  fold_left (sleepStep discard now) toSleep (mkLoop 0 [] st).

(** "Emergency sleep if critical". *)
Definition emergencyPass (discard : DiscardOracle) (memoryInfo : MemoryReading)
    (tabsInfo : TabsInfo) (tiered : Loop) : Loop :=
  if emergencyPassRuns (config (state tiered)) memoryInfo then
    let (emergencyCount, requests') :=
      emergencySleep discard (tabs tabsInfo) (sleptCount tiered)
        (requests tiered) in
    mkLoop (sleptCount tiered + emergencyCount) requests'
      (if emergencyCount >? 0
       then setStats (state tiered)
              (mkStats (checksPerformed (stats (state tiered)))
                 (emergencySleeps (stats (state tiered)) + 1))
       else state tiered)
  else tiered.

Definition countCheck (st : State) : State :=
  setStats st (mkStats (checksPerformed (stats st) + 1)
                 (emergencySleeps (stats st))).

Definition checkAndSleepTabs (now : Z) (source : Completion MemoryInfo)
    (query : Completion (list Tab.t * option Tab.t))
    (discard : DiscardOracle) (st : State) : Outcome :=
  if negb (autoSleep (config st))
  then mkOutcome (Skipped "Auto sleep disabled") [] st
  else
    let st := countCheck st in
    let (memoryInfo, st) := getMemoryInfo now source st in
    let tabsInfo := getTabsInfo now query st in
    match memoryInfo with
    | None => mkOutcome (Skipped "No memory info") [] st
    | Some memoryInfo =>
        let tiered := tieredPass discard now st memoryInfo tabsInfo in
        let final := emergencyPass discard memoryInfo tabsInfo tiered in
        mkOutcome
          (Checked (sleptCount final) (total tabsInfo)
             (Z.of_nat
                (length (cycleCandidates now (config st) memoryInfo tabsInfo)))
             (usagePercent memoryInfo) (status memoryInfo)
             (Qfloor (effectiveTimerOf (config st) memoryInfo / 60000 + 0.5)))
          (requests final) (state final)
    end.

Definition sleptOf (r : CheckResult) : Z :=
  match r with
  | Skipped _ => 0
  | Checked slept _ _ _ _ _ => slept
  end.

(** *** Tracking of tabs *)

Definition setTracking (st : State) (times : gmap Z Z)
    (meta : gmap Z TabMetadata) (history : gmap Z Z) : State :=
  mkState (config st) times meta (memoryCache st) (memoryCacheTime st)
    history (stats st).

Definition extractDomain (url : string) : string :=
  match URL.hostname url with
  | Normal hostname => hostname
  | Throw _ => "unknown"
  end.

Definition categorizeURL (url : string) : string :=
  match URL.hostname url with
  | Normal h =>
      let hostname := toLowerCase h in
      if testAlternatives ["youtube"; "netflix"; "twitch"; "vimeo"]%string
           hostname then "video"
      else if testAlternatives
                ["facebook"; "twitter"; "instagram"; "linkedin"; "reddit";
                 "tiktok"]%string hostname then "social"
      else if testAlternatives
                ["docs.google"; "notion"; "slack"; "trello"; "asana"]%string
                hostname then "productivity"
      else if testAlternatives ["github"; "stackoverflow"; "gitlab"]%string
                hostname then "development"
      else if testAlternatives ["amazon"; "ebay"; "shop"; "store"]%string
                hostname then "shopping"
      else if testAlternatives ["news"; "bbc"; "cnn"; "medium"; "blog"]%string
                hostname then "news"
      else "general"
  | Throw _ => "unknown"
  end.

(** [updateTabActivity]. *)
Definition updateTabActivity (now tabId : Z) (st : State) : State :=
  let lastActivity :=
    match tabActivityTimes st !! tabId with
    | Some t => if truthy t then t else now
    | None => now
    end in
  let metadata :=
    match tabMetadata st !! tabId with
    | Some md => md
    | None => mkMetadata now 0 0 None 0 "unknown" "general"
    end in
  let metadata :=
    mkMetadata (createdAt metadata) (activationCount metadata + 1)
      (totalActiveTime metadata + (now - lastActivity))
      (lastSleepTime metadata) (sleepCount metadata) (domain metadata)
      (category metadata) in
  setTracking st (<[tabId := now]> (tabActivityTimes st))
    (<[tabId := metadata]> (tabMetadata st)) (sleepHistory st).

(** [removeTab]: the three [delete] calls. *)
Definition removeTab (tabId : Z) (st : State) : State :=
  setTracking st (delete tabId (tabActivityTimes st))
    (delete tabId (tabMetadata st)) (delete tabId (sleepHistory st)).

(** *** cleanupOldData *)

Definition thirtyDays : Z := 30 * 24 * 60 * 60 * 1000.

Definition isOld (now : Z) (metadata : TabMetadata) : bool :=
  now - createdAt metadata >? thirtyDays.

(** Body of the loop over [this.tabMetadata.entries()]. *)
Definition cleanupStep (now : Z) (st : State) (entry : Z * TabMetadata)
    : State :=
  if isOld now (snd entry) then removeTab (fst entry) st else st.

(** [cleanupOldData].  The entries are visited in the order of the map's
    listing; the deletions of distinct keys commute. *)
Definition cleanupOldData (now : Z) (st : State) : State :=
  fold_left (cleanupStep now) (map_to_list (tabMetadata st)) st.

(** *** initializeTabActivities *)

(** What the loop does for a tab that is not a system page. *)
Definition trackTab (now : Z) (tab : Tab.t) (url : string) (st : State)
    : State :=
  let times :=
    match tabActivityTimes st !! Tab.id tab with
    | Some _ => tabActivityTimes st
    | None => <[Tab.id tab := now]> (tabActivityTimes st)
    end in
  let meta :=
    match tabMetadata st !! Tab.id tab with
    | Some _ => tabMetadata st
    | None =>
        <[Tab.id tab := mkMetadata now 0 0 None 0 (extractDomain url)
                          (categorizeURL url)]> (tabMetadata st)
    end in
  setTracking st times meta (sleepHistory st).

(** The loop over the host's tabs.  [isSystemPage(tab.url)] throws on a
    tab without url; the surrounding [catch] ends the loop there, keeping
    what was recorded before. *)
Fixpoint initializeLoop (now : Z) (hostTabs : list Tab.t) (st : State)
    : State :=
  match hostTabs with
  | [] => st
  | tab :: rest =>
      match Tab.url tab with
      | Some url =>
          if isSystemPage url then initializeLoop now rest st
          else initializeLoop now rest (trackTab now tab url st)
      | None => st
      end
  end.

Definition initializeTabActivities (now : Z)
    (query : Completion (list Tab.t)) (st : State) : State :=
  match query with
  | Normal hostTabs => initializeLoop now hostTabs st
  | Throw _ => st
  end.

End ResourceControls.

(* ===================================================================== *)
(** ** The selection loop of the service worker (background.js) *)
(* ===================================================================== *)

(** [checkAndSleepTabsWithML] of the v2.0 service worker chooses the tabs
    itself and asks the [WhitelistManager] for every tab.  The worker's
    [calculateOptimalSleepTime] is an opaque function of the tab here. *)
Module Background.
Import JS ResourceControls.

Definition selectStep (wm : WhitelistManager.t) (optimalTime : TabInfo -> Q)
    (tabsToSleep : Completion (list TabInfo)) (tab : TabInfo)
    : Completion (list TabInfo) :=
  bind tabsToSleep (fun acc =>
    (* Skip active, sleeping, audible tabs *)
    if isActive tab || isSleeping tab || audible tab then Normal acc
    (* Skip system pages *)
    else if startsWith (url tab) "chrome://" ||
            startsWith (url tab) "chrome-extension://" then Normal acc
    else
      (* Check whitelist/blacklist *)
      bind (WhitelistManager.getSleepPriority wm (url tab))
        (fun sleepPriority =>
           if sleepPriority =? 0 then Normal acc
           else if sleepPriority =? 2 then Normal (acc ++ [tab])
           else if Qgtb (inject_Z (inactiveTime tab)) (optimalTime tab)
                then Normal (acc ++ [tab])
                else Normal acc)).

Definition tabsToSleep (wm : WhitelistManager.t) (optimalTime : TabInfo -> Q)
    (tabs : list TabInfo) : Completion (list TabInfo) :=
  fold_left (selectStep wm optimalTime) tabs (Normal []).

(** The context-menu entries "Never Sleep This Domain" and "Always Sleep
    This Domain": the hostname of the tab's URL goes to the manager; an
    unparseable URL is caught and changes nothing. *)
Definition neverSleepClicked (tabUrl : option string) (wm : WhitelistManager.t)
    : option WhitelistManager.t :=
  match URL.hostname (default "undefined"%string tabUrl) with
  | Normal domain =>
      option_map snd (WhitelistManager.addToWhitelist domain wm)
  | Throw _ => Some wm
  end.

Definition alwaysSleepClicked (tabUrl : option string)
    (wm : WhitelistManager.t) : option WhitelistManager.t :=
  match URL.hostname (default "undefined"%string tabUrl) with
  | Normal domain =>
      option_map snd (WhitelistManager.addToBlacklist domain wm)
  | Throw _ => Some wm
  end.

End Background.

(* ===================================================================== *)
(** ** Notions of the specification *)
(* ===================================================================== *)

(** The definitions of this module follow the words of the specification;
    the theorems below compare the code with them. *)
Module Spec.
Import JS ResourceControls.
Local Open Scope string_scope.

(** "optimal < elevated < warning < critical". *)
Definition severity (s : MemoryStatus) : Z :=
  match s with
  | optimal => 0
  | elevated => 1
  | warning => 2
  | critical => 3
  end.

(** "critical→80% of eligible, warning→60%, elevated→40%, optimal→30%". *)
Definition tierFraction (s : MemoryStatus) : Q :=
  match s with
  | critical => 0.8
  | warning => 0.6
  | elevated => 0.4
  | optimal => 0.3
  end%Q.

(** A domain pattern against a hostname: "[*] matches any character run
    and literal dots match literally", the whole hostname is consumed
    ("anchored") and letters are compared ignoring case. *)
Inductive wildcardMatch : string -> string -> Prop :=
| wm_end : wildcardMatch "" ""
| wm_star (p run s : string) :
    wildcardMatch p s -> wildcardMatch (String "*" p) (run ++ s)
| wm_char (c x : ascii) (p s : string) :
    c <> "*"%char -> ciEq c x = true -> wildcardMatch p s ->
    wildcardMatch (String c p) (String x s).

(** The policies of the specification, as [getSleepPriority] numbers
    them. *)
Inductive Policy : Type := never | normal | eager.

Definition policyPriority (p : Policy) : Z :=
  match p with
  | never => 0
  | normal => 1
  | eager => 2
  end.

End Spec.

(* ===================================================================== *)
(** ** Concrete situations used by the examples *)
(* ===================================================================== *)

Module Scenario.
Import JS ResourceControls.
Local Open Scope string_scope.

Definition minute : Z := 60000.
Definition hour : Z := 3600000.

(** An arbitrary instant, seventy days after the epoch. *)
Definition now : Z := 70 * 24 * hour.

Definition pageTab (i : Z) (u : string) : Tab.t :=
  Tab.mk i (Some u) false false.

(** Settings: auto sleep on, aggressive mode as given. *)
Definition engine (aggressive : bool) : State :=
  updateConfig (NewConfig.ofModes true aggressive) constructor.

Definition withActivity (st : State) (times : list (Z * Z)) : State :=
  mkState (config st) (list_to_map times) (tabMetadata st) (memoryCache st)
    (memoryCacheTime st) (sleepHistory st) (stats st).

(** 10000 MB installed; [usedMB] of them in use. *)
Definition memoryAt (usedMB : Z) : Completion MemoryInfo :=
  Normal (mkMemoryInfo (10000 * 1048576) ((10000 - usedMB) * 1048576)).

Definition alwaysResolves : DiscardOracle := fun _ _ => true.

(** A host that rejects a second request for the same tab. *)
Definition rejectsRepeats : DiscardOracle :=
  fun requests tabId => negb (existsb (Z.eqb tabId) requests).

(** Ten ordinary pages; the first three idle for two hours, the others
    used a moment ago. *)
Definition tenTabs : list Tab.t :=
  map (fun i => pageTab i "https://example.com/") [1; 2; 3; 4; 5; 6; 7; 8; 9; 10].

Definition threeIdle : State :=
  withActivity (engine true)
    ([(1, now - 2 * hour); (2, now - 2 * hour); (3, now - 2 * hour)] ++
     map (fun i => (i, now - 1)) [4; 5; 6; 7; 8; 9; 10])%list.

(** Ten pages, all idle for two hours. *)
Definition allIdle : State :=
  withActivity (engine true)
    (map (fun i => (i, now - 2 * hour)) [1; 2; 3; 4; 5; 6; 7; 8; 9; 10]).

(** A page of a whitelisted domain, idle for two hours. *)
Definition mailTab : Tab.t := pageTab 7 "https://mail.example.com/inbox".

Definition mailIdle : State :=
  withActivity (engine false) [(7, now - 2 * hour)].

Definition allowExample : WhitelistManager.t :=
  match WhitelistManager.addToWhitelist "*.example.com"
          WhitelistManager.constructor with
  | Some (_, m) => m
  | None => WhitelistManager.constructor
  end.

(** The same allow entry together with a deny entry for the very host. *)
Definition allowAndDeny : WhitelistManager.t :=
  match WhitelistManager.addToBlacklist "mail.example.com" allowExample with
  | Some (_, m) => m
  | None => allowExample
  end.

(** A tab that is playing sound, in the background and not discarded. *)
Definition audibleTab : Tab.t :=
  Tab.mk 3 (Some "https://example.com/") false true.

(** Scenario B: activated 35 times, created long ago, idle for exactly
    twenty minutes. *)
Definition frequentTab (idle : Z) : TabInfo :=
  mkTabInfo 5 "https://example.com/" false false false (now - idle) idle
    (idle / 60000)
    (Some (mkMetadata (now - 24 * hour) 35 0 None 0 "example.com" "general"))
    80.

Definition cachedReading : MemoryReading :=
  mkReading 10000 4000 6000 60 10485760000 4194304000 optimal (now - hour)
    false.

Definition withCache (st : State) (r : MemoryReading) (t : Z) : State :=
  mkState (config st) (tabActivityTimes st) (tabMetadata st) (Some r) t
    (sleepHistory st) (stats st).

(** An engine whose cached reading is an hour old. *)
Definition agedCache : State :=
  withCache (engine false) cachedReading (now - hour).

(** Two readings under the default thresholds: 65% and 90% in use. *)
Definition reading65 : MemoryReading :=
  readMemory (config constructor) 0
    (mkMemoryInfo (10000 * 1048576) (3500 * 1048576)).

Definition reading90 : MemoryReading :=
  readMemory (config constructor) 5
    (mkMemoryInfo (10000 * 1048576) (1000 * 1048576)).

(** The effective threshold of the default settings (10-minute timer,
    aggressive mode off) at 50% usage. *)
Definition defaultThreshold : Q :=
  calculateEffectiveSleepTimer (config constructor)
    (inject_Z (sleepTimerMs (config constructor))) 50.

Definition frequentMetadata : TabMetadata :=
  mkMetadata (now - 24 * hour) 35 0 None 0 "example.com" "general".

(** The snapshot of the ten pages when all are idle. *)
Definition idleSnapshot : list TabInfo :=
  tabs (getTabsInfo now (Normal (tenTabs, None)) allIdle).

(** A cycle at 90% usage, aggressive mode on, three of ten pages idle. *)
Definition criticalCycle (discard : DiscardOracle) : Outcome :=
  checkAndSleepTabs now (memoryAt 9000) (Normal (tenTabs, None)) discard
    threeIdle.

Definition mailUrl : string := "https://mail.example.com/inbox".

(** A cycle at 30% usage, aggressive mode off, over the mail page alone. *)
Definition mailCycle : Outcome :=
  checkAndSleepTabs now (memoryAt 3000) (Normal ([mailTab], None))
    alwaysResolves mailIdle.

Definition mailSnapshot : list TabInfo :=
  tabs (getTabsInfo now (Normal ([mailTab], None)) mailIdle).

Definition zeroLimit : NewConfig.t := NewConfig.ofRamLimit 0.

Definition youngMetadata : TabMetadata :=
  mkMetadata (now - 24 * hour) 5 0 None 0 "b.example" "general".

(** Three tracked tabs: the first created forty days ago, the second
    yesterday, the third without metadata. *)
Definition oldAndYoung : State :=
  mkState (config (engine false))
    (list_to_map [(1, now - hour); (2, now - hour); (3, now - hour)])
    (list_to_map
       [(1, mkMetadata (now - 40 * 24 * hour) 5 0 None 0 "a.example" "general");
        (2, youngMetadata)])
    None 0 ∅ (stats (engine false)).

(** What the host lists at start-up: a page, a system page, a page. *)
Definition startupTabs : list Tab.t :=
  [pageTab 1 "https://example.com/"; pageTab 2 "chrome://extensions/";
   pageTab 3 "https://news.example.org/today"].

End Scenario.

(* ===================================================================== *)
(** ** Auxiliary definitions for the proofs *)
(* ===================================================================== *)

Module Aux.
Import JS.
Local Open Scope string_scope.

(** The nodes a domain compiles to, read off the domain itself. *)
Definition nodeOf (c : ascii) : ReNode :=
  if Ascii.eqb c "*" then ReDotStar else ReChar c.

Fixpoint nodesOf (domain : string) : RegExp :=
  match domain with
  | EmptyString => []
  | String c rest => nodeOf c :: nodesOf rest
  end.

(** Domains inside the modelled fragment. *)
Definition isDomainChar (c : ascii) : bool :=
  isPatternChar c || Ascii.eqb c "." || Ascii.eqb c "*".

Definition noLineTerminator (s : string) : bool :=
  URL.allChars (fun c => negb (isLineTerminator c)) s.

(** The two replacements of [compilePatterns]. *)
Definition escaped (domain : string) : string :=
  replaceAll "*" ".*" (replaceAll "." "\." domain).

(** [this.patterns] holds the compilation of the two sets, as it does
    after the constructor and after every mutator. *)
Definition compiled (m : WhitelistManager.t) : Prop :=
  WhitelistManager.compileList (WhitelistManager.whitelist m) =
    Some (WhitelistManager.patterns_whitelist m) /\
  WhitelistManager.compileList (WhitelistManager.blacklist m) =
    Some (WhitelistManager.patterns_blacklist m).

Definition scoreGe (a b : ResourceControls.TabInfo) : Prop :=
  ResourceControls.sleepScore b <= ResourceControls.sleepScore a.

(** All the domains of a set lie in the modelled fragment. *)
Definition inFragment (domains : list string) : bool :=
  forallb (URL.allChars isDomainChar) domains.

(** The sets hold no entry twice and the patterns are their compilation. *)
Definition wellFormed (m : WhitelistManager.t) : Prop :=
  compiled m /\
  List.NoDup (WhitelistManager.whitelist m) /\
  List.NoDup (WhitelistManager.blacklist m).

(** The mutators of the manager, as a caller may issue them. *)
Inductive Operation : Type :=
| AddToWhitelist (domain : string)
| RemoveFromWhitelist (domain : string)
| AddToBlacklist (domain : string)
| RemoveFromBlacklist (domain : string)
| ImportRules (data : RulesData.t)
| Initialize (storedWhitelist storedBlacklist : option (list string))
| ClearAll.

Definition perform (op : Operation) (m : WhitelistManager.t)
    : option WhitelistManager.t :=
  match op with
  | AddToWhitelist d => option_map snd (WhitelistManager.addToWhitelist d m)
  | RemoveFromWhitelist d =>
      option_map snd (WhitelistManager.removeFromWhitelist d m)
  | AddToBlacklist d => option_map snd (WhitelistManager.addToBlacklist d m)
  | RemoveFromBlacklist d =>
      option_map snd (WhitelistManager.removeFromBlacklist d m)
  | ImportRules data => option_map snd (WhitelistManager.importRules data m)
  | Initialize w b => WhitelistManager.initialize w b m
  | ClearAll => Some (WhitelistManager.clearAll m)
  end.

Fixpoint performAll (ops : list Operation) (m : WhitelistManager.t)
    : option WhitelistManager.t :=
  match ops with
  | [] => Some m
  | op :: rest =>
      match perform op m with
      | Some m' => performAll rest m'
      | None => None
      end
  end.

(** Hostnames that [normalizeDomain] leaves as they are: not empty, no
    upper-case letter, no white space, no slash, no colon. *)
Definition isPlainHostChar (c : ascii) : bool :=
  negb (isUpper c) && negb (isWhiteSpace c) &&
  negb (Ascii.eqb c "/") && negb (Ascii.eqb c ":").

Definition plainHost (h : string) : bool :=
  negb (String.eqb h "") && URL.allChars isPlainHostChar h.

(** What [normalizeDomain] guarantees of its result. *)
Definition isNormalizedChar (c : ascii) : bool :=
  negb (isUpper c) && negb (Ascii.eqb c "/") && negb (Ascii.eqb c ":").

(** The tabs the service worker's loop keeps. *)
Definition workerKeeps (wm : WhitelistManager.t)
    (optimalTime : ResourceControls.TabInfo -> Q)
    (tab : ResourceControls.TabInfo) : bool :=
  negb (ResourceControls.isActive tab || ResourceControls.isSleeping tab ||
        ResourceControls.audible tab) &&
  negb (startsWith (ResourceControls.url tab) "chrome://" ||
        startsWith (ResourceControls.url tab) "chrome-extension://") &&
  match WhitelistManager.getSleepPriority wm (ResourceControls.url tab) with
  | Normal p =>
      negb (p =? 0)%Z &&
      ((p =? 2)%Z ||
       Qgtb (inject_Z (ResourceControls.inactiveTime tab)) (optimalTime tab))
  | Throw _ => false
  end.

(** Characters of a host as it is typed: no white space, slash or colon. *)
Definition isHostPartChar (c : ascii) : bool :=
  negb (isWhiteSpace c) && negb (Ascii.eqb c "/") && negb (Ascii.eqb c ":").

(** What may follow the host in an address: nothing, a path or a port. *)
Definition isAddressRest (rest : string) : bool :=
  match rest with
  | EmptyString => true
  | String c _ => Ascii.eqb c "/" || Ascii.eqb c ":"
  end.

Definition stringLe (a b : string) : Prop := String.leb a b = true.

(** A metadata record before and after discards at time [now]: only the
    sleep fields may differ, and they move together. *)
Definition sleptSince (now : Z)
    (before after : ResourceControls.TabMetadata) : Prop :=
  ResourceControls.createdAt after = ResourceControls.createdAt before /\
  ResourceControls.activationCount after =
    ResourceControls.activationCount before /\
  ResourceControls.totalActiveTime after =
    ResourceControls.totalActiveTime before /\
  ResourceControls.domain after = ResourceControls.domain before /\
  ResourceControls.category after = ResourceControls.category before /\
  (ResourceControls.sleepCount before <= ResourceControls.sleepCount after)%Z /\
  (ResourceControls.sleepCount after = ResourceControls.sleepCount before ->
   ResourceControls.lastSleepTime after =
     ResourceControls.lastSleepTime before) /\
  ((ResourceControls.sleepCount before < ResourceControls.sleepCount after)%Z ->
   ResourceControls.lastSleepTime after = Some now).

End Aux.

(* ===================================================================== *)
(** ** Properties *)
(* ===================================================================== *)

Import JS ResourceControls.

(** *** Comparisons of rationals *)

Lemma Qltb_true (x y : Q) : Qltb x y = true <-> (x < y)%Q.
Proof.
  unfold Qltb. rewrite negb_true_iff. split.
  - intros H. apply Qnot_le_lt. intros Hle.
    apply Qle_bool_iff in Hle. congruence.
  - intros H. destruct (Qle_bool y x) eqn:E; [|reflexivity].
    apply Qle_bool_iff in E. lra.
Qed.

Lemma Qltb_false (x y : Q) : Qltb x y = false <-> (y <= x)%Q.
Proof.
  unfold Qltb. rewrite negb_false_iff. apply Qle_bool_iff.
Qed.

Lemma Qgtb_true (x y : Q) : Qgtb x y = true <-> (y < x)%Q.
Proof. apply Qltb_true. Qed.

Lemma Qgtb_false (x y : Q) : Qgtb x y = false <-> (x <= y)%Q.
Proof. apply Qltb_false. Qed.

(** Turns every boolean comparison of rationals in the context into the
    inequality it decides. *)
Ltac q_reflect :=
  repeat match goal with
  | H : Qgtb _ _ = true |- _ => apply Qgtb_true in H
  | H : Qgtb _ _ = false |- _ => apply Qgtb_false in H
  | H : Qltb _ _ = true |- _ => apply Qltb_true in H
  | H : Qltb _ _ = false |- _ => apply Qltb_false in H
  end.

(** *** Memory status *)

Lemma determineStatus_monotone (c : Config) (u1 u2 : Q) :
  (u1 <= u2)%Q ->
  Spec.severity (determineStatus c u1) <= Spec.severity (determineStatus c u2).
Proof.
  intros Hle. unfold determineStatus.
  destruct (Qgtb u1 (emergencyThreshold c)) eqn:E1,
           (Qgtb u2 (emergencyThreshold c)) eqn:E2,
           (Qgtb u1 (warningThreshold c)) eqn:W1,
           (Qgtb u2 (warningThreshold c)) eqn:W2,
           (Qgtb u1 (optimalThreshold c)) eqn:O1,
           (Qgtb u2 (optimalThreshold c)) eqn:O2;
    cbn; try lia; q_reflect; exfalso; lra.
Qed.

Lemma readMemory_status (c : Config) (now : Z) (i : MemoryInfo) :
  status (readMemory c now i) = determineStatus c (usagePercent (readMemory c now i)).
Proof. reflexivity. Qed.

(** C8: for two readings produced with the same thresholds, the one with
    the greater or equal [usagePercent] has a status at least as severe,
    in the order optimal < elevated < warning < critical; the default
    thresholds are 60 / 70 / 85.  No ordering of the thresholds is needed. *)
Theorem C8_status_monotone_in_usage :
  (forall (c : Config) (now1 now2 : Z) (i1 i2 : MemoryInfo),
      (usagePercent (readMemory c now1 i1) <=
       usagePercent (readMemory c now2 i2))%Q ->
      Spec.severity (status (readMemory c now1 i1)) <=
      Spec.severity (status (readMemory c now2 i2))) /\
  (forall (c : Config) (u1 u2 : Q),
      (u1 <= u2)%Q ->
      Spec.severity (determineStatus c u1) <=
      Spec.severity (determineStatus c u2)) /\
  (optimalThreshold (config constructor) = 60%Q /\
   warningThreshold (config constructor) = 70%Q /\
   emergencyThreshold (config constructor) = 85%Q).
Proof.
  split; [|split].
  - intros c now1 now2 i1 i2 Hle. rewrite !readMemory_status.
    now apply determineStatus_monotone.
  - apply determineStatus_monotone.
  - repeat split.
Qed.

Lemma C8_status_monotone_in_usage_witness :
  (usagePercent Scenario.reading65 <= usagePercent Scenario.reading90)%Q /\
  Spec.severity (status Scenario.reading65) <=
  Spec.severity (status Scenario.reading90).
Proof.
  assert (H : (usagePercent Scenario.reading65 <=
               usagePercent Scenario.reading90)%Q)
    by (vm_compute; discriminate).
  split; [exact H|].
  exact (proj1 C8_status_monotone_in_usage (config constructor) 0 5
           (mkMemoryInfo (10000 * 1048576) (3500 * 1048576))
           (mkMemoryInfo (10000 * 1048576) (1000 * 1048576)) H).
Defined.

(** *** Memory sampling on failure *)

(** C7: when the memory source is queried and fails, [getMemoryInfo]
    returns a copy of the cached reading with [stale = true] if there is a
    cached reading (the cache itself is left as it was), and [null], the
    explicit no-data answer, if there is none; it never makes up a reading.
    The cycle then stops with "No memory info" and discards nothing. *)
Theorem C7_source_failure_gives_stale_copy_or_no_data :
  forall (now : Z) (e : string) (st : State),
    (forall c : MemoryReading,
        memoryCache st = Some c -> cacheIsFresh st now = false ->
        exists r : MemoryReading,
          getMemoryInfo now (Throw e) st = (Some r, st) /\
          stale r = true /\
          totalMB r = totalMB c /\ availableMB r = availableMB c /\
          usedMB r = usedMB c /\ usagePercent r = usagePercent c /\
          totalBytes r = totalBytes c /\ availableBytes r = availableBytes c /\
          status r = status c /\ timestamp r = timestamp c) /\
    (memoryCache st = None ->
        getMemoryInfo now (Throw e) st = (None, st) /\
        (forall (q : Completion (list Tab.t * option Tab.t))
                (d : DiscardOracle),
            autoSleep (config st) = true ->
            result (checkAndSleepTabs now (Throw e) q d st) =
              Skipped "No memory info" /\
            discardRequests (checkAndSleepTabs now (Throw e) q d st) = [])).
Proof.
  intros now e st. split.
  - intros c Hc Hfresh. exists (setStale c).
    unfold getMemoryInfo. rewrite Hfresh, Hc. repeat split.
  - intros Hc.
    assert (Hget : forall st', memoryCache st' = None ->
              getMemoryInfo now (Throw e) st' = (None, st')).
    { intros st' H'. unfold getMemoryInfo, cacheIsFresh. now rewrite H'. }
    split; [now apply Hget|].
    intros q d Hauto. unfold checkAndSleepTabs. rewrite Hauto. cbn [negb].
    rewrite Hget by exact Hc. split; reflexivity.
Qed.

Lemma C7_source_failure_gives_stale_copy_or_no_data_witness :
  (memoryCache Scenario.agedCache = Some Scenario.cachedReading /\
   cacheIsFresh Scenario.agedCache Scenario.now = false /\
   exists r : MemoryReading,
     getMemoryInfo Scenario.now (Throw "Error") Scenario.agedCache =
       (Some r, Scenario.agedCache) /\
     stale r = true /\ status r = status Scenario.cachedReading) /\
  (memoryCache (Scenario.engine false) = None /\
   getMemoryInfo Scenario.now (Throw "Error") (Scenario.engine false) =
     (None, Scenario.engine false)).
Proof.
  split.
  - split; [reflexivity|]. split; [reflexivity|].
    destruct (proj1 (C7_source_failure_gives_stale_copy_or_no_data
                       Scenario.now "Error" Scenario.agedCache)
                    Scenario.cachedReading eq_refl eq_refl)
      as [r [Hget [Hstale [_ [_ [_ [_ [_ [_ [Hstatus _]]]]]]]]]].
    exists r. repeat split; assumption.
  - split; [reflexivity|].
    exact (proj1 (proj2 (C7_source_failure_gives_stale_copy_or_no_data
                           Scenario.now "Error" (Scenario.engine false))
                    eq_refl)).
Defined.

(** *** Settings update *)

Lemma updateConfig_clamps_nonzero_limit (n : NewConfig.t) (st : State) (v : Z) :
  NewConfig.ramLimit n = Some v -> v <> 0 ->
  1000 <= ramLimit (config (updateConfig n st)) <= 5000.
Proof.
  intros Hn Hv. unfold updateConfig, validateRanges. cbn. rewrite Hn.
  unfold truthy. destruct (Z.eqb_spec v 0) as [->|_]; [congruence|].
  cbn. lia.
Qed.

Lemma updateConfig_clamps_nonzero_timer (n : NewConfig.t) (st : State) (v : Z) :
  NewConfig.sleepTimer n = Some v -> v <> 0 ->
  1 <= sleepTimer (config (updateConfig n st)) <= 60.
Proof.
  intros Hn Hv. unfold updateConfig, validateRanges. cbn. rewrite Hn.
  unfold truthy. destruct (Z.eqb_spec v 0) as [->|_]; [congruence|].
  cbn. lia.
Qed.

Lemma updateConfig_keeps_other_settings (n : NewConfig.t) (st : State) :
  autoSleep (config (updateConfig n st)) =
    default (autoSleep (config st)) (NewConfig.autoSleep n) /\
  aggressiveMode (config (updateConfig n st)) =
    default (aggressiveMode (config st)) (NewConfig.aggressiveMode n).
Proof. split; reflexivity. Qed.

(** C9 (the code departs from the claim): an update whose memory limit is
    [0] passes the truthiness guard of the validation untouched, and
    [Object.assign] stores it: the stored limit is 0, outside
    [1000, 5000]. *)
Theorem C9_zero_limit_is_stored_unclamped :
  NewConfig.ramLimit Scenario.zeroLimit = Some 0 /\
  ramLimit (config constructor) = 2000 /\
  ramLimit (config (updateConfig Scenario.zeroLimit constructor)) = 0 /\
  ~ (1000 <= ramLimit (config (updateConfig Scenario.zeroLimit constructor))
       <= 5000).
Proof. cbn. repeat split. lia. Qed.

(** *** Scoring *)

Lemma clamp_bounds (x : Z) : 0 <= Z.max 0 (Z.min 100 x) <= 100.
Proof. lia. Qed.

(** C2, as the code has it: an active or already suspended handle scores
    exactly 0, before any other term is looked at; whether the handle is
    audible does not enter the score; and every score is an integer
    between 0 and 100. *)
Theorem C2_active_or_suspended_scores_zero_and_all_scores_clamped :
  forall (now : Z) (tab : Tab.t) (inactiveTime : Z)
         (metadata : option TabMetadata) (isActive isSleeping : bool),
    calculateSleepScore now tab inactiveTime metadata true isSleeping = 0 /\
    calculateSleepScore now tab inactiveTime metadata isActive true = 0 /\
    0 <= calculateSleepScore now tab inactiveTime metadata isActive isSleeping
      <= 100 /\
    calculateSleepScore now
      (Tab.mk (Tab.id tab) (Tab.url tab) (Tab.discarded tab) true)
      inactiveTime metadata isActive isSleeping =
    calculateSleepScore now
      (Tab.mk (Tab.id tab) (Tab.url tab) (Tab.discarded tab) false)
      inactiveTime metadata isActive isSleeping.
Proof.
  intros now tab inactiveTime metadata isActive isSleeping.
  split; [reflexivity|]. split.
  { unfold calculateSleepScore. now rewrite orb_true_r. }
  split; [|reflexivity].
  unfold calculateSleepScore.
  destruct (isActive || isSleeping); [lia|]. apply clamp_bounds.
Qed.

(** C2, counterexample to the claim as stated: a background tab that is
    playing sound, neither active nor suspended, scores 50, not 0. *)
Lemma C2_audible_handle_scores_fifty :
  Tab.audible Scenario.audibleTab = true /\
  calculateSleepScore Scenario.now Scenario.audibleTab 0 None false false = 50 /\
  calculateSleepScore Scenario.now Scenario.audibleTab 0 None false false <> 0.
Proof. split; [reflexivity|]. split; [reflexivity|]. vm_compute. discriminate. Qed.

(** *** Eligibility of frequently activated handles *)

(** C5, as the code has it: for a handle whose metadata count more than
    30 activations, [shouldTabSleep] holds exactly when the handle has
    been inactive for at least the effective threshold, is past the
    three-minute grace period and has been inactive for strictly more
    than twice the effective threshold. *)
Theorem C5_frequent_handle_needs_more_than_double_threshold :
  forall (now : Z) (tab : TabInfo) (effectiveSleepTimer usagePercent : Q)
         (md : TabMetadata),
    metadata tab = Some md ->
    30 < activationCount md ->
    (shouldTabSleep now tab effectiveSleepTimer usagePercent = true <->
     (effectiveSleepTimer <= inject_Z (inactiveTime tab))%Q /\
     180000 <= now - createdAt md /\
     (effectiveSleepTimer * 2 < inject_Z (inactiveTime tab))%Q).
Proof.
  intros now tab eff usage md Hmd Hcount. unfold shouldTabSleep. rewrite Hmd.
  assert (Hgt : (activationCount md >? 30) = true) by lia. rewrite Hgt.
  destruct (Qltb (inject_Z (inactiveTime tab)) eff) eqn:Htime.
  - q_reflect. split; [discriminate|]. intros [Hle _]. lra.
  - q_reflect. destruct (Z.ltb_spec (now - createdAt md) 180000) as [Hage|Hage].
    + split; [discriminate|]. intros [_ [H _]]. lia.
    + rewrite Qgtb_true. split.
      * intros H. repeat split; assumption.
      * intros [_ [_ H]]. exact H.
Qed.

Lemma C5_frequent_handle_needs_more_than_double_threshold_witness :
  metadata (Scenario.frequentTab (20 * Scenario.minute + 1)) =
    Some Scenario.frequentMetadata /\
  30 < activationCount Scenario.frequentMetadata /\
  (shouldTabSleep Scenario.now (Scenario.frequentTab (20 * Scenario.minute + 1))
     Scenario.defaultThreshold 50 = true <->
   (Scenario.defaultThreshold <=
    inject_Z (inactiveTime (Scenario.frequentTab (20 * Scenario.minute + 1))))%Q /\
   180000 <= Scenario.now - createdAt Scenario.frequentMetadata /\
   (Scenario.defaultThreshold * 2 <
    inject_Z (inactiveTime (Scenario.frequentTab (20 * Scenario.minute + 1))))%Q).
Proof.
  split; [reflexivity|]. split; [reflexivity|].
  apply (C5_frequent_handle_needs_more_than_double_threshold Scenario.now
           (Scenario.frequentTab (20 * Scenario.minute + 1))
           Scenario.defaultThreshold 50 Scenario.frequentMetadata).
  - reflexivity.
  - reflexivity.
Defined.

(** C5, counterexample to the claim as stated: with the default 10-minute
    timer (aggressive mode off, so the effective threshold is 600000 ms), a
    handle activated 35 times and inactive for exactly 20.0 minutes is not
    eligible; one millisecond later it is. *)
Lemma C5_exactly_double_threshold_is_not_eligible :
  Scenario.defaultThreshold = inject_Z (10 * Scenario.minute) /\
  inactiveTime (Scenario.frequentTab (20 * Scenario.minute)) =
    2 * (10 * Scenario.minute) /\
  option_map activationCount
    (metadata (Scenario.frequentTab (20 * Scenario.minute))) = Some 35 /\
  shouldTabSleep Scenario.now (Scenario.frequentTab (20 * Scenario.minute))
    Scenario.defaultThreshold 50 = false /\
  shouldTabSleep Scenario.now (Scenario.frequentTab (20 * Scenario.minute + 1))
    Scenario.defaultThreshold 50 = true.
Proof. repeat split. Qed.

(** *** Sorting by score *)

Lemma insertByScore_perm (x : TabInfo) (l : list TabInfo) :
  Permutation (insertByScore x l) (x :: l).
Proof.
  induction l as [|y l IH]; cbn; [reflexivity|].
  destruct (sleepScore x <? sleepScore y); [|reflexivity].
  rewrite IH. apply perm_swap.
Qed.

Lemma sortByScore_perm (l : list TabInfo) : Permutation (sortByScore l) l.
Proof.
  induction l as [|x l IH]; cbn; [reflexivity|].
  rewrite insertByScore_perm. now apply perm_skip.
Qed.

Lemma insertByScore_sorted (x : TabInfo) (l : list TabInfo) :
  StronglySorted Aux.scoreGe l -> StronglySorted Aux.scoreGe (insertByScore x l).
Proof.
  induction 1 as [|y l Hsorted IH Hall]; cbn.
  - repeat constructor.
  - destruct (Z.ltb_spec (sleepScore x) (sleepScore y)) as [Hlt|Hge].
    + constructor; [exact IH|].
      eapply Permutation_Forall; [symmetry; apply insertByScore_perm|].
      constructor; [unfold Aux.scoreGe; lia | exact Hall].
    + constructor; [now constructor|].
      constructor; [exact Hge|].
      eapply List.Forall_impl; [|exact Hall].
      unfold Aux.scoreGe. intros z Hz. lia.
Qed.

Lemma sortByScore_sorted (l : list TabInfo) :
  StronglySorted Aux.scoreGe (sortByScore l).
Proof.
  induction l as [|x l IH]; cbn; [constructor|].
  now apply insertByScore_sorted.
Qed.

(** Stability: handles of equal score keep their relative order. *)
Lemma insertByScore_stable (s : Z) (x : TabInfo) (l : list TabInfo) :
  List.filter (fun t => sleepScore t =? s) (insertByScore x l) =
  List.filter (fun t => sleepScore t =? s) (x :: l).
Proof.
  induction l as [|y l IH]; [reflexivity|].
  cbn [insertByScore].
  destruct (Z.ltb_spec (sleepScore x) (sleepScore y)) as [Hlt|Hge];
    [|reflexivity].
  cbn [List.filter] in *.
  destruct (Z.eqb_spec (sleepScore y) s) as [Hy|Hy].
  - rewrite IH. destruct (Z.eqb_spec (sleepScore x) s) as [Hx|Hx];
      [lia | reflexivity].
  - exact IH.
Qed.

Lemma sortByScore_stable (s : Z) (l : list TabInfo) :
  List.filter (fun t => sleepScore t =? s) (sortByScore l) =
  List.filter (fun t => sleepScore t =? s) l.
Proof.
  induction l as [|x l IH]; [reflexivity|].
  cbn [sortByScore]. rewrite insertByScore_stable.
  cbn [List.filter]. now rewrite IH.
Qed.

Lemma sortByScore_length (l : list TabInfo) :
  length (sortByScore l) = length l.
Proof. apply Permutation_length, sortByScore_perm. Qed.

Lemma in_skipn_in {A : Type} (k : nat) (l : list A) (y : A) :
  In y (skipn k l) -> In y l.
Proof.
  revert l. induction k as [|k IH]; intros l H; [exact H|].
  destruct l as [|z l]; [exact H|]. right. now apply IH.
Qed.

(** In a list sorted by descending score, every element of a prefix
    scores at least as much as every element after it. *)
Lemma sorted_prefix_dominates (k : nat) (l : list TabInfo) :
  StronglySorted Aux.scoreGe l ->
  forall x y, In x (firstn k l) -> In y (skipn k l) ->
              sleepScore y <= sleepScore x.
Proof.
  intros Hsorted. revert k.
  induction Hsorted as [|z l Hsorted IH Hall]; intros k x y Hx Hy.
  - destruct k; destruct Hx.
  - destruct k as [|k]; [destruct Hx|].
    cbn in Hx, Hy. destruct Hx as [<-|Hx].
    + rewrite List.Forall_forall in Hall. apply Hall.
      eapply in_skipn_in; eauto.
    + eapply IH; eauto.
Qed.

(** *** Target counts *)

Lemma ceil_fraction_bounds (n : nat) (f : Q) :
  (0 <= f)%Q -> (f <= 1)%Q ->
  0 <= Qceiling (inject_Z (Z.of_nat n) * f) <= Z.of_nat n.
Proof.
  intros H0 H1.
  assert (Hn : (0 <= inject_Z (Z.of_nat n))%Q).
  { change 0%Q with (inject_Z 0). rewrite <- Zle_Qle. lia. }
  split.
  - change 0 with (Qceiling 0). apply Qceiling_resp_le. nra.
  - rewrite <- (Qceiling_Z (Z.of_nat n)) at 2.
    apply Qceiling_resp_le. nra.
Qed.

Lemma tierFraction_range (s : MemoryStatus) :
  (0 <= Spec.tierFraction s)%Q /\ (Spec.tierFraction s <= 1)%Q.
Proof. destruct s; cbn; split; lra. Qed.

Lemma targetCount_spec (s : MemoryStatus) (candidates : list TabInfo) :
  targetCount s candidates =
  Qceiling (Spec.tierFraction s * inject_Z (Z.of_nat (length candidates))).
Proof.
  unfold targetCount, Math_ceil.
  destruct s; cbn [Spec.tierFraction]; apply Qceiling_comp; ring.
Qed.

Lemma targetCount_bounds (s : MemoryStatus) (candidates : list TabInfo) :
  0 <= targetCount s candidates <= Z.of_nat (length candidates).
Proof.
  destruct (tierFraction_range s) as [H0 H1].
  pose proof (ceil_fraction_bounds (length candidates) _ H0 H1) as H.
  rewrite targetCount_spec.
  erewrite Qceiling_comp; [exact H|ring].
Qed.

Lemma tieredSelection_length (s : MemoryStatus) (candidates : list TabInfo) :
  Z.of_nat (length (tieredSelection s candidates)) = targetCount s candidates.
Proof.
  unfold tieredSelection, slice0.
  pose proof (targetCount_bounds s candidates) as H.
  rewrite length_firstn. lia.
Qed.

(** *** The discard loops *)

Lemma sleep_loop_requests (d : DiscardOracle) (now : Z) (l : list TabInfo)
    (acc : Loop) :
  requests (fold_left (sleepStep d now) l acc) = requests acc ++ map id l.
Proof.
  revert acc. induction l as [|t l IH]; intros acc; cbn [fold_left map].
  - now rewrite app_nil_r.
  - rewrite IH. unfold sleepStep.
    destruct (d (requests acc) (id t)); cbn [requests];
      now rewrite <- app_assoc.
Qed.

Lemma recordSleep_config (now tabId : Z) (st : State) :
  config (recordSleep now tabId st) = config st.
Proof. reflexivity. Qed.

Lemma sleep_loop_config (d : DiscardOracle) (now : Z) (l : list TabInfo)
    (acc : Loop) :
  config (state (fold_left (sleepStep d now) l acc)) = config (state acc).
Proof.
  revert acc. induction l as [|t l IH]; intros acc; cbn [fold_left];
    [reflexivity|].
  rewrite IH. unfold sleepStep.
  destruct (d (requests acc) (id t)); reflexivity.
Qed.

Lemma emergency_loop_requests (d : DiscardOracle) (l : list TabInfo)
    (n : Z) (reqs : list Z) :
  snd (fold_left (emergencyStep d) l (n, reqs)) = reqs ++ map id l.
Proof.
  revert n reqs. induction l as [|t l IH]; intros n reqs; cbn [fold_left map].
  - cbn. now rewrite app_nil_r.
  - cbn [emergencyStep]. destruct (d reqs (id t)); rewrite IH;
      now rewrite <- app_assoc.
Qed.

Lemma tieredPass_requests (d : DiscardOracle) (now : Z) (st : State)
    (m : MemoryReading) (ti : TabsInfo) :
  requests (tieredPass d now st m ti) =
  map id (tieredSelection (status m) (cycleCandidates now (config st) m ti)).
Proof. unfold tieredPass. now rewrite sleep_loop_requests. Qed.

Lemma tieredPass_config (d : DiscardOracle) (now : Z) (st : State)
    (m : MemoryReading) (ti : TabsInfo) :
  config (state (tieredPass d now st m ti)) = config st.
Proof. unfold tieredPass. now rewrite sleep_loop_config. Qed.

Lemma emergencyPassRuns_iff (c : Config) (m : MemoryReading) :
  emergencyPassRuns c m = true <->
  aggressiveMode c = true /\ status m = critical.
Proof.
  unfold emergencyPassRuns. rewrite andb_true_iff.
  destruct (status m); cbn; intuition congruence.
Qed.

Lemma emergencyPass_requests (d : DiscardOracle) (m : MemoryReading)
    (ti : TabsInfo) (tiered : Loop) :
  requests (emergencyPass d m ti tiered) =
  requests tiered ++
  (if emergencyPassRuns (config (state tiered)) m
   then map id (emergencySelection (tabs ti) (sleptCount tiered))
   else []).
Proof.
  unfold emergencyPass.
  destruct (emergencyPassRuns (config (state tiered)) m).
  - unfold emergencySleep.
    pose proof (emergency_loop_requests d
                  (emergencySelection (tabs ti) (sleptCount tiered)) 0
                  (requests tiered)) as H.
    destruct (fold_left (emergencyStep d) _ _) as [n reqs]. exact H.
  - now rewrite app_nil_r.
Qed.

(** The requests of a whole cycle that obtained a memory reading: the
    tiered selection, followed by the emergency selection when that pass
    runs. *)
Lemma checkAndSleepTabs_requests (now : Z) (source : Completion MemoryInfo)
    (query : Completion (list Tab.t * option Tab.t)) (d : DiscardOracle)
    (st st' : State) (m : MemoryReading) :
  autoSleep (config st) = true ->
  getMemoryInfo now source (countCheck st) = (Some m, st') ->
  let ti := getTabsInfo now query st' in
  let tiered := tieredPass d now st' m ti in
  discardRequests (checkAndSleepTabs now source query d st) =
  map id (tieredSelection (status m) (cycleCandidates now (config st') m ti)) ++
  (if emergencyPassRuns (config st') m
   then map id (emergencySelection (tabs ti) (sleptCount tiered))
   else []).
Proof.
  intros Hauto Hget ti tiered. unfold checkAndSleepTabs.
  rewrite Hauto. cbn [negb]. rewrite Hget. cbn [discardRequests].
  rewrite emergencyPass_requests, tieredPass_requests, tieredPass_config.
  reflexivity.
Qed.

(** *** The tiered selection *)

(** C4: the tiered pass selects exactly the first
    [ceiling (fraction * n)] entries of the [n] eligible candidates
    arranged by descending score (a stable arrangement of the eligible
    handles), with fraction 0.8 / 0.6 / 0.4 / 0.3 for critical / warning /
    elevated / optimal; they are the requests the tiered pass sends to the
    host; with 10 eligible candidates at critical status, 8 are selected. *)
Theorem C4_tiered_pass_selects_top_fraction :
  forall (now : Z) (effectiveSleepTimer usagePercent : Q)
         (tabs : list TabInfo) (s : MemoryStatus),
    let eligible :=
      List.filter
        (fun tab => shouldTabSleep now tab effectiveSleepTimer usagePercent)
        (List.filter isValidSleepCandidate tabs) in
    let candidates :=
      sleepCandidates now effectiveSleepTimer usagePercent tabs in
    let selected := tieredSelection s candidates in
    let k :=
      Qceiling (Spec.tierFraction s * inject_Z (Z.of_nat (length eligible))) in
    Permutation candidates eligible /\
    StronglySorted Aux.scoreGe candidates /\
    (forall v : Z,
        List.filter (fun t => sleepScore t =? v) candidates =
        List.filter (fun t => sleepScore t =? v) eligible) /\
    selected = firstn (Z.to_nat k) candidates /\
    Z.of_nat (length selected) = k /\
    (inject_Z (k - 1) < Spec.tierFraction s * inject_Z (Z.of_nat (length eligible))
       <= inject_Z k)%Q /\
    (forall x y : TabInfo,
        In x selected -> In y (skipn (Z.to_nat k) candidates) ->
        sleepScore y <= sleepScore x) /\
    (forall (d : DiscardOracle) (st : State) (m : MemoryReading)
            (ti : TabsInfo),
        requests (tieredPass d now st m ti) =
        map id (tieredSelection (status m)
                  (sleepCandidates now (effectiveTimerOf (config st) m)
                     (ResourceControls.usagePercent m)
                     (ResourceControls.tabs ti)))) /\
    (length eligible = 10%nat -> s = critical -> length selected = 8%nat).
Proof.
  intros now eff usage tabs s eligible candidates selected k.
  assert (Hlen : length candidates = length eligible)
    by apply sortByScore_length.
  assert (Hk : targetCount s candidates = k).
  { rewrite targetCount_spec. unfold k. now rewrite Hlen. }
  assert (Hsel : selected = firstn (Z.to_nat k) candidates).
  { unfold selected, tieredSelection, slice0. now rewrite Hk. }
  split; [apply sortByScore_perm|].
  split; [apply sortByScore_sorted|].
  split; [intros v; apply sortByScore_stable|].
  split; [exact Hsel|].
  split; [unfold selected; now rewrite tieredSelection_length|].
  split; [split; [apply Qceiling_lt | apply Qle_ceiling]|].
  split.
  { intros x y Hx Hy. rewrite Hsel in Hx.
    eapply sorted_prefix_dominates; eauto. apply sortByScore_sorted. }
  split.
  - intros d st m ti. apply tieredPass_requests.
  - intros H10 Hs.
    assert (H8 : Z.of_nat (length selected) = 8).
    { unfold selected. rewrite tieredSelection_length, Hk.
      unfold k. rewrite H10, Hs. reflexivity. }
    lia.
Qed.

Lemma C4_tiered_pass_selects_top_fraction_witness :
  length
    (List.filter (fun tab => shouldTabSleep Scenario.now tab 120000 90)
       (List.filter isValidSleepCandidate Scenario.idleSnapshot)) = 10%nat /\
  critical = critical /\
  length
    (tieredSelection critical
       (sleepCandidates Scenario.now 120000 90 Scenario.idleSnapshot)) = 8%nat /\
  map id
    (tieredSelection critical
       (sleepCandidates Scenario.now 120000 90 Scenario.idleSnapshot)) =
    [1; 2; 3; 4; 5; 6; 7; 8].
Proof.
  split; [reflexivity|]. split; [reflexivity|]. split; [|reflexivity].
  destruct (C4_tiered_pass_selects_top_fraction Scenario.now 120000 90
              Scenario.idleSnapshot critical)
    as (_ & _ & _ & _ & _ & _ & _ & _ & H).
  apply H; reflexivity.
Defined.

(** *** The emergency pass *)

Lemma emergencyTarget_bounds (tabs : list TabInfo) :
  0 <= emergencyTarget tabs <= Z.of_nat (length (emergencyCandidates tabs)).
Proof.
  unfold emergencyTarget, Math_ceil. apply ceil_fraction_bounds; lra.
Qed.

Lemma emergencySelection_length (tabs : list TabInfo) (alreadySlept : Z) :
  Z.of_nat (length (emergencySelection tabs alreadySlept)) =
  Z.min (Z.max 0 (emergencyTarget tabs - alreadySlept))
        (Z.of_nat (length (emergencyCandidates tabs))).
Proof.
  unfold emergencySelection, slice0. rewrite length_firstn. lia.
Qed.

(** The emergency pass never counts more than the shortfall. *)
Lemma emergencySelection_tops_up (tabs : list TabInfo) (alreadySlept : Z) :
  0 <= alreadySlept ->
  alreadySlept + Z.of_nat (length (emergencySelection tabs alreadySlept)) <=
  Z.max alreadySlept (emergencyTarget tabs).
Proof.
  intros H. rewrite emergencySelection_length.
  pose proof (emergencyTarget_bounds tabs). lia.
Qed.

(** C3 (the code departs from the claim): in a cycle with aggressive mode
    on and critical memory, three of ten background pages are eligible and
    the tiered pass discards them; the emergency pass computes the target
    7 = ceiling (0.7 * 10), subtracts the 3 already slept and then walks
    the first 4 entries of its own sorted list, which begins with the same
    three pages: they are discarded a second time, and only one further
    page is reached. *)
Theorem C3_emergency_pass_discards_selected_handles_again :
  discardRequests (Scenario.criticalCycle Scenario.alwaysResolves) =
    [1; 2; 3; 1; 2; 3; 4] /\
  sleptOf (result (Scenario.criticalCycle Scenario.alwaysResolves)) = 7 /\
  ~ List.NoDup (discardRequests (Scenario.criticalCycle Scenario.alwaysResolves)) /\
  discardRequests (Scenario.criticalCycle Scenario.rejectsRepeats) =
    [1; 2; 3; 1; 2; 3; 4] /\
  sleptOf (result (Scenario.criticalCycle Scenario.rejectsRepeats)) = 4.
Proof.
  assert (H : discardRequests (Scenario.criticalCycle Scenario.alwaysResolves) =
              [1; 2; 3; 1; 2; 3; 4])
    by (vm_compute; reflexivity).
  split; [exact H|]. split; [vm_compute; reflexivity|].
  split; [|split; vm_compute; reflexivity].
  rewrite H. intros Hnd. apply List.NoDup_cons_iff in Hnd.
  destruct Hnd as [Hnotin _]. apply Hnotin. cbn. tauto.
Qed.

(** *** The allow-set and the selector *)

(** C1, counterexample to the claim as stated: [mail.example.com] is
    matched by the allow entry [*.example.com], so [canSleep] answers
    "never" and [getSleepPriority] answers 0; the cycle of
    [ResourceControls], the selector with scores, memory status and
    aggressive mode, does not ask, and with memory at 30% (optimal) and
    aggressive mode off it discards the page after two idle hours.  The
    selection loop of the service worker, given the same tab, leaves it
    alone. *)
Theorem C1_selector_discards_allow_listed_handle :
  Tab.url Scenario.mailTab = Some Scenario.mailUrl /\
  WhitelistManager.canSleep Scenario.allowExample Scenario.mailUrl =
    Normal (Some false) /\
  WhitelistManager.getSleepPriority Scenario.allowExample Scenario.mailUrl =
    Normal 0 /\
  discardRequests Scenario.mailCycle = [Tab.id Scenario.mailTab] /\
  sleptOf (result Scenario.mailCycle) = 1 /\
  Background.tabsToSleep Scenario.allowExample (fun _ => 0%Q)
    Scenario.mailSnapshot = Normal [].
Proof. repeat split; vm_compute; reflexivity. Qed.

(** *** Compiled patterns *)

Local Open Scope string_scope.

Lemma escaped_dot (d : string) :
  Aux.escaped (String "." d) = String "\" (String "." (Aux.escaped d)).
Proof. reflexivity. Qed.

Lemma escaped_star (d : string) :
  Aux.escaped (String "*" d) = String "." (String "*" (Aux.escaped d)).
Proof. reflexivity. Qed.

Lemma escaped_other (c : ascii) (d : string) :
  c <> "."%char -> c <> "*"%char ->
  Aux.escaped (String c d) = String c (Aux.escaped d).
Proof.
  intros Hdot Hstar. unfold Aux.escaped. cbn [replaceAll].
  apply Ascii.eqb_neq in Hdot, Hstar. rewrite Hdot. cbn [replaceAll].
  now rewrite Hstar.
Qed.

Lemma parse_plain (c : ascii) (rest : string) :
  c <> "\"%char -> c <> "."%char -> rest <> "" ->
  parseAnchoredBody (String c rest) =
  if isPatternChar c
  then option_map (cons (ReChar c)) (parseAnchoredBody rest)
  else None.
Proof.
  intros Hb Hd Hrest. destruct rest as [|c' rest']; [contradiction|].
  apply Ascii.eqb_neq in Hb, Hd. cbn [parseAnchoredBody].
  rewrite Hb, Hd. reflexivity.
Qed.

Lemma parse_backslash (rest : string) :
  (forall r, rest <> String "." r) \/
  (exists r, rest = String "." (String "*" r) /\ r <> "") ->
  parseAnchoredBody (String "\" rest) = None.
Proof.
  intros [H|[r [-> Hr]]].
  - destruct rest as [|c' rest']; [reflexivity|].
    cbn [parseAnchoredBody].
    destruct (Ascii.eqb_spec c' ".") as [->|Hne]; [now elim (H rest')|].
    reflexivity.
  - destruct r as [|c r]; [contradiction|]. reflexivity.
Qed.

Lemma append_dollar_nonempty (s : string) : s ++ "$" <> "".
Proof. destruct s; discriminate. Qed.

Lemma append_cons (c : ascii) (s t : string) :
  String c s ++ t = String c (s ++ t).
Proof. reflexivity. Qed.

Lemma parse_escaped_dot (rest : string) :
  parseAnchoredBody (String "\" (String "." rest)) =
  option_map (cons (ReChar ".")) (parseAnchoredBody rest).
Proof. reflexivity. Qed.

Lemma parse_dot_star (rest : string) :
  parseAnchoredBody (String "." (String "*" rest)) =
  option_map (cons ReDotStar) (parseAnchoredBody rest).
Proof. reflexivity. Qed.

(** What [new RegExp] makes of a compiled domain: the nodes of the domain
    when all its characters are inside the fragment, nothing otherwise. *)
Lemma parse_escaped (d : string) :
  parseAnchoredBody (Aux.escaped d ++ "$") =
  if URL.allChars Aux.isDomainChar d then Some (Aux.nodesOf d) else None.
Proof.
  induction d as [|c d IH]; [reflexivity|].
  destruct (Ascii.eqb_spec c ".") as [->|Hdot].
  { rewrite escaped_dot, !append_cons, parse_escaped_dot, IH.
    cbn [URL.allChars Aux.nodesOf].
    change (Aux.isDomainChar ".") with true. cbn [andb].
    destruct (URL.allChars Aux.isDomainChar d); reflexivity. }
  destruct (Ascii.eqb_spec c "*") as [->|Hstar].
  { rewrite escaped_star, !append_cons, parse_dot_star, IH.
    cbn [URL.allChars Aux.nodesOf].
    change (Aux.isDomainChar "*") with true. cbn [andb].
    destruct (URL.allChars Aux.isDomainChar d); reflexivity. }
  rewrite escaped_other by assumption.
  rewrite append_cons. cbn [URL.allChars Aux.nodesOf].
  assert (Hnode : Aux.nodeOf c = ReChar c).
  { unfold Aux.nodeOf. apply Ascii.eqb_neq in Hstar. now rewrite Hstar. }
  assert (Hdom : Aux.isDomainChar c = isPatternChar c).
  { unfold Aux.isDomainChar. apply Ascii.eqb_neq in Hdot, Hstar.
    rewrite Hdot, Hstar. now rewrite !orb_false_r. }
  rewrite Hnode, Hdom.
  destruct (Ascii.eqb_spec c "\") as [->|Hback].
  - change (isPatternChar "\") with false. cbn [andb].
    apply parse_backslash.
    destruct d as [|c2 d]; [left; discriminate|].
    destruct (Ascii.eqb_spec c2 ".") as [->|Hdot2].
    { left. rewrite escaped_dot. discriminate. }
    destruct (Ascii.eqb_spec c2 "*") as [->|Hstar2].
    { right. rewrite escaped_star, !append_cons. eexists.
      split; [reflexivity|]. apply append_dollar_nonempty. }
    left. rewrite escaped_other by assumption. rewrite append_cons.
    intros r Hr. injection Hr as Hc _. contradiction.
  - rewrite parse_plain by (assumption || apply append_dollar_nonempty).
    rewrite IH. destruct (isPatternChar c); [|reflexivity]. cbn [andb].
    destruct (URL.allChars Aux.isDomainChar d); reflexivity.
Qed.

Lemma RegExp_new_patternSource (d : string) :
  RegExp_new (WhitelistManager.patternSource d) =
  if URL.allChars Aux.isDomainChar d then Some (Aux.nodesOf d) else None.
Proof. exact (parse_escaped d). Qed.

Lemma compileList_In (ds : list string) (res : list RegExp) (d : string) :
  WhitelistManager.compileList ds = Some res -> In d ds ->
  In (Aux.nodesOf d) res.
Proof.
  revert res. induction ds as [|d0 ds IH]; intros res Hc Hin; [destruct Hin|].
  cbn [WhitelistManager.compileList] in Hc.
  rewrite RegExp_new_patternSource in Hc.
  destruct (URL.allChars Aux.isDomainChar d0); [|discriminate].
  destruct (WhitelistManager.compileList ds) as [res'|]; [|discriminate].
  injection Hc as <-. destruct Hin as [->|Hin]; [now left|].
  right. now apply IH.
Qed.

(** *** Matching against the specification's wildcard semantics *)

Lemma matchNodes_star_nil (ns : RegExp) :
  matchNodes (ReDotStar :: ns) "" = matchNodes ns "".
Proof. reflexivity. Qed.

Lemma matchNodes_star_cons (ns : RegExp) (x : ascii) (s : string) :
  matchNodes (ReDotStar :: ns) (String x s) =
  (negb (isLineTerminator x) && matchNodes (ReDotStar :: ns) s) ||
  matchNodes ns (String x s).
Proof. reflexivity. Qed.

Lemma matchNodes_star_skip (ns : RegExp) (s : string) :
  matchNodes ns s = true -> matchNodes (ReDotStar :: ns) s = true.
Proof.
  intros H. destruct s as [|x s].
  - now rewrite matchNodes_star_nil.
  - rewrite matchNodes_star_cons, H. apply orb_true_r.
Qed.

Lemma allChars_app (P : ascii -> bool) (s t : string) :
  URL.allChars P (s ++ t) = URL.allChars P s && URL.allChars P t.
Proof.
  induction s as [|c s IH]; [reflexivity|].
  rewrite append_cons. cbn [URL.allChars]. now rewrite IH, andb_assoc.
Qed.

Lemma noLineTerminator_app (s t : string) :
  Aux.noLineTerminator (s ++ t) = true ->
  Aux.noLineTerminator s = true /\ Aux.noLineTerminator t = true.
Proof.
  unfold Aux.noLineTerminator. rewrite allChars_app.
  apply andb_true_iff.
Qed.

Lemma matchNodes_star_run (ns : RegExp) (run s : string) :
  Aux.noLineTerminator run = true ->
  matchNodes ns s = true ->
  matchNodes (ReDotStar :: ns) (run ++ s) = true.
Proof.
  intros Hrun Hs. induction run as [|x run IH].
  - change ("" ++ s) with s. now apply matchNodes_star_skip.
  - cbn in Hrun. apply andb_true_iff in Hrun as [Hx Hrun].
    rewrite append_cons, matchNodes_star_cons, Hx, (IH Hrun). reflexivity.
Qed.

Lemma nodesOf_star (p : string) :
  Aux.nodesOf (String "*" p) = ReDotStar :: Aux.nodesOf p.
Proof. reflexivity. Qed.

Lemma nodesOf_char (c : ascii) (p : string) :
  c <> "*"%char -> Aux.nodesOf (String c p) = ReChar c :: Aux.nodesOf p.
Proof.
  intros H. cbn [Aux.nodesOf]. unfold Aux.nodeOf.
  apply Ascii.eqb_neq in H. now rewrite H.
Qed.

(** The compiled pattern accepts whatever the wildcard semantics
    accepts, ... *)
Lemma wildcardMatch_matchNodes (p h : string) :
  Spec.wildcardMatch p h -> Aux.noLineTerminator h = true ->
  RegExp_test (Aux.nodesOf p) h = true.
Proof.
  unfold RegExp_test. induction 1 as [|p run s Hm IH|c x p s Hc Hx Hm IH];
    intros Hnl.
  - reflexivity.
  - apply noLineTerminator_app in Hnl as [Hrun Hs].
    rewrite nodesOf_star. apply matchNodes_star_run; auto.
  - cbn in Hnl. apply andb_true_iff in Hnl as [_ Hs].
    rewrite nodesOf_char by assumption. cbn [matchNodes].
    now rewrite Hx, IH.
Qed.

Lemma matchNodes_star_split (ns : RegExp) (h : string) :
  matchNodes (ReDotStar :: ns) h = true ->
  exists run s, h = run ++ s /\ matchNodes ns s = true.
Proof.
  induction h as [|x h IH].
  - rewrite matchNodes_star_nil. intros H. now exists "", "".
  - rewrite matchNodes_star_cons. intros H.
    apply orb_true_iff in H as [H|H].
    + apply andb_true_iff in H as [_ H].
      destruct (IH H) as (run & s & -> & Hs).
      now exists (String x run), s.
    + now exists "", (String x h).
Qed.

(** ... and nothing else. *)
Lemma matchNodes_wildcardMatch (p h : string) :
  RegExp_test (Aux.nodesOf p) h = true -> Spec.wildcardMatch p h.
Proof.
  unfold RegExp_test. revert h. induction p as [|c p IH]; intros h H.
  - destruct h; [constructor | discriminate].
  - destruct (Ascii.eqb_spec c "*") as [->|Hc].
    + rewrite nodesOf_star in H.
      apply matchNodes_star_split in H as (run & s & -> & Hs).
      constructor. now apply IH.
    + rewrite nodesOf_char in H by assumption. cbn [matchNodes] in H.
      destruct h as [|x h]; [discriminate|].
      apply andb_true_iff in H as [Hx Hm].
      constructor; auto.
Qed.

(** On the fragment, and on subjects without line terminators, the
    pattern compiled from a domain decides the wildcard semantics. *)
Lemma compiled_pattern_decides_wildcard (p h : string) :
  URL.allChars Aux.isDomainChar p = true ->
  Aux.noLineTerminator h = true ->
  exists re : RegExp,
    RegExp_new (WhitelistManager.patternSource p) = Some re /\
    (RegExp_test re h = true <-> Spec.wildcardMatch p h).
Proof.
  intros Hp Hh. exists (Aux.nodesOf p). split.
  - now rewrite RegExp_new_patternSource, Hp.
  - split; [apply matchNodes_wildcardMatch|].
    intros Hm. now apply wildcardMatch_matchNodes.
Qed.

(** *** Hostnames *)

Lemma allChars_impl (P Q : ascii -> bool) (s : string) :
  (forall c, P c = true -> Q c = true) ->
  URL.allChars P s = true -> URL.allChars Q s = true.
Proof.
  intros HPQ. induction s as [|c s IH]; cbn; [auto|].
  rewrite !andb_true_iff. intros [Hc Hs]. auto.
Qed.

Lemma allChars_toLowerCase (P : ascii -> bool) (s : string) :
  URL.allChars P (toLowerCase s) =
  URL.allChars (fun c => P (toLowerChar c)) s.
Proof. induction s as [|c s IH]; cbn; [reflexivity|]. now rewrite IH. Qed.

Lemma anyChar_false_allChars (p : ascii -> bool) (s : string) :
  URL.anyChar p s = false -> URL.allChars (fun c => negb (p c)) s = true.
Proof.
  induction s as [|c s IH]; cbn; [reflexivity|].
  rewrite orb_false_iff. intros [Hc Hs]. now rewrite Hc, IH.
Qed.

(** Case analysis over the 256 characters. *)
Ltac each_char c :=
  destruct c as [[] [] [] [] [] [] [] []]; vm_compute;
  (reflexivity || discriminate || (intros; congruence)).

Lemma toLowerChar_lineTerminator (c : ascii) :
  isLineTerminator (toLowerChar c) = isLineTerminator c.
Proof. each_char c. Qed.

Lemma ipv6Char_not_lineTerminator (c : ascii) :
  URL.isIPv6Char c = true -> negb (isLineTerminator (toLowerChar c)) = true.
Proof. each_char c. Qed.

Lemma hostChar_not_lineTerminator (c : ascii) :
  negb (URL.isForbiddenHostChar c) = true -> negb (isLineTerminator c) = true.
Proof. each_char c. Qed.

Lemma domainChar_not_lineTerminator (c : ascii) :
  negb (URL.isForbiddenDomainChar c) = true ->
  negb (isLineTerminator (toLowerChar c)) = true.
Proof. each_char c. Qed.

Lemma bracketed_noLineTerminator (inside : string) :
  URL.allChars URL.isIPv6Char inside = true ->
  Aux.noLineTerminator (toLowerCase ("[" ++ inside ++ "]")) = true.
Proof.
  intros Hin. unfold Aux.noLineTerminator.
  rewrite allChars_toLowerCase, append_cons. cbn [URL.allChars].
  change ("" ++ (inside ++ "]")) with (inside ++ "]").
  rewrite allChars_app. cbn [URL.allChars].
  change (negb (isLineTerminator (toLowerChar "["))) with true.
  change (negb (isLineTerminator (toLowerChar "]"))) with true.
  cbn [andb]. rewrite andb_true_r.
  eapply allChars_impl; [|exact Hin]. exact ipv6Char_not_lineTerminator.
Qed.

Lemma parseHost_noLineTerminator (special : bool) (hp h : string) :
  URL.parseHost special hp = Normal h -> Aux.noLineTerminator h = true.
Proof.
  unfold URL.parseHost.
  destruct (String.prefix "[" hp).
  - destruct (URL.dropUntil _ hp) as [|c after]; [discriminate|].
    destruct (URL.allChars URL.isIPv6Char _) eqn:Hin;
      [|rewrite andb_false_r; discriminate].
    destruct (URL.validPort after); [|discriminate].
    intros H. injection H as <-.
    apply bracketed_noLineTerminator. exact Hin.
  - destruct (negb (URL.validPort _)); [discriminate|].
    destruct special.
    + destruct (String.eqb _ ""); [discriminate|]. cbn [orb].
      destruct (URL.anyChar _ _) eqn:Hany; [discriminate|].
      intros H. injection H as <-. unfold Aux.noLineTerminator.
      rewrite allChars_toLowerCase.
      eapply allChars_impl; [|apply anyChar_false_allChars; exact Hany].
      exact domainChar_not_lineTerminator.
    + destruct (URL.anyChar _ _) eqn:Hany; [discriminate|].
      intros H. injection H as <-. unfold Aux.noLineTerminator.
      eapply allChars_impl; [|apply anyChar_false_allChars; exact Hany].
      exact hostChar_not_lineTerminator.
Qed.

Lemma fileHost_noLineTerminator (rest h : string) :
  URL.fileHost rest = Normal h -> Aux.noLineTerminator h = true.
Proof.
  unfold URL.fileHost.
  assert (Hempty : forall h', Normal "" = Normal h' ->
                              Aux.noLineTerminator h' = true).
  { intros h' H. injection H as <-. reflexivity. }
  destruct rest as [|a [|b after]]; try apply Hempty.
  destruct (URL.isSlash true a && URL.isSlash true b); [|apply Hempty].
  destruct (String.eqb _ "" || URL.isDriveLetter _); [apply Hempty|].
  destruct (URL.parseHost true _) as [h0|e] eqn:Hp; [|discriminate].
  destruct (String.eqb h0 "localhost"); [apply Hempty|].
  intros H. injection H as <-.
  eapply parseHost_noLineTerminator; eauto.
Qed.

(** A hostname the URL parser returns holds no line terminator. *)
Lemma hostname_noLineTerminator (url h : string) :
  URL.hostname url = Normal h -> Aux.noLineTerminator h = true.
Proof.
  unfold URL.hostname.
  destruct (negb (URL.startsWithAlpha _)); [discriminate|].
  destruct (URL.splitScheme _) as [[sch rest]|]; [|discriminate].
  destruct (URL.isSpecial _); [apply parseHost_noLineTerminator|].
  destruct (String.eqb _ "file"); [apply fileHost_noLineTerminator|].
  destruct (String.prefix "//" rest); [apply parseHost_noLineTerminator|].
  intros H. injection H as <-. reflexivity.
Qed.

(** *** Policy queries *)

Import WhitelistManager.

Lemma setHas_In (s : list string) (x : string) :
  setHas s x = true <-> In x s.
Proof.
  unfold setHas. rewrite existsb_exists. split.
  - intros [y [Hin Heq]]. apply String.eqb_eq in Heq. now subst.
  - intros Hin. exists x. split; [exact Hin | apply String.eqb_refl].
Qed.

Lemma isWhitelisted_hostname (m : t) (url h : string) :
  URL.hostname url = Normal h ->
  isWhitelisted m url =
  Normal (setHas (whitelist m) h ||
          existsb (fun pattern => RegExp_test pattern h) (patterns_whitelist m)).
Proof.
  intros H. unfold isWhitelisted. rewrite H. cbn.
  destruct (setHas (whitelist m) h); reflexivity.
Qed.

Lemma isBlacklisted_hostname (m : t) (url h : string) :
  URL.hostname url = Normal h ->
  isBlacklisted m url =
  Normal (setHas (blacklist m) h ||
          existsb (fun pattern => RegExp_test pattern h) (patterns_blacklist m)).
Proof.
  intros H. unfold isBlacklisted. rewrite H. cbn.
  destruct (setHas (blacklist m) h); reflexivity.
Qed.

Lemma isWhitelisted_malformed (m : t) (url e : string) :
  URL.hostname url = Throw e -> isWhitelisted m url = Normal false.
Proof. intros H. unfold isWhitelisted. now rewrite H. Qed.

Lemma isBlacklisted_malformed (m : t) (url e : string) :
  URL.hostname url = Throw e -> isBlacklisted m url = Normal false.
Proof. intros H. unfold isBlacklisted. now rewrite H. Qed.

Lemma isWhitelisted_total (m : t) (url : string) :
  exists w, isWhitelisted m url = Normal w.
Proof.
  destruct (URL.hostname url) as [h|e] eqn:H.
  - eexists. apply (isWhitelisted_hostname m url h H).
  - eexists. eapply isWhitelisted_malformed; eauto.
Qed.

Lemma isBlacklisted_total (m : t) (url : string) :
  exists b, isBlacklisted m url = Normal b.
Proof.
  destruct (URL.hostname url) as [h|e] eqn:H.
  - eexists. apply (isBlacklisted_hostname m url h H).
  - eexists. eapply isBlacklisted_malformed; eauto.
Qed.

Lemma whitelisted_is_never (m : t) (url : string) :
  isWhitelisted m url = Normal true ->
  canSleep m url = Normal (Some false) /\
  getSleepPriority m url = Normal (Spec.policyPriority Spec.never).
Proof. intros H. unfold canSleep, getSleepPriority. now rewrite H. Qed.

Lemma getSleepPriority_total (m : t) (url : string) :
  exists p, getSleepPriority m url = Normal p.
Proof.
  unfold getSleepPriority.
  destruct (isWhitelisted_total m url) as [w ->].
  destruct (isBlacklisted_total m url) as [b ->].
  destruct w, b; cbn; eauto.
Qed.

(** A wildcard match of an allow entry makes [isWhitelisted] true. *)
Lemma wildcard_entry_whitelists (m : t) (url h p : string) :
  compileList (whitelist m) = Some (patterns_whitelist m) ->
  URL.hostname url = Normal h ->
  In p (whitelist m) -> Spec.wildcardMatch p h ->
  isWhitelisted m url = Normal true.
Proof.
  intros Hc Hh Hin Hm. rewrite (isWhitelisted_hostname m url h Hh).
  f_equal. apply orb_true_iff. right. apply existsb_exists.
  exists (Aux.nodesOf p). split.
  - eapply compileList_In; eauto.
  - apply wildcardMatch_matchNodes; [exact Hm|].
    eapply hostname_noLineTerminator; eauto.
Qed.

(** The compiled patterns are kept in step with the sets. *)
Lemma compiled_constructor : Aux.compiled constructor.
Proof. split; reflexivity. Qed.

Lemma compiled_compilePatterns (type : ListType) (m m' : t) :
  (match type with
   | Whitelist => compileList (blacklist m) = Some (patterns_blacklist m)
   | Blacklist => compileList (whitelist m) = Some (patterns_whitelist m)
   end) ->
  compilePatterns type m = Some m' -> Aux.compiled m'.
Proof.
  intros Hother Hc. unfold compilePatterns in Hc. destruct type.
  - destruct (compileList (whitelist m)) as [ps|] eqn:E; [|discriminate].
    injection Hc as <-. split; [exact E | exact Hother].
  - destruct (compileList (blacklist m)) as [ps|] eqn:E; [|discriminate].
    injection Hc as <-. split; [exact Hother | exact E].
Qed.

Lemma compiled_addToWhitelist (domain : string) (m m' : t) (b : bool) :
  Aux.compiled m -> addToWhitelist domain m = Some (b, m') -> Aux.compiled m'.
Proof.
  intros Hm H. unfold addToWhitelist in H.
  destruct (normalizeDomain domain) as [d|]; [|now injection H as _ <-].
  destruct (String.eqb d ""); [now injection H as _ <-|].
  destruct (compilePatterns Whitelist _) as [m1|] eqn:E; [|discriminate].
  injection H as _ <-. eapply compiled_compilePatterns; [|exact E].
  apply Hm.
Qed.

Lemma compiled_addToBlacklist (domain : string) (m m' : t) (b : bool) :
  Aux.compiled m -> addToBlacklist domain m = Some (b, m') -> Aux.compiled m'.
Proof.
  intros Hm H. unfold addToBlacklist in H.
  destruct (normalizeDomain domain) as [d|]; [|now injection H as _ <-].
  destruct (String.eqb d ""); [now injection H as _ <-|].
  destruct (compilePatterns Blacklist _) as [m1|] eqn:E; [|discriminate].
  injection H as _ <-. eapply compiled_compilePatterns; [|exact E].
  apply Hm.
Qed.

Lemma compiled_removeFromWhitelist (domain : string) (m m' : t) (b : bool) :
  Aux.compiled m -> removeFromWhitelist domain m = Some (b, m') ->
  Aux.compiled m'.
Proof.
  intros Hm H. unfold removeFromWhitelist in H.
  destruct (normalizeDomain domain) as [d|]; [|now injection H as _ <-].
  destruct (setHas (whitelist m) d); [|now injection H as _ <-].
  destruct (compilePatterns Whitelist _) as [m1|] eqn:E; [|discriminate].
  injection H as _ <-. eapply compiled_compilePatterns; [|exact E].
  apply Hm.
Qed.

Lemma compiled_removeFromBlacklist (domain : string) (m m' : t) (b : bool) :
  Aux.compiled m -> removeFromBlacklist domain m = Some (b, m') ->
  Aux.compiled m'.
Proof.
  intros Hm H. unfold removeFromBlacklist in H.
  destruct (normalizeDomain domain) as [d|]; [|now injection H as _ <-].
  destruct (setHas (blacklist m) d); [|now injection H as _ <-].
  destruct (compilePatterns Blacklist _) as [m1|] eqn:E; [|discriminate].
  injection H as _ <-. eapply compiled_compilePatterns; [|exact E].
  apply Hm.
Qed.

Lemma wildcard_example :
  Spec.wildcardMatch "*.example.com" "mail.example.com".
Proof.
  apply (Spec.wm_star ".example.com" "mail" ".example.com").
  repeat (apply Spec.wm_char; [discriminate | reflexivity |]).
  apply Spec.wm_end.
Qed.



(** C10: on every input string the three policy queries return normally;
    when the string is not a parseable URL, both membership checks answer
    [false], [canSleep] answers [null] (default rules) and the priority is
    1 (normal), neither "never" nor "eager". *)
Theorem C10_policy_queries_total_and_default_on_malformed_url :
  forall (m : t) (url : string),
    (exists (w b : bool) (r : option bool) (p : Z),
        isWhitelisted m url = Normal w /\
        isBlacklisted m url = Normal b /\
        canSleep m url = Normal r /\
        getSleepPriority m url = Normal p) /\
    (forall e : string,
        URL.hostname url = Throw e ->
        isWhitelisted m url = Normal false /\
        isBlacklisted m url = Normal false /\
        canSleep m url = Normal None /\
        getSleepPriority m url = Normal (Spec.policyPriority Spec.normal)).
Proof.
  intros m url. split.
  - destruct (isWhitelisted_total m url) as [w Hw].
    destruct (isBlacklisted_total m url) as [b Hb].
    unfold canSleep, getSleepPriority. rewrite Hw, Hb.
    destruct w, b; cbn; eauto 10.
  - intros e He.
    pose proof (isWhitelisted_malformed m url e He) as Hw.
    pose proof (isBlacklisted_malformed m url e He) as Hb.
    unfold canSleep, getSleepPriority. rewrite Hw, Hb. cbn. auto.
Qed.

Lemma C10_policy_queries_total_and_default_on_malformed_url_witness :
  URL.hostname "not a url" = Throw "TypeError" /\
  isWhitelisted Scenario.allowAndDeny "not a url" = Normal false /\
  isBlacklisted Scenario.allowAndDeny "not a url" = Normal false /\
  canSleep Scenario.allowAndDeny "not a url" = Normal None /\
  getSleepPriority Scenario.allowAndDeny "not a url" = Normal 1.
Proof.
  split; [vm_compute; reflexivity|].
  exact (proj2 (C10_policy_queries_total_and_default_on_malformed_url
                  Scenario.allowAndDeny "not a url")
           "TypeError" eq_refl).
Defined.

(** *** The service worker's loop honours the allow-set *)

Lemma selectStep_throw (wm : t) (ot : TabInfo -> Q) (l : list TabInfo)
    (e : string) :
  fold_left (Background.selectStep wm ot) l (Throw e) = Throw e.
Proof. induction l as [|x l IH]; [reflexivity|]. exact IH. Qed.

Lemma tabsToSleep_excludes_never_from (wm : t) (ot : TabInfo -> Q)
    (l acc sel : list TabInfo) :
  (forall tab, In tab acc ->
               getSleepPriority wm (url tab) <> Normal 0) ->
  fold_left (Background.selectStep wm ot) l (Normal acc) = Normal sel ->
  forall tab, In tab sel -> getSleepPriority wm (url tab) <> Normal 0.
Proof.
  revert acc. induction l as [|x l IH]; intros acc Hacc Hfold.
  - cbn in Hfold. injection Hfold as <-. exact Hacc.
  - cbn [fold_left] in Hfold.
    assert (Hstep : exists acc',
               Background.selectStep wm ot (Normal acc) x = Normal acc' /\
               forall tab, In tab acc' ->
                           getSleepPriority wm (url tab) <> Normal 0).
    { unfold Background.selectStep. cbn [bind].
      destruct (isActive x || isSleeping x || audible x); [eauto|].
      destruct (startsWith (url x) "chrome://" ||
                startsWith (url x) "chrome-extension://"); [eauto|].
      destruct (getSleepPriority_total wm (url x)) as [p Hp].
      rewrite Hp. cbn [bind].
      assert (Hadd : p <> 0 ->
                forall tab, In tab (acc ++ [x]) ->
                            getSleepPriority wm (url tab) <> Normal 0).
      { intros Hp0 tab Hin. apply in_app_or in Hin as [Hin|[<-|[]]].
        - now apply Hacc.
        - rewrite Hp. congruence. }
      destruct (Z.eqb_spec p 0) as [H0|H0]; [eauto|].
      destruct (p =? 2)%Z; [eauto|].
      destruct (Qgtb _ _); eauto. }
    destruct Hstep as [acc' [Hacc' Hin']]. rewrite Hacc' in Hfold.
    eapply IH; eauto.
Qed.

(** The loop of [checkAndSleepTabsWithML] never selects a handle whose
    priority is 0. *)
Lemma background_loop_excludes_never (wm : t) (ot : TabInfo -> Q)
    (tabs sel : list TabInfo) :
  Background.tabsToSleep wm ot tabs = Normal sel ->
  forall tab, In tab sel -> getSleepPriority wm (url tab) <> Normal 0.
Proof.
  intros H. eapply tabsToSleep_excludes_never_from; [|exact H].
  intros tab [].
Qed.

(* ===================================================================== *)
(** ** Further properties of the cycle *)
(* ===================================================================== *)

Local Close Scope string_scope.

Lemma in_firstn_in {A : Type} (k : nat) (l : list A) (x : A) :
  In x (firstn k l) -> In x l.
Proof.
  revert l. induction k as [|k IH]; intros l H; [destruct H|].
  destruct l as [|y l]; [destruct H|].
  destruct H as [->|H]; [now left | right; now apply IH].
Qed.

Lemma in_sortByScore (l : list TabInfo) (x : TabInfo) :
  In x (sortByScore l) <-> In x l.
Proof.
  split; apply Permutation_in;
    [apply sortByScore_perm | symmetry; apply sortByScore_perm].
Qed.

Lemma in_tieredSelection (s : MemoryStatus) (now : Z) (eff usage : Q)
    (tabs : list TabInfo) (tab : TabInfo) :
  In tab (tieredSelection s (sleepCandidates now eff usage tabs)) ->
  In tab tabs /\ isValidSleepCandidate tab = true /\
  shouldTabSleep now tab eff usage = true.
Proof.
  intros H. apply in_firstn_in in H. unfold sleepCandidates in H.
  apply (proj1 (in_sortByScore _ _)) in H.
  apply filter_In in H as [H Hsleep]. apply filter_In in H as [Hin Hvalid].
  auto.
Qed.

Lemma in_emergencySelection (tabs : list TabInfo) (alreadySlept : Z)
    (tab : TabInfo) :
  In tab (emergencySelection tabs alreadySlept) ->
  In tab tabs /\ isValidSleepCandidate tab = true.
Proof.
  intros H. apply in_firstn_in in H. unfold emergencyCandidates in H.
  apply (proj1 (in_sortByScore _ _)) in H.
  apply filter_In in H as [Hin Hvalid]. split; [exact Hin|].
  unfold isValidSleepCandidate.
  destruct (isSleeping tab), (isActive tab), (audible tab),
           (isSystemPage (url tab)); cbn in *; congruence.
Qed.

Lemma getMemoryInfo_tracking (now : Z) (source : Completion MemoryInfo)
    (st : State) :
  let st' := snd (getMemoryInfo now source st) in
  config st' = config st /\
  tabActivityTimes st' = tabActivityTimes st /\
  tabMetadata st' = tabMetadata st /\
  sleepHistory st' = sleepHistory st.
Proof.
  unfold getMemoryInfo. destruct (cacheIsFresh st now); [cbn; auto|].
  destruct source; [cbn; auto|]. destruct (memoryCache st); cbn; auto.
Qed.

Lemma getTabsInfo_tracking (now : Z)
    (query : Completion (list Tab.t * option Tab.t)) (st1 st2 : State) :
  tabActivityTimes st1 = tabActivityTimes st2 ->
  tabMetadata st1 = tabMetadata st2 ->
  getTabsInfo now query st1 = getTabsInfo now query st2.
Proof.
  intros Ha Hm. unfold getTabsInfo.
  destruct query as [[hostTabs activeTab]|]; [|reflexivity].
  assert (Heq : forall tab, tabInfo st1 now activeTab tab =
                            tabInfo st2 now activeTab tab).
  { intros tab. unfold tabInfo. now rewrite Ha, Hm. }
  rewrite (map_ext _ _ Heq). reflexivity.
Qed.

(** The snapshot a cycle works on is the one taken from the state the
    cycle starts in. *)
Lemma cycle_snapshot (now : Z) (source : Completion MemoryInfo)
    (query : Completion (list Tab.t * option Tab.t)) (st : State) :
  getTabsInfo now query (snd (getMemoryInfo now source (countCheck st))) =
  getTabsInfo now query st.
Proof.
  destruct (getMemoryInfo_tracking now source (countCheck st))
    as (_ & Ha & Hm & _).
  apply getTabsInfo_tracking; assumption.
Qed.

(** Every request of a cycle is for a handle of the tiered or of the
    emergency selection over the cycle's snapshot. *)
Lemma cycle_request_origin (now : Z) (source : Completion MemoryInfo)
    (query : Completion (list Tab.t * option Tab.t)) (d : DiscardOracle)
    (st : State) (tabId : Z) :
  In tabId (discardRequests (checkAndSleepTabs now source query d st)) ->
  exists tab : TabInfo,
    In tab (tabs (getTabsInfo now query st)) /\ id tab = tabId /\
    isValidSleepCandidate tab = true.
Proof.
  unfold checkAndSleepTabs.
  destruct (autoSleep (config st)); cbn [negb]; [|intros []].
  pose proof (cycle_snapshot now source query st) as Hsnap.
  destruct (getMemoryInfo now source (countCheck st)) as [[m|] st'];
    [|intros []].
  cbn [snd] in Hsnap. rewrite Hsnap. cbn [discardRequests].
  rewrite emergencyPass_requests, tieredPass_requests.
  intros H. apply in_app_or in H as [H|H].
  - apply in_map_iff in H as (tab & Hid & Hin).
    apply in_tieredSelection in Hin as (Hin & Hvalid & _). eauto.
  - destruct (emergencyPassRuns _ m); [|destruct H].
    apply in_map_iff in H as (tab & Hid & Hin).
    apply in_emergencySelection in Hin as (Hin & Hvalid). eauto.
Qed.

Lemma orElse_not_system (u : option string) :
  isSystemPage (orElse u "about:blank"%string) = false ->
  exists url, u = Some url /\ isSystemPage url = false.
Proof.
  destruct u as [[|c r]|]; cbn [orElse]; try (vm_compute; discriminate).
  intros H. eauto.
Qed.

(** X1: whatever the memory reading, the mode and the host's answers, a
    cycle only ever asks the host to discard tabs of its own snapshot that
    are not discarded already, not audible, not the active tab, and whose
    URL is present and not a system page; when the tab query fails it asks
    for nothing. *)
Theorem X1_cycle_discards_only_background_pages :
  (forall (now : Z) (source : Completion MemoryInfo) (hostTabs : list Tab.t)
          (activeTab : option Tab.t) (d : DiscardOracle) (st : State)
          (tabId : Z),
      In tabId
        (discardRequests
           (checkAndSleepTabs now source (Normal (hostTabs, activeTab)) d st)) ->
      exists (tab : Tab.t) (url : string),
        In tab hostTabs /\ Tab.id tab = tabId /\
        Tab.discarded tab = false /\ Tab.audible tab = false /\
        Tab.url tab = Some url /\ isSystemPage url = false /\
        (forall a : Tab.t, activeTab = Some a -> Tab.id a <> tabId)) /\
  (forall (now : Z) (source : Completion MemoryInfo) (e : string)
          (d : DiscardOracle) (st : State),
      discardRequests (checkAndSleepTabs now source (Throw e) d st) = []).
Proof.
  split.
  - intros now source hostTabs activeTab d st tabId H.
    apply cycle_request_origin in H as (info & Hin & Hid & Hvalid).
    cbn [getTabsInfo tabs] in Hin.
    apply in_map_iff in Hin as (tab & <- & Hin).
    unfold isValidSleepCandidate in Hvalid. cbn in Hvalid, Hid.
    apply andb_true_iff in Hvalid as [Hvalid Hsys].
    apply andb_true_iff in Hvalid as [Hvalid Haud].
    apply andb_true_iff in Hvalid as [Hact Hdisc].
    apply negb_true_iff in Hsys, Haud, Hact, Hdisc.
    apply orElse_not_system in Hsys as (url & Hurl & Hsys).
    exists tab, url. repeat split; auto.
    intros a -> Heq. rewrite <- Hid in Heq.
    apply Z.eqb_neq in Hact. congruence.
  - intros now source e d st.
    destruct (discardRequests _) as [|tabId l] eqn:E; [reflexivity|].
    assert (H : In tabId (discardRequests
                            (checkAndSleepTabs now source (Throw e) d st)))
      by (rewrite E; now left).
    apply cycle_request_origin in H as (info & [] & _).
Qed.

Lemma X1_cycle_discards_only_background_pages_witness :
  In 4 (discardRequests (Scenario.criticalCycle Scenario.alwaysResolves)) /\
  exists (tab : Tab.t) (url : string),
    In tab Scenario.tenTabs /\ Tab.id tab = 4 /\
    Tab.discarded tab = false /\ Tab.audible tab = false /\
    Tab.url tab = Some url /\ isSystemPage url = false /\
    (forall a : Tab.t, None = Some a -> Tab.id a <> 4).
Proof.
  assert (H : In 4 (discardRequests
                      (Scenario.criticalCycle Scenario.alwaysResolves)))
    by (vm_compute; tauto).
  split; [exact H|].
  exact (proj1 X1_cycle_discards_only_background_pages Scenario.now
           (Scenario.memoryAt 9000) Scenario.tenTabs None
           Scenario.alwaysResolves Scenario.threeIdle 4 H).
Defined.

Local Open Scope Z_scope.

(** What a positive answer of [shouldTabSleep] implies. *)
Lemma shouldTabSleep_true (now : Z) (tab : TabInfo) (eff usage : Q) :
  shouldTabSleep now tab eff usage = true ->
  (eff <= inject_Z (inactiveTime tab))%Q /\
  match metadata tab with
  | Some md =>
      180000 <= now - createdAt md /\
      (30 < activationCount md ->
       (eff * 2 < inject_Z (inactiveTime tab))%Q) /\
      (15 < activationCount md <= 30 ->
       (eff * 1.5 < inject_Z (inactiveTime tab))%Q) /\
      (activationCount md <= 15 -> (85 < usage)%Q \/ 60 < sleepScore tab)
  | None => (85 < usage)%Q \/ 60 < sleepScore tab
  end.
Proof.
  unfold shouldTabSleep.
  destruct (Qltb (inject_Z (inactiveTime tab)) eff) eqn:Htime;
    [discriminate|].
  q_reflect. intros H. split; [exact Htime|].
  assert (Hlast : (if Qgtb usage 85 then true else sleepScore tab >? 60) = true ->
                  (85 < usage)%Q \/ 60 < sleepScore tab).
  { destruct (Qgtb usage 85) eqn:Hu; q_reflect; [now left|].
    intros Hs. right. lia. }
  destruct (metadata tab) as [md|]; [|now apply Hlast].
  destruct (Z.ltb_spec (now - createdAt md) 180000) as [|Hage];
    [discriminate|].
  split; [exact Hage|].
  destruct (Z.gtb_spec (activationCount md) 30) as [H30|H30].
  { apply Qgtb_true in H. repeat split; auto; lia. }
  destruct (Z.gtb_spec (activationCount md) 15) as [H15|H15].
  { apply Qgtb_true in H. repeat split; auto; lia. }
  repeat split; try lia. intros _. now apply Hlast.
Qed.

(** X2: a handle of the tiered selection has been inactive for at least
    the effective timer; if it has metadata it is at least 180 s old and,
    with more than 30 (more than 15) activations, inactive for strictly
    more than 2 (1.5) times the timer; otherwise memory usage is above 85%
    or its score is above 60. *)
Theorem X2_tiered_selection_respects_timer_grace_and_frequency :
  forall (s : MemoryStatus) (now : Z) (eff usage : Q) (tabs : list TabInfo)
         (tab : TabInfo),
    In tab (tieredSelection s (sleepCandidates now eff usage tabs)) ->
    In tab tabs /\
    (eff <= inject_Z (inactiveTime tab))%Q /\
    match metadata tab with
    | Some md =>
        180000 <= now - createdAt md /\
        (30 < activationCount md ->
         (eff * 2 < inject_Z (inactiveTime tab))%Q) /\
        (15 < activationCount md <= 30 ->
         (eff * 1.5 < inject_Z (inactiveTime tab))%Q) /\
        (activationCount md <= 15 -> (85 < usage)%Q \/ 60 < sleepScore tab)
    | None => (85 < usage)%Q \/ 60 < sleepScore tab
    end.
Proof.
  intros s now eff usage tabs tab H.
  apply in_tieredSelection in H as (Hin & _ & Hsleep).
  split; [exact Hin|]. now apply shouldTabSleep_true.
Qed.

Lemma X2_tiered_selection_respects_timer_grace_and_frequency_witness :
  In (Scenario.frequentTab (21 * Scenario.minute))
    (tieredSelection critical
       (sleepCandidates Scenario.now Scenario.defaultThreshold 50
          [Scenario.frequentTab (21 * Scenario.minute)])) /\
  (Scenario.defaultThreshold * 2 <
   inject_Z (inactiveTime (Scenario.frequentTab (21 * Scenario.minute))))%Q.
Proof.
  assert (H : In (Scenario.frequentTab (21 * Scenario.minute))
                (tieredSelection critical
                   (sleepCandidates Scenario.now Scenario.defaultThreshold 50
                      [Scenario.frequentTab (21 * Scenario.minute)])))
    by (left; reflexivity).
  split; [exact H|].
  destruct (X2_tiered_selection_respects_timer_grace_and_frequency critical
              Scenario.now Scenario.defaultThreshold 50
              [Scenario.frequentTab (21 * Scenario.minute)]
              (Scenario.frequentTab (21 * Scenario.minute)) H)
    as (_ & _ & Hmd).
  cbn [metadata Scenario.frequentTab] in Hmd.
  destruct Hmd as (_ & H30 & _). apply H30. reflexivity.
Defined.

(** *** Counting the discards *)

Lemma sleep_loop_bound (d : DiscardOracle) (now : Z) (l : list TabInfo)
    (acc : Loop) :
  let r := fold_left (sleepStep d now) l acc in
  sleptCount acc <= sleptCount r /\
  sleptCount r - sleptCount acc <=
    Z.of_nat (length (requests r)) - Z.of_nat (length (requests acc)).
Proof.
  revert acc. induction l as [|t l IH]; intros acc; cbn [fold_left].
  - cbn. lia.
  - specialize (IH (sleepStep d now acc t)). cbn zeta in *.
    assert (Hstep : sleptCount acc <= sleptCount (sleepStep d now acc t) <=
                      sleptCount acc + 1 /\
                    length (requests (sleepStep d now acc t)) =
                      S (length (requests acc))).
    { unfold sleepStep. destruct (d (requests acc) (id t)); cbn;
        rewrite length_app; cbn; lia. }
    lia.
Qed.

Lemma emergency_loop_bound (d : DiscardOracle) (l : list TabInfo) (n : Z)
    (reqs : list Z) :
  let r := fold_left (emergencyStep d) l (n, reqs) in
  n <= fst r /\
  fst r - n <= Z.of_nat (length (snd r)) - Z.of_nat (length reqs).
Proof.
  revert n reqs. induction l as [|t l IH]; intros n reqs; cbn [fold_left].
  - cbn. lia.
  - cbn [emergencyStep]. destruct (d reqs (id t)).
    + specialize (IH (n + 1) (reqs ++ [id t])). cbn zeta in *.
      rewrite length_app in IH. cbn in IH. lia.
    + specialize (IH n (reqs ++ [id t])). cbn zeta in *.
      rewrite length_app in IH. cbn in IH. lia.
Qed.

Lemma emergencyPass_bound (d : DiscardOracle) (m : MemoryReading)
    (ti : TabsInfo) (tiered : Loop) :
  let r := emergencyPass d m ti tiered in
  sleptCount tiered <= sleptCount r /\
  sleptCount r - sleptCount tiered <=
    Z.of_nat (length (requests r)) - Z.of_nat (length (requests tiered)).
Proof.
  unfold emergencyPass.
  destruct (emergencyPassRuns (config (state tiered)) m); [|cbn; lia].
  unfold emergencySleep.
  pose proof (emergency_loop_bound d
                (emergencySelection (tabs ti) (sleptCount tiered)) 0
                (requests tiered)) as H.
  destruct (fold_left (emergencyStep d) _ _) as [n reqs].
  cbn in *. lia.
Qed.

(** A host that rejects every request leaves a discard loop where it
    started. *)
Lemma sleep_loop_all_rejected (now : Z) (l : list TabInfo) (acc : Loop) :
  sleptCount (fold_left (sleepStep (fun _ _ => false) now) l acc) =
    sleptCount acc /\
  state (fold_left (sleepStep (fun _ _ => false) now) l acc) = state acc.
Proof.
  revert acc. induction l as [|t l IH]; intros acc; [now split|].
  cbn [fold_left]. destruct (IH (sleepStep (fun _ _ => false) now acc t))
    as [Hc Hs].
  rewrite Hc, Hs. now split.
Qed.

Lemma emergency_loop_all_rejected (l : list TabInfo) (n : Z)
    (reqs : list Z) :
  fst (fold_left (emergencyStep (fun _ _ => false)) l (n, reqs)) = n.
Proof.
  revert reqs. induction l as [|t l IH]; intros reqs; [reflexivity|].
  cbn [fold_left emergencyStep]. apply IH.
Qed.

(** X3: a rejected discard does not stop the batch.  The requests of the
    tiered pass are the same whatever the host answers; the reported count
    lies between 0 and the number of requests; and when the host rejects
    every request the count is 0 and no metadata or sleep history is
    written. *)
Theorem X3_rejected_discards_do_not_stop_the_batch :
  forall (now : Z) (source : Completion MemoryInfo)
         (query : Completion (list Tab.t * option Tab.t)) (st : State),
    (forall (d1 d2 : DiscardOracle) (m : MemoryReading) (ti : TabsInfo),
        requests (tieredPass d1 now st m ti) =
        requests (tieredPass d2 now st m ti)) /\
    (forall d : DiscardOracle,
        0 <= sleptOf (result (checkAndSleepTabs now source query d st)) <=
        Z.of_nat
          (length (discardRequests (checkAndSleepTabs now source query d st)))) /\
    (let cycle := checkAndSleepTabs now source query (fun _ _ => false) st in
     sleptOf (result cycle) = 0 /\
     tabMetadata (finalState cycle) = tabMetadata st /\
     sleepHistory (finalState cycle) = sleepHistory st).
Proof.
  intros now source query st. split; [|split].
  - intros d1 d2 m ti. now rewrite !tieredPass_requests.
  - intros d. unfold checkAndSleepTabs.
    destruct (autoSleep (config st)); cbn [negb]; [|cbn; lia].
    destruct (getMemoryInfo now source (countCheck st)) as [[m|] st'];
      [|cbn; lia].
    cbn [result sleptOf discardRequests].
    set (ti := getTabsInfo now query st').
    pose proof (emergencyPass_bound d m ti (tieredPass d now st' m ti)) as He.
    pose proof (sleep_loop_bound d now
                  (tieredSelection (status m)
                     (cycleCandidates now (config st') m ti))
                  (mkLoop 0 [] st')) as Ht.
    cbn zeta in *. fold (tieredPass d now st' m ti) in Ht. cbn in Ht. lia.
  - cbn zeta. unfold checkAndSleepTabs.
    destruct (autoSleep (config st)); cbn [negb]; [|now cbn].
    destruct (getMemoryInfo_tracking now source (countCheck st))
      as (_ & _ & Hm & Hh).
    destruct (getMemoryInfo now source (countCheck st)) as [[m|] st'];
      cbn [snd] in Hm, Hh; [|now cbn].
    cbn [result sleptOf finalState].
    set (ti := getTabsInfo now query st').
    destruct (sleep_loop_all_rejected now
                (tieredSelection (status m)
                   (cycleCandidates now (config st') m ti))
                (mkLoop 0 [] st')) as [Hc Hs].
    fold (tieredPass (fun _ _ => false) now st' m ti) in Hc, Hs.
    cbn in Hc, Hs. unfold emergencyPass.
    destruct (emergencyPassRuns _ m).
    + unfold emergencySleep.
      pose proof (emergency_loop_all_rejected
                    (emergencySelection (tabs ti)
                       (sleptCount (tieredPass (fun _ _ => false) now st' m ti)))
                    0 (requests (tieredPass (fun _ _ => false) now st' m ti)))
        as He.
      destruct (fold_left (emergencyStep _) _ _) as [n reqs].
      cbn in He. subst n. cbn. rewrite Hc, Hs. auto.
    + rewrite Hc, Hs. auto.
Qed.

(** *** The emergency selection *)

(** X4: the emergency pass walks at most
    [max 0 (ceiling (0.7 n) - alreadySlept)] of its [n] candidates, taken
    from the top of the score order, and none once the count already slept
    has reached the target.  It applies no inactivity or grace test: a
    single valid candidate is taken however recently it was used. *)
Theorem X4_emergency_selection_is_bounded_top_slice :
  forall (tabs : list TabInfo) (alreadySlept : Z),
    Z.of_nat (length (emergencySelection tabs alreadySlept)) =
      Z.min (Z.max 0 (emergencyTarget tabs - alreadySlept))
            (Z.of_nat (length (emergencyCandidates tabs))) /\
    (emergencyTarget tabs <= alreadySlept ->
     emergencySelection tabs alreadySlept = []) /\
    (forall x y : TabInfo,
        In x (emergencySelection tabs alreadySlept) ->
        In y (skipn (length (emergencySelection tabs alreadySlept))
                (emergencyCandidates tabs)) ->
        sleepScore y <= sleepScore x) /\
    (forall tab : TabInfo,
        isValidSleepCandidate tab = true ->
        emergencySelection [tab] 0 = [tab]).
Proof.
  intros tabs alreadySlept.
  split; [apply emergencySelection_length|]. split; [|split].
  - intros H. unfold emergencySelection, slice0.
    replace (Z.max 0 (emergencyTarget tabs - alreadySlept)) with 0 by lia.
    reflexivity.
  - intros x y Hx Hy.
    assert (Hlen : length (emergencySelection tabs alreadySlept) =
                   Nat.min (Z.to_nat (Z.max 0 (emergencyTarget tabs - alreadySlept)))
                           (length (emergencyCandidates tabs)))
      by apply length_firstn.
    assert (Hsel : emergencySelection tabs alreadySlept =
                   firstn (length (emergencySelection tabs alreadySlept))
                     (emergencyCandidates tabs)).
    { rewrite Hlen. unfold emergencySelection, slice0.
      destruct (Nat.min_spec
                  (Z.to_nat (Z.max 0 (emergencyTarget tabs - alreadySlept)))
                  (length (emergencyCandidates tabs))) as [[_ ->]|[Hle ->]];
        [reflexivity|].
      now rewrite firstn_all, firstn_all2. }
    rewrite Hsel in Hx.
    eapply sorted_prefix_dominates; eauto. apply sortByScore_sorted.
  - intros tab Hvalid. unfold emergencySelection, emergencyTarget,
      emergencyCandidates, slice0.
    assert (Hf : List.filter
                   (fun t => negb (isSleeping t) && negb (isActive t) &&
                             negb (audible t) && negb (isSystemPage (url t)))
                   [tab] = [tab]).
    { cbn [List.filter]. unfold isValidSleepCandidate in Hvalid.
      destruct (isSleeping tab), (isActive tab), (audible tab),
               (isSystemPage (url tab)); cbn in *; congruence. }
    rewrite Hf. reflexivity.
Qed.

Lemma X4_emergency_selection_is_bounded_top_slice_witness :
  emergencyTarget Scenario.idleSnapshot <= 8 /\
  emergencySelection Scenario.idleSnapshot 8 = [].
Proof.
  assert (H : emergencyTarget Scenario.idleSnapshot <= 8)
    by (vm_compute; discriminate).
  split; [exact H|].
  exact (proj1 (proj2 (X4_emergency_selection_is_bounded_top_slice
                         Scenario.idleSnapshot 8)) H).
Defined.

(** *** What a cycle leaves alone *)

Lemma sleepStep_tracking (d : DiscardOracle) (now : Z) (acc : Loop)
    (t : TabInfo) :
  let r := sleepStep d now acc t in
  config (state r) = config (state acc) /\
  tabActivityTimes (state r) = tabActivityTimes (state acc) /\
  (forall k, k <> id t ->
             tabMetadata (state r) !! k = tabMetadata (state acc) !! k /\
             sleepHistory (state r) !! k = sleepHistory (state acc) !! k) /\
  (forall k, is_Some (tabMetadata (state r) !! k) <->
             is_Some (tabMetadata (state acc) !! k)).
Proof.
  unfold sleepStep. destruct (d (requests acc) (id t)); cbn zeta;
    cbn [state]; [|tauto].
  unfold recordSleep. cbn.
  split; [reflexivity|]. split; [reflexivity|]. split.
  - intros k Hk. split.
    + destruct (tabMetadata (state acc) !! id t); [|reflexivity].
      now rewrite lookup_insert_ne.
    + now rewrite lookup_insert_ne.
  - intros k. destruct (tabMetadata (state acc) !! id t) eqn:E; [|tauto].
    destruct (decide (id t = k)) as [<-|Hne].
    + rewrite lookup_insert_eq, E. split; eauto.
    + now rewrite lookup_insert_ne.
Qed.

Lemma sleep_loop_tracking (d : DiscardOracle) (now : Z) (l : list TabInfo)
    (acc : Loop) :
  let r := fold_left (sleepStep d now) l acc in
  tabActivityTimes (state r) = tabActivityTimes (state acc) /\
  (forall k, ~ In k (map id l) ->
             tabMetadata (state r) !! k = tabMetadata (state acc) !! k /\
             sleepHistory (state r) !! k = sleepHistory (state acc) !! k) /\
  (forall k, is_Some (tabMetadata (state r) !! k) <->
             is_Some (tabMetadata (state acc) !! k)).
Proof.
  revert acc. induction l as [|t l IH]; intros acc; cbn [fold_left].
  - cbn. tauto.
  - destruct (IH (sleepStep d now acc t)) as (Ha & Hm & Hd).
    destruct (sleepStep_tracking d now acc t) as (_ & Ha' & Hm' & Hd').
    cbn zeta in *. split; [congruence|]. split.
    + intros k Hk. cbn [map] in Hk.
      assert (Hne : k <> id t) by (intros ->; apply Hk; now left).
      assert (Hnin : ~ In k (map id l)) by (intros H; apply Hk; now right).
      destruct (Hm k Hnin) as [-> ->]. now apply Hm'.
    + intros k. rewrite Hd. apply Hd'.
Qed.

Lemma emergencyPass_tracking (d : DiscardOracle) (m : MemoryReading)
    (ti : TabsInfo) (tiered : Loop) :
  let r := emergencyPass d m ti tiered in
  config (state r) = config (state tiered) /\
  tabActivityTimes (state r) = tabActivityTimes (state tiered) /\
  tabMetadata (state r) = tabMetadata (state tiered) /\
  sleepHistory (state r) = sleepHistory (state tiered).
Proof.
  unfold emergencyPass. destruct (emergencyPassRuns _ m); [|cbn; auto].
  destruct (emergencySleep d _ _ _) as [n reqs].
  destruct (n >? 0); cbn; auto.
Qed.

(** X5: a cycle never changes the settings or the activity timestamps,
    never creates or deletes a metadata record, and leaves the metadata
    and the sleep history of every tab it did not ask to discard exactly
    as they were. *)
Theorem X5_cycle_touches_only_requested_tabs :
  forall (now : Z) (source : Completion MemoryInfo)
         (query : Completion (list Tab.t * option Tab.t))
         (d : DiscardOracle) (st : State),
    let cycle := checkAndSleepTabs now source query d st in
    config (finalState cycle) = config st /\
    tabActivityTimes (finalState cycle) = tabActivityTimes st /\
    (forall k : Z,
        ~ In k (discardRequests cycle) ->
        tabMetadata (finalState cycle) !! k = tabMetadata st !! k /\
        sleepHistory (finalState cycle) !! k = sleepHistory st !! k) /\
    (forall k : Z,
        is_Some (tabMetadata (finalState cycle) !! k) <->
        is_Some (tabMetadata st !! k)).
Proof.
  intros now source query d st. cbn zeta. unfold checkAndSleepTabs.
  destruct (autoSleep (config st)); cbn [negb]; [|cbn; tauto].
  destruct (getMemoryInfo_tracking now source (countCheck st))
    as (Hc & Ha & Hm & Hh).
  destruct (getMemoryInfo now source (countCheck st)) as [[m|] st'];
    cbn [snd] in Hc, Ha, Hm, Hh.
  2:{ cbn [finalState discardRequests]. rewrite Hc, Ha, Hm, Hh. cbn. tauto. }
  cbn [finalState discardRequests].
  set (ti := getTabsInfo now query st').
  destruct (emergencyPass_tracking d m ti (tieredPass d now st' m ti))
    as (Hc2 & Ha2 & Hm2 & Hh2).
  cbn zeta in *. rewrite Hc2, Ha2, Hm2, Hh2, tieredPass_config.
  rewrite emergencyPass_requests, tieredPass_requests.
  destruct (sleep_loop_tracking d now
              (tieredSelection (status m)
                 (cycleCandidates now (config st') m ti))
              (mkLoop 0 [] st')) as (Ha3 & Hm3 & Hd3).
  cbn zeta in *. fold (tieredPass d now st' m ti) in Ha3, Hm3, Hd3.
  cbn [state] in Ha3, Hm3, Hd3.
  split; [exact Hc|]. split; [now rewrite Ha3|]. split.
  - intros k Hk.
    assert (Hnin : ~ In k (map id (tieredSelection (status m)
                                     (cycleCandidates now (config st') m ti)))).
    { intros H. apply Hk. apply in_or_app. now left. }
    destruct (Hm3 k Hnin) as [-> ->]. now rewrite Hm, Hh.
  - intros k. rewrite Hd3, Hm. reflexivity.
Qed.

Lemma X5_cycle_touches_only_requested_tabs_witness :
  ~ In 9 (discardRequests (Scenario.criticalCycle Scenario.alwaysResolves)) /\
  tabMetadata (finalState (Scenario.criticalCycle Scenario.alwaysResolves)) !! 9 =
    tabMetadata Scenario.threeIdle !! 9.
Proof.
  assert (H : ~ In 9 (discardRequests
                        (Scenario.criticalCycle Scenario.alwaysResolves))).
  { vm_compute. intros H.
    repeat (destruct H as [H|H]; [discriminate|]). exact H. }
  split; [exact H|].
  destruct (X5_cycle_touches_only_requested_tabs Scenario.now
              (Scenario.memoryAt 9000) (Normal (Scenario.tenTabs, None))
              Scenario.alwaysResolves Scenario.threeIdle)
    as (_ & _ & Hk & _).
  exact (proj1 (Hk 9 H)).
Defined.

(* ===================================================================== *)
(** ** Further properties of the timer, the sampler and the snapshot *)
(* ===================================================================== *)

Lemma calculateEffectiveSleepTimer_exact (c : Config) (baseTimer u : Q) :
  calculateEffectiveSleepTimerWith Qmult c baseTimer u =
  calculateEffectiveSleepTimer c baseTimer u.
Proof. reflexivity. Qed.

(** X6: the effective sleep timer, for a non-negative base timer and a
    product that rounds in any way that is monotone in the factor and
    keeps [base * k], for [0 <= k <= 1], between 0 and the base (the
    exact product does, and so does the product of doubles): the timer
    lies between 0 and the base, never grows when memory usage grows, and
    is the base itself when aggressive mode is off.  With the exact
    product it is [calculateEffectiveSleepTimer]. *)
Theorem X6_effective_timer_shrinks_with_usage :
  forall (times : Q -> Q -> Q) (c : Config) (baseTimer u1 u2 : Q),
    (forall k1 k2 : Q,
        (0 <= k1)%Q -> (k1 <= k2)%Q -> (k2 <= 1)%Q ->
        (times baseTimer k1 <= times baseTimer k2)%Q) ->
    (forall k : Q,
        (0 <= k)%Q -> (k <= 1)%Q ->
        (0 <= times baseTimer k)%Q /\ (times baseTimer k <= baseTimer)%Q) ->
    (0 <= baseTimer)%Q -> (u1 <= u2)%Q ->
    (calculateEffectiveSleepTimerWith times c baseTimer u2 <=
     calculateEffectiveSleepTimerWith times c baseTimer u1)%Q /\
    (0 <= calculateEffectiveSleepTimerWith times c baseTimer u2)%Q /\
    (calculateEffectiveSleepTimerWith times c baseTimer u1 <= baseTimer)%Q /\
    (aggressiveMode c = false ->
     calculateEffectiveSleepTimerWith times c baseTimer u1 = baseTimer) /\
    calculateEffectiveSleepTimerWith Qmult c baseTimer u1 =
      calculateEffectiveSleepTimer c baseTimer u1.
Proof.
  intros times c b u1 u2 Hmono Hbound Hb Hu.
  assert (Hlo : forall k, (0 <= k)%Q -> (k <= 1)%Q -> (0 <= times b k)%Q)
    by (intros k H0 H1; apply (Hbound k H0 H1)).
  assert (Hhi : forall k, (0 <= k)%Q -> (k <= 1)%Q -> (times b k <= b)%Q)
    by (intros k H0 H1; apply (Hbound k H0 H1)).
  assert (M23 : (times b 0.2 <= times b 0.3)%Q) by (apply Hmono; lra).
  assert (M35 : (times b 0.3 <= times b 0.5)%Q) by (apply Hmono; lra).
  assert (M56 : (times b 0.5 <= times b 0.6)%Q) by (apply Hmono; lra).
  assert (M67 : (times b 0.6 <= times b 0.7)%Q) by (apply Hmono; lra).
  assert (M78 : (times b 0.7 <= times b 0.8)%Q) by (apply Hmono; lra).
  assert (M89 : (times b 0.8 <= times b 0.9)%Q) by (apply Hmono; lra).
  assert (L2 : (0 <= times b 0.2)%Q) by (apply Hlo; lra).
  assert (U9 : (times b 0.9 <= b)%Q) by (apply Hhi; lra).
  split; [|split; [|split; [|split; [|reflexivity]]]].
  4:{ intros Ha. unfold calculateEffectiveSleepTimerWith. now rewrite Ha. }
  all: unfold calculateEffectiveSleepTimerWith;
    destruct (aggressiveMode c); cbn [negb]; try lra;
    repeat match goal with
    | |- context [if Qgtb ?a ?k then _ else _] =>
        destruct (Qgtb a k) eqn:?
    end;
    q_reflect; lra.
Qed.

Lemma X6_effective_timer_shrinks_with_usage_witness :
  (0 <= 600000)%Q /\ (50 <= 90)%Q /\
  (calculateEffectiveSleepTimerWith Qmult (config (Scenario.engine true))
     600000 90 <=
   calculateEffectiveSleepTimerWith Qmult (config (Scenario.engine true))
     600000 50)%Q.
Proof.
  split; [lra|]. split; [lra|].
  refine (proj1 (X6_effective_timer_shrinks_with_usage Qmult
                   (config (Scenario.engine true)) 600000 50 90 _ _ _ _)).
  - intros k1 k2 H0 H12 H1. nra.
  - intros k H0 H1. split; nra.
  - lra.
  - lra.
Defined.

(** X7: after a successful sample at [now], every call made less than
    [maxCacheAge] later returns that very reading without consulting the
    source (even a failing one) and leaves the state alone; a call at or
    after [maxCacheAge] with a working source replaces the cache by a
    reading stamped with the new time. *)
Theorem X7_fresh_cache_is_served_without_sampling :
  forall (now later : Z) (info : MemoryInfo) (st : State),
    cacheIsFresh st now = false ->
    let r := readMemory (config st) now info in
    let st1 := snd (getMemoryInfo now (Normal info) st) in
    getMemoryInfo now (Normal info) st = (Some r, st1) /\
    memoryCache st1 = Some r /\
    (later - now < maxCacheAge (config st) ->
     forall source : Completion MemoryInfo,
       getMemoryInfo later source st1 = (Some r, st1)) /\
    (maxCacheAge (config st) <= later - now ->
     forall info' : MemoryInfo,
       exists r' : MemoryReading,
         fst (getMemoryInfo later (Normal info') st1) = Some r' /\
         timestamp r' = later /\ stale r' = false).
Proof.
  intros now later info st Hstale. cbn zeta.
  assert (Hget : getMemoryInfo now (Normal info) st =
                 (Some (readMemory (config st) now info),
                  setMemoryCache st (readMemory (config st) now info) now)).
  { unfold getMemoryInfo. now rewrite Hstale. }
  rewrite Hget. cbn [snd].
  split; [reflexivity|]. split; [reflexivity|]. split.
  - intros Hage source. unfold getMemoryInfo, cacheIsFresh.
    cbn [memoryCache memoryCacheTime config setMemoryCache].
    destruct (Z.ltb_spec (later - now) (maxCacheAge (config st))); [|lia].
    reflexivity.
  - intros Hage info'. unfold getMemoryInfo, cacheIsFresh.
    cbn [memoryCache memoryCacheTime config setMemoryCache].
    destruct (Z.ltb_spec (later - now) (maxCacheAge (config st))); [lia|].
    eexists. cbn [fst]. split; [reflexivity|]. split; reflexivity.
Qed.

Lemma X7_fresh_cache_is_served_without_sampling_witness :
  cacheIsFresh (Scenario.engine false) 5000 = false /\
  6500 - 5000 < maxCacheAge (config (Scenario.engine false)) /\
  getMemoryInfo 6500 (Throw "Error")
    (snd (getMemoryInfo 5000 (Normal (mkMemoryInfo 8388608000 2097152000))
            (Scenario.engine false))) =
  (Some (readMemory (config (Scenario.engine false)) 5000
           (mkMemoryInfo 8388608000 2097152000)),
   snd (getMemoryInfo 5000 (Normal (mkMemoryInfo 8388608000 2097152000))
          (Scenario.engine false))).
Proof.
  split; [reflexivity|]. split; [reflexivity|].
  destruct (X7_fresh_cache_is_served_without_sampling 5000 6500
              (mkMemoryInfo 8388608000 2097152000) (Scenario.engine false)
              eq_refl) as (_ & _ & H & _).
  apply H. reflexivity.
Defined.

(** *** The reading *)

Lemma Math_round_div_monotone (a b n : Z) :
  0 < n -> a <= b -> Math_round_div a n <= Math_round_div b n.
Proof.
  intros Hn Hab. unfold Math_round_div.
  apply Z.div_le_mono; lia.
Qed.

Lemma Math_round_div_nonneg (a n : Z) :
  0 < n -> 0 <= a -> 0 <= Math_round_div a n.
Proof.
  intros Hn Ha. unfold Math_round_div. apply Z.div_pos; lia.
Qed.

Lemma toFixed1_percent (x : Q) :
  (0 <= x)%Q -> (x <= 100)%Q ->
  (0 <= toFixed1 x)%Q /\ (toFixed1 x <= 100)%Q.
Proof.
  intros H0 H100. unfold toFixed1.
  destruct (Qltb x 0) eqn:E; q_reflect; [lra|].
  assert (Hlo : 0 <= Qfloor (x * 10 + 0.5)).
  { change 0 with (Qfloor 0). apply Qfloor_resp_le. lra. }
  assert (Hhi : Qfloor (x * 10 + 0.5) <= 1000).
  { change 1000 with (Qfloor 1000.5). apply Qfloor_resp_le. lra. }
  rewrite Zle_Qle in Hlo, Hhi.
  change (inject_Z 0) with 0%Q in Hlo.
  change (inject_Z 1000) with 1000%Q in Hhi.
  split.
  - apply Qle_shift_div_l; lra.
  - apply Qle_shift_div_r; lra.
Qed.

(** X8: for a host reporting [0 <= availableCapacity <= capacity] and at
    least one megabyte of capacity, the reading is consistent: used plus
    available megabytes equal the total, the used megabytes lie between 0
    and the total, the usage percentage lies between 0 and 100, and the
    reading is stamped with the sampling time and not stale. *)
Theorem X8_reading_is_consistent :
  forall (c : Config) (now : Z) (info : MemoryInfo),
    0 <= availableCapacity info <= capacity info ->
    1024 * 1024 <= capacity info ->
    let r := readMemory c now info in
    usedMB r + availableMB r = totalMB r /\
    0 <= usedMB r <= totalMB r /\
    0 < totalMB r /\
    (0 <= usagePercent r)%Q /\ (usagePercent r <= 100)%Q /\
    timestamp r = now /\ stale r = false.
Proof.
  intros c now info [Ha0 Hac] Hcap. cbn zeta.
  unfold readMemory. cbn [usedMB availableMB totalMB usagePercent timestamp stale].
  set (total := Math_round_div (capacity info) (1024 * 1024)).
  set (avail := Math_round_div (availableCapacity info) (1024 * 1024)).
  assert (Havail : 0 <= avail) by (apply Math_round_div_nonneg; lia).
  assert (Hle : avail <= total) by (apply Math_round_div_monotone; lia).
  assert (Htotal : 1 <= total).
  { change 1 with (Math_round_div (1024 * 1024) (1024 * 1024)).
    apply Math_round_div_monotone; lia. }
  split; [lia|]. split; [lia|]. split; [lia|].
  assert (Hq : (0 <= inject_Z (total - avail) / inject_Z total * 100)%Q /\
               (inject_Z (total - avail) / inject_Z total * 100 <= 100)%Q).
  { assert (Ht : (0 < inject_Z total)%Q).
    { change 0%Q with (inject_Z 0). rewrite <- Zlt_Qlt. lia. }
    assert (Hu0 : (0 <= inject_Z (total - avail))%Q).
    { change 0%Q with (inject_Z 0). rewrite <- Zle_Qle. lia. }
    assert (Hu1 : (inject_Z (total - avail) <= inject_Z total)%Q).
    { rewrite <- Zle_Qle. lia. }
    assert (Hd0 : (0 <= inject_Z (total - avail) / inject_Z total)%Q).
    { apply Qle_shift_div_l; [exact Ht|]. lra. }
    assert (Hd1 : (inject_Z (total - avail) / inject_Z total <= 1)%Q).
    { apply Qle_shift_div_r; [exact Ht|]. lra. }
    split; lra. }
  destruct (toFixed1_percent _ (proj1 Hq) (proj2 Hq)) as [H0 H100].
  repeat split; assumption.
Qed.

Lemma X8_reading_is_consistent_witness :
  0 <= availableCapacity (mkMemoryInfo 8388608000 2097152000) <=
    capacity (mkMemoryInfo 8388608000 2097152000) /\
  1024 * 1024 <= capacity (mkMemoryInfo 8388608000 2097152000) /\
  usedMB (readMemory (config ResourceControls.constructor) 7
            (mkMemoryInfo 8388608000 2097152000)) +
  availableMB (readMemory (config ResourceControls.constructor) 7
                 (mkMemoryInfo 8388608000 2097152000)) =
  totalMB (readMemory (config ResourceControls.constructor) 7
             (mkMemoryInfo 8388608000 2097152000)).
Proof.
  assert (H1 : 0 <= availableCapacity (mkMemoryInfo 8388608000 2097152000) <=
               capacity (mkMemoryInfo 8388608000 2097152000))
    by (cbn; lia).
  assert (H2 : 1024 * 1024 <= capacity (mkMemoryInfo 8388608000 2097152000))
    by (cbn; lia).
  split; [exact H1|]. split; [exact H2|].
  exact (proj1 (X8_reading_is_consistent (config ResourceControls.constructor)
                  7 (mkMemoryInfo 8388608000 2097152000) H1 H2)).
Defined.

(** *** The snapshot *)

Lemma count_partition (p : TabInfo -> bool) (l : list TabInfo) :
  count (fun x => negb (p x)) l + count p l = Z.of_nat (length l).
Proof.
  unfold count. induction l as [|x l IH]; [reflexivity|].
  cbn [List.filter]. destruct (p x); cbn [negb length] in *; lia.
Qed.

Lemma sleeping_count (st : State) (now : Z) (activeTab : option Tab.t)
    (hostTabs : list Tab.t) :
  length (List.filter isSleeping (map (tabInfo st now activeTab) hostTabs)) =
  length (List.filter Tab.discarded hostTabs).
Proof.
  induction hostTabs as [|tab l IH]; [reflexivity|].
  cbn [map List.filter]. unfold tabInfo at 1. cbn [isSleeping].
  destruct (Tab.discarded tab); cbn [length]; now rewrite IH.
Qed.

(** X9: the snapshot lists the host's tabs one for one and in the host's
    order; [active + sleeping = total] and [sleeping] counts the host's
    discarded tabs.  An entry's [lastActivity] is the time the engine
    recorded for that tab id in [tabActivityTimes], and its inactivity
    the time elapsed since then; a tab with no recorded time, or with the
    recorded time 0, counts as active just now (inactivity 0).  Its
    metadata are the record tracked under its id, a discarded or active
    tab scores 0, and every score lies in [0, 100].  When the tab query
    fails the snapshot is empty with all counts 0. *)
Theorem X9_snapshot_mirrors_host_tabs :
  (forall (now : Z) (hostTabs : list Tab.t) (activeTab : option Tab.t)
          (st : State),
      let ti := getTabsInfo now (Normal (hostTabs, activeTab)) st in
      map id (tabs ti) = map Tab.id hostTabs /\
      map isSleeping (tabs ti) = map Tab.discarded hostTabs /\
      total ti = Z.of_nat (length hostTabs) /\
      active ti + sleeping ti = total ti /\
      sleeping ti = Z.of_nat (length (List.filter Tab.discarded hostTabs)) /\
      (forall info : TabInfo,
          In info (tabs ti) ->
          (forall t : Z,
              tabActivityTimes st !! id info = Some t -> t <> 0 ->
              lastActivity info = t /\ inactiveTime info = now - t) /\
          (tabActivityTimes st !! id info = None \/
           tabActivityTimes st !! id info = Some 0 ->
           lastActivity info = now /\ inactiveTime info = 0) /\
          0 <= sleepScore info <= 100 /\
          (isSleeping info = true -> sleepScore info = 0) /\
          (isActive info = true -> sleepScore info = 0) /\
          metadata info = tabMetadata st !! id info)) /\
  (forall (now : Z) (e : string) (st : State),
      getTabsInfo now (Throw e) st = mkTabsInfo [] 0 0 0).
Proof.
  split; [|reflexivity].
  intros now hostTabs activeTab st. cbn zeta.
  cbn [getTabsInfo tabs total active sleeping].
  split; [now rewrite map_map|]. split; [now rewrite map_map|].
  split; [reflexivity|]. split; [|split].
  - rewrite count_partition. now rewrite length_map.
  - unfold count. now rewrite sleeping_count.
  - intros info Hin. apply in_map_iff in Hin as (tab & <- & _).
    cbn [tabInfo inactiveTime lastActivity sleepScore isSleeping isActive
         metadata id].
    split; [|split; [|split; [|split; [|split]]]].
    + intros t Ht Hne. rewrite Ht. unfold truthy.
      apply Z.eqb_neq in Hne. rewrite Hne. cbn [negb]. split; reflexivity.
    + intros [Ht|Ht]; rewrite Ht; cbn; split; (reflexivity || lia).
    + unfold calculateSleepScore.
      match goal with |- context [if ?b then 0 else _] => destruct b end;
        [lia | apply clamp_bounds].
    + intros ->. unfold calculateSleepScore. now rewrite orb_true_r.
    + intros ->. unfold calculateSleepScore. reflexivity.
    + reflexivity.
Qed.

(** *** The score *)

Lemma inactiveMinutes_monotone (t1 t2 : Z) :
  t1 <= t2 -> (inject_Z t1 / 60000 <= inject_Z t2 / 60000)%Q.
Proof.
  intros H. rewrite Zle_Qle in H. unfold Qdiv.
  apply Qmult_le_compat_r; [exact H|]. vm_compute. discriminate.
Qed.

(** X10: with everything else equal, a longer inactivity never lowers the
    sleep score. *)
Theorem X10_score_grows_with_inactivity :
  forall (now : Z) (tab : Tab.t) (t1 t2 : Z) (md : option TabMetadata)
         (isActive isSleeping : bool),
    t1 <= t2 ->
    calculateSleepScore now tab t1 md isActive isSleeping <=
    calculateSleepScore now tab t2 md isActive isSleeping.
Proof.
  intros now tab t1 t2 md a s Hle.
  pose proof (inactiveMinutes_monotone t1 t2 Hle) as Hq.
  unfold calculateSleepScore. destruct (a || s); [lia|]. cbv zeta.
  set (b1 := if Qgtb (inject_Z t1 / 60000) 60 then _ else _).
  set (b2 := if Qgtb (inject_Z t2 / 60000) 60 then _ else _).
  assert (Hb : b1 <= b2).
  { subst b1 b2.
    repeat match goal with
    | |- context [if Qgtb ?x ?k then _ else _] => destruct (Qgtb x k) eqn:?
    end; try lia; q_reflect; exfalso; lra. }
  clearbody b1 b2.
  destruct md as [m|].
  - destruct (lastSleepTime m) as [t|];
      destruct (URL.hostname _);
      repeat match goal with
      | |- context [if ?b then _ else _] => destruct b
      end; lia.
  - destruct (URL.hostname _);
      repeat match goal with
      | |- context [if ?b then _ else _] => destruct b
      end; lia.
Qed.

Lemma X10_score_grows_with_inactivity_witness :
  10 * Scenario.minute <= 40 * Scenario.minute /\
  calculateSleepScore Scenario.now Scenario.mailTab (10 * Scenario.minute)
    None false false <=
  calculateSleepScore Scenario.now Scenario.mailTab (40 * Scenario.minute)
    None false false.
Proof.
  assert (H : 10 * Scenario.minute <= 40 * Scenario.minute)
    by (vm_compute; discriminate).
  split; [exact H|].
  exact (X10_score_grows_with_inactivity Scenario.now Scenario.mailTab
           (10 * Scenario.minute) (40 * Scenario.minute) None false false H).
Defined.

(** *** Settings *)

Lemma clamp_idempotent (lo hi v : Z) :
  lo <= hi -> Z.max lo (Z.min hi (Z.max lo (Z.min hi v))) = Z.max lo (Z.min hi v).
Proof. lia. Qed.

Lemma validateRanges_idempotent (n : NewConfig.t) :
  validateRanges (validateRanges n) = validateRanges n.
Proof.
  assert (Hr1 : forall v, truthy (Z.max 1000 (Z.min 5000 v)) = true).
  { intros v. unfold truthy. apply negb_true_iff, Z.eqb_neq. lia. }
  assert (Ht1 : forall v, truthy (Z.max 1 (Z.min 60 v)) = true).
  { intros v. unfold truthy. apply negb_true_iff, Z.eqb_neq. lia. }
  assert (Hr2 : forall v, Z.max 1000 (Z.min 5000 (Z.max 1000 (Z.min 5000 v))) =
                          Z.max 1000 (Z.min 5000 v)) by (intros; lia).
  assert (Ht2 : forall v, Z.max 1 (Z.min 60 (Z.max 1 (Z.min 60 v))) =
                          Z.max 1 (Z.min 60 v)) by (intros; lia).
  destruct n as [r t a g ci ui mi mc e w o]. unfold validateRanges.
  cbn [NewConfig.ramLimit NewConfig.sleepTimer NewConfig.autoSleep
       NewConfig.aggressiveMode NewConfig.checkInterval
       NewConfig.updateInterval NewConfig.minInactiveTime
       NewConfig.maxCacheAge NewConfig.emergencyThreshold
       NewConfig.warningThreshold NewConfig.optimalThreshold].
  f_equal.
  - destruct r as [r|]; [|reflexivity].
    destruct (truthy r) eqn:Er; [now rewrite Hr1, Hr2 | now rewrite Er].
  - destruct t as [t|]; [|reflexivity].
    destruct (truthy t) eqn:Et; [now rewrite Ht1, Ht2 | now rewrite Et].
Qed.

Lemma assign_twice (c : Config) (n : NewConfig.t) :
  assign (assign c n) n = assign c n.
Proof.
  destruct n as [r t a g ci ui mi mc e w o].
  destruct r, t, a, g, ci, ui, mi, mc, e, w, o; reflexivity.
Qed.

(** X11: applying the same settings object twice gives the state of
    applying it once, and so does applying the validated object (the one
    the code writes to storage) again; settings the object does not hold
    keep their value. *)
Theorem X11_updateConfig_is_idempotent :
  forall (n : NewConfig.t) (st : State),
    updateConfig n (updateConfig n st) = updateConfig n st /\
    updateConfig (validateRanges n) (updateConfig n st) = updateConfig n st /\
    (NewConfig.ramLimit n = None ->
     ramLimit (config (updateConfig n st)) = ramLimit (config st)) /\
    (NewConfig.sleepTimer n = None ->
     sleepTimer (config (updateConfig n st)) = sleepTimer (config st)) /\
    memoryCache (updateConfig n st) = memoryCache st /\
    tabMetadata (updateConfig n st) = tabMetadata st /\
    tabActivityTimes (updateConfig n st) = tabActivityTimes st.
Proof.
  intros n st. unfold updateConfig, setConfig. cbn [config].
  rewrite validateRanges_idempotent, assign_twice.
  split; [reflexivity|]. split; [reflexivity|].
  split; [|split; [|repeat split]].
  - intros H. unfold validateRanges, assign. cbn. now rewrite H.
  - intros H. unfold validateRanges, assign. cbn. now rewrite H.
Qed.

Lemma X11_updateConfig_is_idempotent_witness :
  NewConfig.ramLimit (NewConfig.ofModes true true) = None /\
  ramLimit (config (updateConfig (NewConfig.ofModes true true)
                      ResourceControls.constructor)) =
  ramLimit (config ResourceControls.constructor).
Proof.
  split; [reflexivity|].
  destruct (X11_updateConfig_is_idempotent (NewConfig.ofModes true true)
              ResourceControls.constructor) as (_ & _ & H & _).
  apply H. reflexivity.
Defined.

(* ===================================================================== *)
(** ** Properties of the activity records *)
(* ===================================================================== *)

Lemma state_eta (st : State) :
  mkState (config st) (tabActivityTimes st) (tabMetadata st) (memoryCache st)
    (memoryCacheTime st) (sleepHistory st) (stats st) = st.
Proof. now destruct st. Qed.

Lemma tabInfo_after_activity (now : Z) (activeTab : option Tab.t)
    (tab : Tab.t) (st : State) :
  tabActivityTimes st !! Tab.id tab = Some now ->
  inactiveTime (tabInfo st now activeTab tab) = 0.
Proof.
  intros H. cbn [tabInfo inactiveTime]. rewrite H.
  destruct (truthy now); lia.
Qed.

(** X12: [updateTabActivity] stamps the tab with the current time, adds
    one to its activation count (starting a record created now for an
    unknown tab), keeps creation time, last sleep time and sleep count of
    a known tab, and touches no other tab.  In a snapshot taken at the
    same instant the tab has inactivity 0, so with a positive effective
    timer it is not eligible for the tiered pass. *)
Theorem X12_activity_resets_inactivity_and_counts_once :
  forall (now tabId : Z) (st : State),
    let st' := updateTabActivity now tabId st in
    tabActivityTimes st' !! tabId = Some now /\
    (exists md' : TabMetadata,
        tabMetadata st' !! tabId = Some md' /\
        match tabMetadata st !! tabId with
        | Some md =>
            activationCount md' = activationCount md + 1 /\
            createdAt md' = createdAt md /\
            lastSleepTime md' = lastSleepTime md /\
            sleepCount md' = sleepCount md
        | None =>
            activationCount md' = 1 /\ createdAt md' = now /\
            lastSleepTime md' = None /\ sleepCount md' = 0
        end) /\
    (forall k : Z,
        k <> tabId ->
        tabActivityTimes st' !! k = tabActivityTimes st !! k /\
        tabMetadata st' !! k = tabMetadata st !! k) /\
    sleepHistory st' = sleepHistory st /\ config st' = config st /\
    (forall (activeTab : option Tab.t) (tab : Tab.t) (eff usage : Q),
        Tab.id tab = tabId -> (0 < eff)%Q ->
        inactiveTime (tabInfo st' now activeTab tab) = 0 /\
        shouldTabSleep now (tabInfo st' now activeTab tab) eff usage = false).
Proof.
  intros now tabId st. cbn zeta.
  assert (Ha : tabActivityTimes (updateTabActivity now tabId st) !! tabId =
               Some now) by apply lookup_insert_eq.
  split; [exact Ha|]. split.
  - unfold updateTabActivity. cbn [setTracking tabMetadata].
    eexists. split; [apply lookup_insert_eq|].
    destruct (tabMetadata st !! tabId) as [md|]; cbn; tauto.
  - split; [|split; [reflexivity|split; [reflexivity|]]].
    + intros k Hk. unfold updateTabActivity.
      cbn [setTracking tabActivityTimes tabMetadata].
      now rewrite !lookup_insert_ne by congruence.
    + intros activeTab tab eff usage Hid Heff.
      assert (H0 : inactiveTime
                     (tabInfo (updateTabActivity now tabId st) now activeTab
                        tab) = 0).
      { apply tabInfo_after_activity. now rewrite Hid. }
      split; [exact H0|].
      unfold shouldTabSleep. rewrite H0.
      assert (Hlt : Qltb (inject_Z 0) eff = true) by now apply Qltb_true.
      now rewrite Hlt.
Qed.

Lemma X12_activity_resets_inactivity_and_counts_once_witness :
  Tab.id (Scenario.pageTab 1 "https://example.com/") = 1 /\
  (0 < 600000)%Q /\
  shouldTabSleep Scenario.now
    (tabInfo (updateTabActivity Scenario.now 1 Scenario.threeIdle)
       Scenario.now None (Scenario.pageTab 1 "https://example.com/"))
    600000 90 = false.
Proof.
  assert (H : (0 < 600000)%Q) by reflexivity.
  split; [reflexivity|]. split; [exact H|].
  destruct (X12_activity_resets_inactivity_and_counts_once Scenario.now 1
              Scenario.threeIdle) as (_ & _ & _ & _ & _ & Hs).
  exact (proj2 (Hs None (Scenario.pageTab 1 "https://example.com/")
                  600000%Q 90%Q eq_refl H)).
Defined.

(** X13: [removeTab] forgets the tab in all three maps and leaves every
    other tab alone; removing twice is removing once; activity recorded
    before the removal leaves no trace, and a tab id that reappears after
    a removal starts from a fresh record with one activation. *)
Theorem X13_removeTab_forgets_exactly_one_tab :
  forall (now tabId : Z) (st : State),
    let st' := removeTab tabId st in
    (tabActivityTimes st' !! tabId = None /\
     tabMetadata st' !! tabId = None /\
     sleepHistory st' !! tabId = None) /\
    (forall k : Z,
        k <> tabId ->
        tabActivityTimes st' !! k = tabActivityTimes st !! k /\
        tabMetadata st' !! k = tabMetadata st !! k /\
        sleepHistory st' !! k = sleepHistory st !! k) /\
    config st' = config st /\
    removeTab tabId st' = st' /\
    removeTab tabId (updateTabActivity now tabId st) = st' /\
    tabMetadata (updateTabActivity now tabId st') !! tabId =
      Some (mkMetadata now 1 0 None 0 "unknown" "general").
Proof.
  intros now tabId st. cbn zeta. unfold removeTab, updateTabActivity.
  cbn [setTracking tabActivityTimes tabMetadata sleepHistory config
       memoryCache memoryCacheTime stats].
  split; [now rewrite !lookup_delete_eq|]. split.
  { intros k Hk. now rewrite !lookup_delete_ne by congruence. }
  split; [reflexivity|]. split.
  { now rewrite !delete_delete_eq. }
  split.
  { now rewrite !delete_insert_eq. }
  rewrite !lookup_delete_eq. rewrite lookup_insert_eq. cbn.
  do 2 f_equal. lia.
Qed.

Lemma X13_removeTab_forgets_exactly_one_tab_witness :
  2 <> 1 /\
  tabActivityTimes (removeTab 1 Scenario.threeIdle) !! 2 =
    tabActivityTimes Scenario.threeIdle !! 2.
Proof.
  assert (H : 2 <> 1) by discriminate.
  split; [exact H|].
  destruct (X13_removeTab_forgets_exactly_one_tab 0 1 Scenario.threeIdle)
    as (_ & Hk & _).
  exact (proj1 (Hk 2 H)).
Defined.

(** *** cleanupOldData *)

Lemma cleanupStep_lookup (now : Z) (st : State) (e : Z * TabMetadata) (k : Z) :
  let st' := cleanupStep now st e in
  let gone := (fst e =? k) && isOld now (snd e) in
  tabMetadata st' !! k = (if gone then None else tabMetadata st !! k) /\
  tabActivityTimes st' !! k = (if gone then None else tabActivityTimes st !! k) /\
  sleepHistory st' !! k = (if gone then None else sleepHistory st !! k) /\
  config st' = config st.
Proof.
  cbn zeta. unfold cleanupStep.
  destruct (isOld now (snd e)); [|rewrite andb_false_r; auto].
  rewrite andb_true_r. unfold removeTab. cbn.
  destruct (Z.eqb_spec (fst e) k) as [->|Hne].
  - now rewrite !lookup_delete_eq.
  - now rewrite !lookup_delete_ne.
Qed.

Lemma cleanup_fold_lookup (now : Z) (l : list (Z * TabMetadata)) (st : State)
    (k : Z) :
  let st' := fold_left (cleanupStep now) l st in
  let gone := existsb (fun e => (fst e =? k) && isOld now (snd e)) l in
  tabMetadata st' !! k = (if gone then None else tabMetadata st !! k) /\
  tabActivityTimes st' !! k = (if gone then None else tabActivityTimes st !! k) /\
  sleepHistory st' !! k = (if gone then None else sleepHistory st !! k) /\
  config st' = config st.
Proof.
  revert st. induction l as [|e l IH]; intros st; cbn zeta;
    cbn [fold_left existsb]; [auto|].
  destruct (IH (cleanupStep now st e)) as (Hm & Ha & Hh & Hc).
  destruct (cleanupStep_lookup now st e k) as (Hm' & Ha' & Hh' & Hc').
  cbn zeta in *. rewrite Hm, Ha, Hh, Hc, Hm', Ha', Hh', Hc'.
  destruct ((fst e =? k) && isOld now (snd e)); cbn [orb];
    destruct (existsb _ l); auto.
Qed.

Lemma old_entry_listed (now : Z) (m : gmap Z TabMetadata) (k : Z) :
  existsb (fun e => (fst e =? k) && isOld now (snd e)) (map_to_list m) =
  match m !! k with
  | Some md => isOld now md
  | None => false
  end.
Proof.
  destruct (existsb _ _) eqn:E.
  - apply existsb_exists in E as ([k' md] & Hin & Hk).
    apply andb_true_iff in Hk as [Hk Hold]. cbn in Hk, Hold.
    apply Z.eqb_eq in Hk. subst k'.
    apply list_elem_of_In, elem_of_map_to_list in Hin. now rewrite Hin.
  - destruct (m !! k) as [md|] eqn:Hk; [|reflexivity].
    destruct (isOld now md) eqn:Hold; [|reflexivity].
    assert (Hex : existsb (fun e => (fst e =? k) && isOld now (snd e))
                    (map_to_list m) = true).
    { apply existsb_exists. exists (k, md). split.
      - apply list_elem_of_In, elem_of_map_to_list. exact Hk.
      - cbn. now rewrite Z.eqb_refl, Hold. }
    congruence.
Qed.

(** X14: [cleanupOldData] removes, from all three maps, exactly the tabs
    whose metadata were created more than thirty days ago.  A younger
    tab keeps everything, an activity time or sleep-history entry without
    metadata is never removed, and no metadata left afterwards are older
    than thirty days. *)
Theorem X14_cleanup_removes_exactly_the_old_records :
  forall (now : Z) (st : State) (k : Z),
    let st' := cleanupOldData now st in
    let old :=
      match tabMetadata st !! k with
      | Some md => now - createdAt md >? 30 * 24 * 60 * 60 * 1000
      | None => false
      end in
    tabMetadata st' !! k = (if old then None else tabMetadata st !! k) /\
    tabActivityTimes st' !! k =
      (if old then None else tabActivityTimes st !! k) /\
    sleepHistory st' !! k = (if old then None else sleepHistory st !! k) /\
    config st' = config st /\
    (forall md : TabMetadata,
        tabMetadata st' !! k = Some md ->
        now - createdAt md <= 30 * 24 * 60 * 60 * 1000).
Proof.
  intros now st k. cbn zeta. unfold cleanupOldData.
  destruct (cleanup_fold_lookup now (map_to_list (tabMetadata st)) st k)
    as (Hm & Ha & Hh & Hc).
  cbn zeta in *. rewrite old_entry_listed in Hm, Ha, Hh.
  change (30 * 24 * 60 * 60 * 1000) with thirtyDays.
  fold (isOld now) in *.
  assert (Hold : match tabMetadata st !! k with
                 | Some md => isOld now md
                 | None => false
                 end =
                 match tabMetadata st !! k with
                 | Some md => now - createdAt md >? thirtyDays
                 | None => false
                 end) by reflexivity.
  rewrite <- Hold. rewrite Hm, Ha, Hh, Hc.
  repeat split. intros md.
  destruct (tabMetadata st !! k) as [md0|] eqn:E; [|discriminate].
  destruct (isOld now md0) eqn:Ho; [discriminate|].
  intros H. injection H as <-. unfold isOld in Ho. lia.
Qed.

Lemma X14_cleanup_removes_exactly_the_old_records_witness :
  tabMetadata (cleanupOldData Scenario.now Scenario.oldAndYoung) !! 2 =
    Some Scenario.youngMetadata /\
  tabMetadata (cleanupOldData Scenario.now Scenario.oldAndYoung) !! 1 = None /\
  Scenario.now - createdAt Scenario.youngMetadata <= 30 * 24 * 60 * 60 * 1000.
Proof.
  assert (H : tabMetadata (cleanupOldData Scenario.now Scenario.oldAndYoung) !! 2 =
              Some Scenario.youngMetadata) by (vm_compute; reflexivity).
  split; [exact H|]. split; [vm_compute; reflexivity|].
  destruct (X14_cleanup_removes_exactly_the_old_records Scenario.now
              Scenario.oldAndYoung 2) as (_ & _ & _ & _ & Hage).
  exact (Hage Scenario.youngMetadata H).
Defined.

(** *** initializeTabActivities *)

Lemma trackTab_noop (now : Z) (tab : Tab.t) (url : string) (st : State) :
  is_Some (tabActivityTimes st !! Tab.id tab) ->
  is_Some (tabMetadata st !! Tab.id tab) ->
  trackTab now tab url st = st.
Proof.
  intros [t Ht] [md Hmd]. unfold trackTab, setTracking.
  rewrite Ht, Hmd. apply state_eta.
Qed.

Lemma trackTab_keeps (now : Z) (tab : Tab.t) (url : string) (st : State)
    (k : Z) :
  let st' := trackTab now tab url st in
  (forall v, tabActivityTimes st !! k = Some v ->
             tabActivityTimes st' !! k = Some v) /\
  (forall md, tabMetadata st !! k = Some md ->
              tabMetadata st' !! k = Some md) /\
  (k <> Tab.id tab ->
   tabActivityTimes st' !! k = tabActivityTimes st !! k /\
   tabMetadata st' !! k = tabMetadata st !! k) /\
  is_Some (tabActivityTimes st' !! Tab.id tab) /\
  is_Some (tabMetadata st' !! Tab.id tab) /\
  sleepHistory st' = sleepHistory st /\ config st' = config st.
Proof.
  cbn zeta. unfold trackTab, setTracking.
  cbn [tabActivityTimes tabMetadata sleepHistory config].
  split.
  { intros v Hv. destruct (tabActivityTimes st !! Tab.id tab) eqn:Ht;
      [exact Hv|].
    destruct (decide (Tab.id tab = k)) as [<-|Hne]; [congruence|].
    now rewrite lookup_insert_ne. }
  split.
  { intros md Hmd. destruct (tabMetadata st !! Tab.id tab) eqn:Hm;
      [exact Hmd|].
    destruct (decide (Tab.id tab = k)) as [<-|Hne]; [congruence|].
    now rewrite lookup_insert_ne. }
  split.
  { intros Hne. split.
    - destruct (tabActivityTimes st !! Tab.id tab); [reflexivity|].
      now rewrite lookup_insert_ne by congruence.
    - destruct (tabMetadata st !! Tab.id tab); [reflexivity|].
      now rewrite lookup_insert_ne by congruence. }
  split.
  { destruct (tabActivityTimes st !! Tab.id tab) eqn:Ht; [eauto|].
    rewrite lookup_insert_eq. eauto. }
  split.
  { destruct (tabMetadata st !! Tab.id tab) eqn:Hm; [eauto|].
    rewrite lookup_insert_eq. eauto. }
  split; reflexivity.
Qed.

Lemma initializeLoop_keeps (now : Z) (hostTabs : list Tab.t) (st : State)
    (k : Z) :
  let st' := initializeLoop now hostTabs st in
  (forall v, tabActivityTimes st !! k = Some v ->
             tabActivityTimes st' !! k = Some v) /\
  (forall md, tabMetadata st !! k = Some md ->
              tabMetadata st' !! k = Some md) /\
  sleepHistory st' = sleepHistory st /\ config st' = config st.
Proof.
  revert st. induction hostTabs as [|tab rest IH]; intros st; cbn zeta;
    cbn [initializeLoop]; [auto|].
  destruct (Tab.url tab) as [url|]; [|auto].
  destruct (isSystemPage url); [apply IH|].
  destruct (IH (trackTab now tab url st)) as (Ha & Hm & Hh & Hc).
  destruct (trackTab_keeps now tab url st k) as (Ha' & Hm' & _ & _ & _ & Hh' & Hc').
  cbn zeta in *. repeat split; auto; congruence.
Qed.

Lemma initializeLoop_origin (now : Z) (hostTabs : list Tab.t) (st : State)
    (k : Z) :
  let st' := initializeLoop now hostTabs st in
  (is_Some (tabActivityTimes st' !! k) ->
   is_Some (tabActivityTimes st !! k) \/
   exists tab url, In tab hostTabs /\ Tab.id tab = k /\
                   Tab.url tab = Some url /\ isSystemPage url = false) /\
  (is_Some (tabMetadata st' !! k) ->
   is_Some (tabMetadata st !! k) \/
   exists tab url, In tab hostTabs /\ Tab.id tab = k /\
                   Tab.url tab = Some url /\ isSystemPage url = false).
Proof.
  revert st. induction hostTabs as [|tab rest IH]; intros st; cbn zeta;
    cbn [initializeLoop]; [auto|].
  destruct (Tab.url tab) as [url|] eqn:Hurl; [|auto].
  destruct (isSystemPage url) eqn:Hsys.
  - destruct (IH st) as [Ha Hm]. cbn zeta in *. split; intros H.
    + destruct (Ha H) as [?|(t & u & Hin & ?)]; [now left|].
      right. exists t, u. split; [now right | assumption].
    + destruct (Hm H) as [?|(t & u & Hin & ?)]; [now left|].
      right. exists t, u. split; [now right | assumption].
  - destruct (IH (trackTab now tab url st)) as [Ha Hm].
    destruct (trackTab_keeps now tab url st k) as (_ & _ & Hne & _).
    cbn zeta in *.
    assert (Hhere : Tab.id tab = k ->
              exists t u, In t (tab :: rest) /\ Tab.id t = k /\
                          Tab.url t = Some u /\ isSystemPage u = false).
    { intros Hk. exists tab, url. repeat split; auto. now left. }
    split; intros H.
    + destruct (Ha H) as [H'|(t & u & Hin & ?)].
      * destruct (decide (k = Tab.id tab)) as [->|Hk]; [right; auto|].
        left. destruct (Hne Hk) as [<- _]. exact H'.
      * right. exists t, u. split; [now right | assumption].
    + destruct (Hm H) as [H'|(t & u & Hin & ?)].
      * destruct (decide (k = Tab.id tab)) as [->|Hk]; [right; auto|].
        left. destruct (Hne Hk) as [_ <-]. exact H'.
      * right. exists t, u. split; [now right | assumption].
Qed.

Lemma initializeLoop_tracks (now : Z) (hostTabs : list Tab.t) (st : State) :
  Forall (fun tab => Tab.url tab <> None) hostTabs ->
  forall tab url,
    In tab hostTabs -> Tab.url tab = Some url -> isSystemPage url = false ->
    is_Some (tabActivityTimes (initializeLoop now hostTabs st) !! Tab.id tab) /\
    is_Some (tabMetadata (initializeLoop now hostTabs st) !! Tab.id tab).
Proof.
  intros Hall. revert st.
  induction Hall as [|t rest Ht Hrest IH]; intros st tab url Hin Hurl Hsys;
    [destruct Hin|].
  cbn [initializeLoop]. destruct (Tab.url t) as [u|] eqn:Hu; [|congruence].
  destruct Hin as [->|Hin].
  - rewrite Hurl in Hu. injection Hu as <-. rewrite Hsys.
    destruct (trackTab_keeps now tab url st (Tab.id tab))
      as (_ & _ & _ & [v Hv] & [md Hmd] & _).
    destruct (initializeLoop_keeps now rest (trackTab now tab url st)
                (Tab.id tab)) as (Ha & Hm & _).
    cbn zeta in *. split; eauto.
  - destruct (isSystemPage u); eapply IH; eauto.
Qed.

Lemma initializeLoop_again (now later : Z) (hostTabs : list Tab.t)
    (st : State) :
  initializeLoop later hostTabs (initializeLoop now hostTabs st) =
  initializeLoop now hostTabs st.
Proof.
  revert st. induction hostTabs as [|tab rest IH]; intros st; [reflexivity|].
  cbn [initializeLoop]. destruct (Tab.url tab) as [url|] eqn:Hurl;
    [|reflexivity].
  destruct (isSystemPage url) eqn:Hsys; [apply IH|].
  destruct (trackTab_keeps now tab url st (Tab.id tab))
    as (_ & _ & _ & [v Hv] & [md Hmd] & _).
  destruct (initializeLoop_keeps now rest (trackTab now tab url st)
              (Tab.id tab)) as (Ha & Hm & _).
  cbn zeta in *.
  rewrite (trackTab_noop later tab url) by eauto.
  apply IH.
Qed.

(** X15: [initializeTabActivities] never overwrites an activity time or
    a metadata record it finds, adds records only for listed tabs that are
    not system pages, and changes neither the sleep history nor the
    settings; running it again, at any later time, changes nothing; when
    every listed tab has a URL, every listed tab that is not a system page
    is tracked afterwards; a failing tab query changes nothing. *)
Theorem X15_initialization_only_adds_missing_records :
  forall (now : Z) (hostTabs : list Tab.t) (st : State),
    let st' := initializeTabActivities now (Normal hostTabs) st in
    (forall (k v : Z),
        tabActivityTimes st !! k = Some v ->
        tabActivityTimes st' !! k = Some v) /\
    (forall (k : Z) (md : TabMetadata),
        tabMetadata st !! k = Some md -> tabMetadata st' !! k = Some md) /\
    (forall k : Z,
        is_Some (tabMetadata st' !! k) ->
        is_Some (tabMetadata st !! k) \/
        exists (tab : Tab.t) (url : string),
          In tab hostTabs /\ Tab.id tab = k /\
          Tab.url tab = Some url /\ isSystemPage url = false) /\
    sleepHistory st' = sleepHistory st /\ config st' = config st /\
    (forall later : Z,
        initializeTabActivities later (Normal hostTabs) st' = st') /\
    (Forall (fun tab => Tab.url tab <> None) hostTabs ->
     forall (tab : Tab.t) (url : string),
       In tab hostTabs -> Tab.url tab = Some url ->
       isSystemPage url = false ->
       is_Some (tabActivityTimes st' !! Tab.id tab) /\
       is_Some (tabMetadata st' !! Tab.id tab)) /\
    (forall e : string, initializeTabActivities now (Throw e) st = st).
Proof.
  intros now hostTabs st. cbn zeta. cbn [initializeTabActivities].
  split.
  { intros k v. apply (initializeLoop_keeps now hostTabs st k). }
  split.
  { intros k md. apply (initializeLoop_keeps now hostTabs st k). }
  split.
  { intros k. apply (initializeLoop_origin now hostTabs st k). }
  split; [apply (initializeLoop_keeps now hostTabs st 0)|].
  split; [apply (initializeLoop_keeps now hostTabs st 0)|].
  split; [intros later; apply initializeLoop_again|].
  split; [apply initializeLoop_tracks | reflexivity].
Qed.

Lemma X15_initialization_only_adds_missing_records_witness :
  Forall (fun tab => Tab.url tab <> None) Scenario.startupTabs /\
  is_Some
    (tabMetadata
       (initializeTabActivities Scenario.now (Normal Scenario.startupTabs)
          ResourceControls.constructor) !! 3) /\
  tabMetadata
    (initializeTabActivities Scenario.now (Normal Scenario.startupTabs)
       ResourceControls.constructor) !! 2 = None.
Proof.
  assert (H : Forall (fun tab => Tab.url tab <> None) Scenario.startupTabs)
    by (repeat constructor; discriminate).
  split; [exact H|]. split; [|vm_compute; reflexivity].
  destruct (X15_initialization_only_adds_missing_records Scenario.now
              Scenario.startupTabs ResourceControls.constructor)
    as (_ & _ & _ & _ & _ & _ & Htracks & _).
  refine (proj2 (Htracks H (Scenario.pageTab 3 "https://news.example.org/today")
                   "https://news.example.org/today"%string _ eq_refl _)).
  - right. right. left. reflexivity.
  - vm_compute. reflexivity.
Defined.

(* ===================================================================== *)
(** ** Further properties of the WhitelistManager *)
(* ===================================================================== *)

(** *** Sets in insertion order *)

Lemma In_setAdd (s : list string) (d x : string) :
  In x (setAdd s d) <-> In x s \/ x = d.
Proof.
  unfold setAdd. destruct (setHas s d) eqn:E.
  - apply setHas_In in E. split; [auto|]. intros [H| ->]; assumption.
  - rewrite in_app_iff. cbn. intuition congruence.
Qed.

Lemma NoDup_setAdd (s : list string) (d : string) :
  List.NoDup s -> List.NoDup (setAdd s d).
Proof.
  intros H. unfold setAdd. destruct (setHas s d) eqn:E; [exact H|].
  apply List.NoDup_app; [exact H | repeat constructor; intros [] |].
  intros x Hx [<-|[]]. apply setHas_In in Hx. congruence.
Qed.

Lemma In_setDelete (s : list string) (d x : string) :
  In x (setDelete s d) <-> In x s /\ x <> d.
Proof.
  unfold setDelete. rewrite filter_In, negb_true_iff, String.eqb_neq.
  intuition congruence.
Qed.

Lemma NoDup_setDelete (s : list string) (d : string) :
  List.NoDup s -> List.NoDup (setDelete s d).
Proof. apply List.NoDup_filter. Qed.

Lemma setDelete_absent (s : list string) (d : string) :
  ~ In d s -> setDelete s d = s.
Proof.
  unfold setDelete. induction s as [|x s IH]; intros H; [reflexivity|].
  cbn [List.filter].
  destruct (String.eqb_spec d x) as [->|Hne]; [elim H; now left|].
  cbn [negb]. f_equal. apply IH. intros Hin. apply H. now right.
Qed.

Lemma setDelete_setAdd (s : list string) (d : string) :
  ~ In d s -> setDelete (setAdd s d) d = s.
Proof.
  intros H. unfold setAdd.
  destruct (setHas s d) eqn:E; [apply setHas_In in E; contradiction|].
  unfold setDelete. rewrite List.filter_app. cbn [List.filter].
  rewrite String.eqb_refl. cbn [negb]. rewrite app_nil_r.
  now apply setDelete_absent.
Qed.

Lemma fold_setAdd_In (ds s : list string) (x : string) :
  In x (fold_left setAdd ds s) <-> In x s \/ In x ds.
Proof.
  revert s. induction ds as [|d ds IH]; intros s; cbn [fold_left].
  - cbn. tauto.
  - rewrite IH, In_setAdd. cbn. intuition congruence.
Qed.

Lemma fold_setAdd_NoDup (ds s : list string) :
  List.NoDup s -> List.NoDup (fold_left setAdd ds s).
Proof.
  revert s. induction ds as [|d ds IH]; intros s H; [exact H|].
  cbn [fold_left]. apply IH. now apply NoDup_setAdd.
Qed.

Lemma fold_setAdd_fresh (ds s : list string) :
  List.NoDup (s ++ ds) -> fold_left setAdd ds s = s ++ ds.
Proof.
  revert s. induction ds as [|d ds IH]; intros s H; cbn [fold_left].
  - now rewrite app_nil_r.
  - assert (Hd : setAdd s d = s ++ [d]).
    { unfold setAdd. destruct (setHas s d) eqn:E; [|reflexivity].
      apply setHas_In in E. apply List.NoDup_remove_2 in H.
      elim H. apply in_or_app. now left. }
    rewrite Hd, IH; rewrite <- app_assoc; [reflexivity | exact H].
Qed.

(** *** Compilation of a whole set *)

Lemma compileList_spec (ds : list string) :
  compileList ds =
  if Aux.inFragment ds then Some (map Aux.nodesOf ds) else None.
Proof.
  induction ds as [|d ds IH]; [reflexivity|].
  cbn [compileList Aux.inFragment forallb map].
  rewrite RegExp_new_patternSource, IH.
  destruct (URL.allChars Aux.isDomainChar d); [|reflexivity].
  cbn [andb]. fold (Aux.inFragment ds).
  destruct (Aux.inFragment ds); reflexivity.
Qed.

Lemma inFragment_forall (ds : list string) :
  Aux.inFragment ds = true <->
  forall d, In d ds -> URL.allChars Aux.isDomainChar d = true.
Proof. apply forallb_forall. Qed.

Lemma inFragment_incl (ds ds' : list string) :
  (forall d, In d ds' -> In d ds) ->
  Aux.inFragment ds = true -> Aux.inFragment ds' = true.
Proof.
  rewrite !inFragment_forall. auto.
Qed.

Lemma compileList_incl (ds ds' : list string) (ps : list RegExp) :
  (forall d, In d ds' -> In d ds) ->
  compileList ds = Some ps ->
  compileList ds' = Some (map Aux.nodesOf ds').
Proof.
  intros Hincl Hc. rewrite compileList_spec in *.
  destruct (Aux.inFragment ds) eqn:E; [|discriminate].
  now rewrite (inFragment_incl ds ds' Hincl E).
Qed.

Lemma compileList_patterns (ds : list string) (ps : list RegExp) :
  compileList ds = Some ps -> ps = map Aux.nodesOf ds.
Proof.
  rewrite compileList_spec. destruct (Aux.inFragment ds); congruence.
Qed.

(** *** What the mutators return *)

Lemma addToWhitelist_result (domain : string) (m m' : t) (b : bool) :
  addToWhitelist domain m = Some (b, m') ->
  (b = false /\ m' = m) \/
  (exists d, normalizeDomain domain = Some d /\ d <> ""%string /\ b = true /\
             whitelist m' = setAdd (whitelist m) d /\
             blacklist m' = blacklist m /\
             patterns_blacklist m' = patterns_blacklist m /\
             compileList (whitelist m') = Some (patterns_whitelist m')).
Proof.
  unfold addToWhitelist. destruct (normalizeDomain domain) as [d|];
    [|intros H; injection H as <- <-; now left].
  destruct (String.eqb_spec d "") as [->|Hd];
    [intros H; injection H as <- <-; now left|].
  unfold compilePatterns, setWhitelist. cbn [whitelist blacklist patterns_blacklist].
  destruct (compileList (setAdd (whitelist m) d)) as [ps|] eqn:E;
    [|discriminate].
  cbn. intros H. injection H as <- <-. right. exists d. cbn. auto 10.
Qed.

Lemma removeFromWhitelist_result (domain : string) (m m' : t) (b : bool) :
  removeFromWhitelist domain m = Some (b, m') ->
  (b = false /\ m' = m /\
   forall d, normalizeDomain domain = Some d -> ~ In d (whitelist m)) \/
  (exists d, normalizeDomain domain = Some d /\ In d (whitelist m) /\
             b = true /\
             whitelist m' = setDelete (whitelist m) d /\
             blacklist m' = blacklist m /\
             patterns_blacklist m' = patterns_blacklist m /\
             compileList (whitelist m') = Some (patterns_whitelist m')).
Proof.
  unfold removeFromWhitelist. destruct (normalizeDomain domain) as [d|].
  2:{ intros H; injection H as <- <-. left. repeat split. discriminate. }
  destruct (setHas (whitelist m) d) eqn:Ehas.
  2:{ intros H; injection H as <- <-. left. repeat split.
      intros d' Hd' Hin. injection Hd' as <-.
      apply setHas_In in Hin. congruence. }
  apply setHas_In in Ehas.
  unfold compilePatterns, setWhitelist. cbn [whitelist blacklist patterns_blacklist].
  destruct (compileList (setDelete (whitelist m) d)) as [ps|] eqn:E;
    [|discriminate].
  cbn. intros H. injection H as <- <-. right. exists d. cbn. auto 10.
Qed.

(** X16: a successful [addToWhitelist] puts exactly the normalised domain
    into the allow-set (keeping what was there and leaving the deny-set
    and its patterns alone), and from then on every URL whose hostname is
    that domain classifies as "never", whatever the deny-set holds; an
    empty domain is refused and changes nothing. *)
Theorem X16_added_domain_is_never_suspended :
  forall (domain : string) (m m' : t) (b : bool),
    addToWhitelist domain m = Some (b, m') ->
    (b = false -> m' = m) /\
    (b = true ->
     exists d : string,
       normalizeDomain domain = Some d /\ d <> ""%string /\
       (forall x : string, In x (whitelist m') <-> In x (whitelist m) \/ x = d) /\
       blacklist m' = blacklist m /\
       patterns_blacklist m' = patterns_blacklist m /\
       (forall u : string,
           URL.hostname u = Normal d ->
           canSleep m' u = Normal (Some false) /\
           getSleepPriority m' u = Normal 0)) /\
    (domain = ""%string -> b = false).
Proof.
  intros domain m m' b H. split; [|split].
  - intros ->. apply addToWhitelist_result in H
      as [[_ ->]|(d & _ & _ & Hb & _)]; [reflexivity | discriminate].
  - intros ->. apply addToWhitelist_result in H
      as [[Hb _]|(d & Hn & Hd & _ & Hw & Hbl & Hpb & _)]; [discriminate|].
    exists d. split; [exact Hn|]. split; [exact Hd|].
    split; [intros x; rewrite Hw; apply In_setAdd|].
    split; [exact Hbl|]. split; [exact Hpb|].
    intros u Hu. apply whitelisted_is_never.
    rewrite (isWhitelisted_hostname m' u d Hu).
    assert (Hin : In d (whitelist m')) by (rewrite Hw; apply In_setAdd; auto).
    apply setHas_In in Hin. now rewrite Hin.
  - intros ->. cbn in H. now injection H as <- _.
Qed.

Lemma X16_added_domain_is_never_suspended_witness :
  addToWhitelist "Mail.Example.com:8080/inbox" Scenario.allowAndDeny =
    Some (true,
          snd (default (false, Scenario.allowAndDeny)
                 (addToWhitelist "Mail.Example.com:8080/inbox"
                    Scenario.allowAndDeny))) /\
  exists d : string,
    normalizeDomain "Mail.Example.com:8080/inbox" = Some d /\
    d <> ""%string.
Proof.
  assert (H : addToWhitelist "Mail.Example.com:8080/inbox"
                Scenario.allowAndDeny =
              Some (true,
                    snd (default (false, Scenario.allowAndDeny)
                           (addToWhitelist "Mail.Example.com:8080/inbox"
                              Scenario.allowAndDeny))))
    by (vm_compute; reflexivity).
  split; [exact H|].
  destruct (proj1 (proj2 (X16_added_domain_is_never_suspended _ _ _ _ H))
              eq_refl) as (d & Hn & Hd & _).
  exists d. split; assumption.
Defined.

(** X17: removing a domain with the very string it was added with
    succeeds and takes it out of the allow-set; when the domain was not
    there before and the patterns were in step with the sets, the manager
    is back in the state before the addition.  Removing a domain that is
    not in the set answers [false] and changes nothing. *)
Theorem X17_add_then_remove_restores_the_manager :
  forall (domain : string) (m m1 : t),
    addToWhitelist domain m = Some (true, m1) ->
    (exists m2 : t,
        removeFromWhitelist domain m1 = Some (true, m2) /\
        (forall d : string,
            normalizeDomain domain = Some d ->
            ~ In d (whitelist m2) /\
            (forall x : string,
                In x (whitelist m2) <-> In x (whitelist m) /\ x <> d)) /\
        blacklist m2 = blacklist m) /\
    (Aux.compiled m ->
     (forall d : string,
         normalizeDomain domain = Some d -> ~ In d (whitelist m)) ->
     removeFromWhitelist domain m1 = Some (true, m) /\
     removeFromWhitelist domain m = Some (false, m)).
Proof.
  intros domain m m1 Hadd.
  pose proof Hadd as Hadd'.
  apply addToWhitelist_result in Hadd'
    as [[Hb _]|(d & Hn & Hd & _ & Hw & Hbl & Hpb & Hc)]; [discriminate|].
  assert (Hin : In d (whitelist m1)) by (rewrite Hw; apply In_setAdd; auto).
  assert (Hrem : removeFromWhitelist domain m1 =
                 Some (true,
                       mk (setDelete (whitelist m1) d) (blacklist m1)
                         (map Aux.nodesOf (setDelete (whitelist m1) d))
                         (patterns_blacklist m1))).
  { unfold removeFromWhitelist. rewrite Hn.
    apply setHas_In in Hin. rewrite Hin.
    unfold compilePatterns, setWhitelist.
    cbn [whitelist blacklist patterns_blacklist].
    rewrite (compileList_incl (whitelist m1) (setDelete (whitelist m1) d)
               (patterns_whitelist m1)); [reflexivity | | exact Hc].
    intros x Hx. now apply In_setDelete in Hx. }
  split.
  - eexists. split; [exact Hrem|]. cbn [whitelist blacklist]. split; [|exact Hbl].
    intros d' Hd'. rewrite Hn in Hd'. injection Hd' as <-. split.
    + intros Hx. apply In_setDelete in Hx. tauto.
    + intros x. rewrite In_setDelete, Hw, In_setAdd. intuition congruence.
  - intros [Hcw Hcb] Hfresh. specialize (Hfresh d Hn).
    rewrite Hrem, Hw, setDelete_setAdd by exact Hfresh. split.
    + rewrite Hbl, Hpb. apply compileList_patterns in Hcw. rewrite <- Hcw.
      now destruct m.
    + unfold removeFromWhitelist. rewrite Hn.
      destruct (setHas (whitelist m) d) eqn:E; [|reflexivity].
      apply setHas_In in E. contradiction.
Qed.

Lemma X17_add_then_remove_restores_the_manager_witness :
  addToWhitelist "https://Docs.Example.org/path" Scenario.allowAndDeny =
    Some (true,
          snd (default (false, Scenario.allowAndDeny)
                 (addToWhitelist "https://Docs.Example.org/path"
                    Scenario.allowAndDeny))) /\
  removeFromWhitelist "https://Docs.Example.org/path"
    (snd (default (false, Scenario.allowAndDeny)
            (addToWhitelist "https://Docs.Example.org/path"
               Scenario.allowAndDeny))) =
    Some (true, Scenario.allowAndDeny).
Proof.
  assert (H : addToWhitelist "https://Docs.Example.org/path"
                Scenario.allowAndDeny =
              Some (true,
                    snd (default (false, Scenario.allowAndDeny)
                           (addToWhitelist "https://Docs.Example.org/path"
                              Scenario.allowAndDeny))))
    by (vm_compute; reflexivity).
  split; [exact H|].
  refine (proj1 (proj2 (X17_add_then_remove_restores_the_manager _ _ _ H)
                   _ _)).
  - split; vm_compute; reflexivity.
  - intros d Hd. vm_compute in Hd. injection Hd as <-.
    vm_compute. intros [Hx|[]]. discriminate.
Defined.

(** *** Sequences of mutators *)

Lemma wellFormed_compilePatterns (type : ListType) (m m' : t) :
  (match type with
   | Whitelist => compileList (blacklist m) = Some (patterns_blacklist m)
   | Blacklist => compileList (whitelist m) = Some (patterns_whitelist m)
   end) ->
  List.NoDup (whitelist m) -> List.NoDup (blacklist m) ->
  compilePatterns type m = Some m' ->
  Aux.wellFormed m' /\ whitelist m' = whitelist m /\ blacklist m' = blacklist m.
Proof.
  intros Hother Hw Hb Hc.
  assert (Hsets : whitelist m' = whitelist m /\ blacklist m' = blacklist m).
  { unfold compilePatterns in Hc. destruct type.
    - destruct (compileList (whitelist m)); [|discriminate].
      injection Hc as <-. split; reflexivity.
    - destruct (compileList (blacklist m)); [|discriminate].
      injection Hc as <-. split; reflexivity. }
  split; [|exact Hsets]. destruct Hsets as [Ew Eb].
  unfold Aux.wellFormed. rewrite Ew, Eb.
  split; [|split; assumption].
  now apply (compiled_compilePatterns type m m').
Qed.

Lemma wellFormed_unchanged (m : t) :
  Aux.compiled m -> List.NoDup (whitelist m) -> List.NoDup (blacklist m) ->
  Aux.wellFormed m.
Proof. intros. repeat split; auto; apply H. Qed.

Lemma wellFormed_importRules (data : RulesData.t) (m m' : t) (b : bool) :
  Aux.wellFormed m -> importRules data m = Some (b, m') -> Aux.wellFormed m'.
Proof.
  intros (Hc & Hw & Hb) H. unfold importRules in H.
  assert (H1 : forall m1,
             match RulesData.whitelist data with
             | Some ds =>
                 compilePatterns Whitelist
                   (setWhitelist m (fold_left setAdd ds []))
             | None => Some m
             end = Some m1 -> Aux.wellFormed m1).
  { intros m1 E. destruct (RulesData.whitelist data) as [ds|].
    - apply wellFormed_compilePatterns in E as [E _];
        [exact E|apply Hc| |exact Hb].
      cbn. apply fold_setAdd_NoDup. constructor.
    - injection E as <-. now apply wellFormed_unchanged. }
  destruct (match RulesData.whitelist data with
            | Some ds => _ | None => _ end) as [m1|]; [|discriminate].
  specialize (H1 m1 eq_refl). destruct H1 as (Hc1 & Hw1 & Hb1).
  destruct (RulesData.blacklist data) as [ds|].
  - destruct (compilePatterns Blacklist _) as [m2|] eqn:E; [|discriminate].
    injection H as _ <-.
    apply wellFormed_compilePatterns in E as [E _];
      [exact E|apply Hc1|exact Hw1|].
    cbn. apply fold_setAdd_NoDup. constructor.
  - injection H as _ <-. now apply wellFormed_unchanged.
Qed.

Lemma wellFormed_initialize (sw sb : option (list string)) (m m' : t) :
  Aux.wellFormed m -> initialize sw sb m = Some m' -> Aux.wellFormed m'.
Proof.
  intros (Hc & Hw & Hb) H. unfold initialize in H.
  assert (H1 : forall m1,
             match sw with
             | Some ds =>
                 compilePatterns Whitelist
                   (setWhitelist m (fold_left setAdd ds (whitelist m)))
             | None => Some m
             end = Some m1 -> Aux.wellFormed m1).
  { intros m1 E. destruct sw as [ds|].
    - apply wellFormed_compilePatterns in E as [E _];
        [exact E|apply Hc| |exact Hb].
      cbn. now apply fold_setAdd_NoDup.
    - injection E as <-. now apply wellFormed_unchanged. }
  destruct (match sw with Some ds => _ | None => _ end) as [m1|];
    [|discriminate].
  specialize (H1 m1 eq_refl). destruct H1 as (Hc1 & Hw1 & Hb1).
  destruct sb as [ds|].
  - apply wellFormed_compilePatterns in H as [E _];
      [exact E|apply Hc1|exact Hw1|].
    cbn. now apply fold_setAdd_NoDup.
  - injection H as <-. now apply wellFormed_unchanged.
Qed.

Lemma wellFormed_addToWhitelist (d : string) (m m' : t) (b : bool) :
  Aux.wellFormed m -> addToWhitelist d m = Some (b, m') -> Aux.wellFormed m'.
Proof.
  intros (Hc & Hw & Hb) H. unfold addToWhitelist in H.
  destruct (normalizeDomain d) as [x|];
    [|injection H as _ <-; now apply wellFormed_unchanged].
  destruct (String.eqb x "");
    [injection H as _ <-; now apply wellFormed_unchanged|].
  destruct (compilePatterns Whitelist _) as [m1|] eqn:E; [|discriminate].
  injection H as _ <-.
  apply wellFormed_compilePatterns in E as [E _]; [exact E|apply Hc| |exact Hb].
  cbn. now apply NoDup_setAdd.
Qed.

Lemma wellFormed_removeFromWhitelist (d : string) (m m' : t) (b : bool) :
  Aux.wellFormed m -> removeFromWhitelist d m = Some (b, m') ->
  Aux.wellFormed m'.
Proof.
  intros (Hc & Hw & Hb) H. unfold removeFromWhitelist in H.
  destruct (normalizeDomain d) as [x|];
    [|injection H as _ <-; now apply wellFormed_unchanged].
  destruct (setHas (whitelist m) x);
    [|injection H as _ <-; now apply wellFormed_unchanged].
  destruct (compilePatterns Whitelist _) as [m1|] eqn:E; [|discriminate].
  injection H as _ <-.
  apply wellFormed_compilePatterns in E as [E _]; [exact E|apply Hc| |exact Hb].
  cbn. now apply NoDup_setDelete.
Qed.

Lemma wellFormed_addToBlacklist (d : string) (m m' : t) (b : bool) :
  Aux.wellFormed m -> addToBlacklist d m = Some (b, m') -> Aux.wellFormed m'.
Proof.
  intros (Hc & Hw & Hb) H. unfold addToBlacklist in H.
  destruct (normalizeDomain d) as [x|];
    [|injection H as _ <-; now apply wellFormed_unchanged].
  destruct (String.eqb x "");
    [injection H as _ <-; now apply wellFormed_unchanged|].
  destruct (compilePatterns Blacklist _) as [m1|] eqn:E; [|discriminate].
  injection H as _ <-.
  apply wellFormed_compilePatterns in E as [E _];
    [exact E|apply Hc|exact Hw|].
  cbn. now apply NoDup_setAdd.
Qed.

Lemma wellFormed_removeFromBlacklist (d : string) (m m' : t) (b : bool) :
  Aux.wellFormed m -> removeFromBlacklist d m = Some (b, m') ->
  Aux.wellFormed m'.
Proof.
  intros (Hc & Hw & Hb) H. unfold removeFromBlacklist in H.
  destruct (normalizeDomain d) as [x|];
    [|injection H as _ <-; now apply wellFormed_unchanged].
  destruct (setHas (blacklist m) x);
    [|injection H as _ <-; now apply wellFormed_unchanged].
  destruct (compilePatterns Blacklist _) as [m1|] eqn:E; [|discriminate].
  injection H as _ <-.
  apply wellFormed_compilePatterns in E as [E _];
    [exact E|apply Hc|exact Hw|].
  cbn. now apply NoDup_setDelete.
Qed.

Lemma wellFormed_perform (op : Aux.Operation) (m m' : t) :
  Aux.wellFormed m -> Aux.perform op m = Some m' -> Aux.wellFormed m'.
Proof.
  intros Hm H. destruct op as [d|d|d|d|data|sw sb|]; cbn [Aux.perform] in H.
  - destruct (addToWhitelist d m) as [[b m1]|] eqn:E; [|discriminate].
    injection H as <-. now apply (wellFormed_addToWhitelist d m m1 b).
  - destruct (removeFromWhitelist d m) as [[b m1]|] eqn:E; [|discriminate].
    injection H as <-. now apply (wellFormed_removeFromWhitelist d m m1 b).
  - destruct (addToBlacklist d m) as [[b m1]|] eqn:E; [|discriminate].
    injection H as <-. now apply (wellFormed_addToBlacklist d m m1 b).
  - destruct (removeFromBlacklist d m) as [[b m1]|] eqn:E; [|discriminate].
    injection H as <-. now apply (wellFormed_removeFromBlacklist d m m1 b).
  - destruct (importRules data m) as [[b m1]|] eqn:E; [|discriminate].
    injection H as <-. now apply (wellFormed_importRules data m m1 b).
  - now apply (wellFormed_initialize sw sb m).
  - injection H as <-. split; [apply compiled_constructor|].
    split; constructor.
Qed.

(** X18: whatever sequence of additions, removals, imports, loads from
    storage and clears is applied to a manager, the two sets never hold a
    domain twice and [patterns] is exactly the compilation of the current
    sets, entry by entry in insertion order, so that [getStats] counts the
    patterns as well as the domains. *)
Theorem X18_patterns_stay_in_step_with_the_sets :
  forall (ops : list Aux.Operation) (m0 m : t),
    Aux.wellFormed m0 ->
    Aux.performAll ops m0 = Some m ->
    Aux.wellFormed m /\
    patterns_whitelist m = map Aux.nodesOf (whitelist m) /\
    patterns_blacklist m = map Aux.nodesOf (blacklist m) /\
    getStats m =
      (Z.of_nat (length (patterns_whitelist m)),
       Z.of_nat (length (patterns_blacklist m)),
       Z.of_nat (length (patterns_whitelist m ++ patterns_blacklist m))).
Proof.
  intros ops. induction ops as [|op ops IH]; intros m0 m H0 H.
  - injection H as <-. split; [exact H0|].
    destruct H0 as ((Hcw & Hcb) & _).
    apply compileList_patterns in Hcw, Hcb.
    split; [exact Hcw|]. split; [exact Hcb|].
    unfold getStats. rewrite Hcw, Hcb, length_app, !length_map.
    now rewrite Nat2Z.inj_add.
  - cbn in H. destruct (Aux.perform op m0) as [m1|] eqn:E; [|discriminate].
    apply (IH m1 m); [|exact H]. now apply (wellFormed_perform op m0).
Qed.

Local Open Scope string_scope.

Lemma X18_patterns_stay_in_step_with_the_sets_witness :
  Aux.wellFormed constructor /\
  Aux.performAll
    [Aux.AddToWhitelist "*.Example.com";
     Aux.AddToBlacklist "http://ads.example.net/banner";
     Aux.AddToWhitelist "*.example.com";
     Aux.Initialize (Some ["docs.example.org"; "*.example.com"]) None;
     Aux.RemoveFromBlacklist "ads.example.net";
     Aux.ImportRules
       (RulesData.mk None (Some ["a.example"; "b.example"; "a.example"]))]
    constructor =
  Some (mk ["*.example.com"; "docs.example.org"] ["a.example"; "b.example"]
          (map Aux.nodesOf ["*.example.com"; "docs.example.org"])
          (map Aux.nodesOf ["a.example"; "b.example"])) /\
  Aux.wellFormed
    (mk ["*.example.com"; "docs.example.org"] ["a.example"; "b.example"]
       (map Aux.nodesOf ["*.example.com"; "docs.example.org"])
       (map Aux.nodesOf ["a.example"; "b.example"])).
Proof.
  assert (H0 : Aux.wellFormed constructor).
  { split; [apply compiled_constructor|]. split; constructor. }
  assert (H : Aux.performAll
    [Aux.AddToWhitelist "*.Example.com";
     Aux.AddToBlacklist "http://ads.example.net/banner";
     Aux.AddToWhitelist "*.example.com";
     Aux.Initialize (Some ["docs.example.org"; "*.example.com"]) None;
     Aux.RemoveFromBlacklist "ads.example.net";
     Aux.ImportRules
       (RulesData.mk None (Some ["a.example"; "b.example"; "a.example"]))]
    constructor =
  Some (mk ["*.example.com"; "docs.example.org"] ["a.example"; "b.example"]
          (map Aux.nodesOf ["*.example.com"; "docs.example.org"])
          (map Aux.nodesOf ["a.example"; "b.example"])))
    by (vm_compute; reflexivity).
  split; [exact H0|]. split; [exact H|].
  exact (proj1 (X18_patterns_stay_in_step_with_the_sets _ _ _ H0 H)).
Defined.

Local Close Scope string_scope.
Local Open Scope Z_scope.

(** *** Normalisation of a domain *)

Lemma allChars_true (P : ascii -> bool) (s : string) :
  (forall c, P c = true) -> URL.allChars P s = true.
Proof.
  intros H. induction s as [|c s IH]; cbn; [reflexivity|]. now rewrite H, IH.
Qed.

Lemma allChars_and (P Q : ascii -> bool) (s : string) :
  URL.allChars (fun c => P c && Q c) s = URL.allChars P s && URL.allChars Q s.
Proof.
  induction s as [|c s IH]; cbn; [reflexivity|]. rewrite IH.
  destruct (P c), (Q c), (URL.allChars P s); reflexivity.
Qed.

Lemma splitFirst_allChars (P : ascii -> bool) (sep : ascii) (s : string) :
  URL.allChars P s = true -> URL.allChars P (splitFirst sep s) = true.
Proof.
  induction s as [|c s IH]; cbn; [reflexivity|].
  rewrite andb_true_iff. intros [Hc Hs].
  destruct (Ascii.eqb c sep); cbn; [reflexivity|]. now rewrite Hc, IH.
Qed.

Lemma splitFirst_no_sep (sep : ascii) (s : string) :
  URL.allChars (fun c => negb (Ascii.eqb c sep)) (splitFirst sep s) = true.
Proof.
  induction s as [|c s IH]; cbn; [reflexivity|].
  destruct (Ascii.eqb c sep) eqn:E; cbn; [reflexivity|]. now rewrite E, IH.
Qed.

Lemma splitFirst_id (sep : ascii) (s : string) :
  URL.allChars (fun c => negb (Ascii.eqb c sep)) s = true ->
  splitFirst sep s = s.
Proof.
  induction s as [|c s IH]; cbn; [reflexivity|].
  rewrite andb_true_iff, negb_true_iff. intros [-> Hs]. now rewrite IH.
Qed.

Lemma splitFirst_app (sep : ascii) (s r : string) :
  URL.allChars (fun c => negb (Ascii.eqb c sep)) s = true ->
  splitFirst sep (s ++ String sep r) = s.
Proof.
  induction s as [|c s IH].
  - intros _. change (String.append "" (String sep r)) with (String sep r).
    cbn. now rewrite Ascii.eqb_refl.
  - cbn [URL.allChars]. rewrite andb_true_iff, negb_true_iff.
    intros [Hc Hs]. rewrite append_cons. cbn [splitFirst].
    now rewrite Hc, IH.
Qed.

Lemma dropChars_allChars (P : ascii -> bool) (n : nat) (s : string) :
  URL.allChars P s = true -> URL.allChars P (dropChars n s) = true.
Proof.
  revert s. induction n as [|n IH]; intros s H; [exact H|].
  destruct s as [|c s]; [reflexivity|]. cbn [dropChars]. apply IH.
  cbn in H. now apply andb_true_iff in H.
Qed.

Lemma stripHttpScheme_allChars (P : ascii -> bool) (s : string) :
  URL.allChars P s = true -> URL.allChars P (stripHttpScheme s) = true.
Proof.
  intros H. unfold stripHttpScheme.
  destruct (String.prefix "https://" s); [now apply dropChars_allChars|].
  destruct (String.prefix "http://" s); [now apply dropChars_allChars|].
  exact H.
Qed.

Lemma toLowerChar_not_upper (c : ascii) : negb (isUpper (toLowerChar c)) = true.
Proof. each_char c. Qed.

Lemma toLowerCase_not_upper (s : string) :
  URL.allChars (fun c => negb (isUpper c)) (toLowerCase s) = true.
Proof.
  rewrite allChars_toLowerCase. apply allChars_true.
  exact toLowerChar_not_upper.
Qed.

Lemma normalizeDomain_normalized (domain d : string) :
  normalizeDomain domain = Some d ->
  URL.allChars Aux.isNormalizedChar d = true.
Proof.
  unfold normalizeDomain. destruct (String.eqb domain ""); [discriminate|].
  intros H. injection H as <-.
  set (s := stripHttpScheme (toLowerCase (trim domain))).
  assert (Hs : URL.allChars (fun c => negb (isUpper c)) s = true)
    by apply stripHttpScheme_allChars, toLowerCase_not_upper.
  unfold Aux.isNormalizedChar.
  rewrite !allChars_and. repeat (apply andb_true_iff; split).
  - now apply splitFirst_allChars, splitFirst_allChars.
  - apply splitFirst_allChars, splitFirst_no_sep.
  - apply splitFirst_no_sep.
Qed.

(** X19: [normalizeDomain] answers [null] exactly for the empty string,
    and the domain it returns for any other input holds no upper-case
    letter, no slash and no colon, whatever the input was; so a successful
    [addToWhitelist] or [addToBlacklist] only ever stores such a domain. *)
Theorem X19_normalized_domain_has_no_case_path_or_port :
  forall (domain : string),
    (normalizeDomain domain = None <-> domain = ""%string) /\
    (forall d : string,
        normalizeDomain domain = Some d ->
        URL.allChars Aux.isNormalizedChar d = true) /\
    (forall (m m' : t),
        addToWhitelist domain m = Some (true, m') ->
        exists d : string,
          In d (whitelist m') /\ d <> ""%string /\
          URL.allChars Aux.isNormalizedChar d = true /\
          forall x : string, In x (whitelist m') -> In x (whitelist m) \/ x = d) /\
    (forall (m m' : t),
        addToBlacklist domain m = Some (true, m') ->
        exists d : string,
          In d (blacklist m') /\ d <> ""%string /\
          URL.allChars Aux.isNormalizedChar d = true /\
          forall x : string, In x (blacklist m') -> In x (blacklist m) \/ x = d).
Proof.
  intros domain. split; [|split; [|split]].
  - unfold normalizeDomain. destruct (String.eqb_spec domain "") as [->|Hne].
    + split; reflexivity.
    + split; [discriminate | contradiction].
  - intros d. apply normalizeDomain_normalized.
  - intros m m' H. apply addToWhitelist_result in H
      as [[Hb _]|(d & Hn & Hd & _ & Hw & _)]; [discriminate|].
    exists d. rewrite Hw. split; [apply In_setAdd; now right|].
    split; [exact Hd|]. split; [now apply (normalizeDomain_normalized domain)|].
    intros x. apply In_setAdd.
  - intros m m' H. unfold addToBlacklist in H.
    destruct (normalizeDomain domain) as [d|] eqn:Hn; [|discriminate].
    destruct (String.eqb_spec d "") as [->|Hd]; [discriminate|].
    unfold compilePatterns, setBlacklist in H. cbn [whitelist blacklist] in H.
    destruct (compileList (setAdd (blacklist m) d)); [|discriminate].
    cbn in H. injection H as <-. cbn [blacklist].
    exists d. split; [apply In_setAdd; now right|].
    split; [exact Hd|]. split; [now apply (normalizeDomain_normalized domain)|].
    intros x. apply In_setAdd.
Qed.

Lemma X19_normalized_domain_has_no_case_path_or_port_witness :
  normalizeDomain "  HTTPS://Mail.Example.COM:8443/Inbox?x=1 " =
    Some "mail.example.com"%string /\
  URL.allChars Aux.isNormalizedChar "mail.example.com" = true.
Proof.
  assert (H : normalizeDomain "  HTTPS://Mail.Example.COM:8443/Inbox?x=1 " =
              Some "mail.example.com"%string) by (vm_compute; reflexivity).
  split; [exact H|].
  exact (proj1 (proj2 (X19_normalized_domain_has_no_case_path_or_port _)) _ H).
Defined.

Lemma append_nil_r (s : string) : (s ++ "")%string = s.
Proof.
  induction s as [|c s IH]; [reflexivity|]. now rewrite append_cons, IH.
Qed.

Lemma splitFirst_append (sep : ascii) (s t : string) :
  URL.allChars (fun c => negb (Ascii.eqb c sep)) s = true ->
  splitFirst sep (s ++ t) = (s ++ splitFirst sep t)%string.
Proof.
  induction s as [|c s IH]; [reflexivity|].
  cbn [URL.allChars]. rewrite andb_true_iff, negb_true_iff.
  intros [Hc Hs]. rewrite !append_cons. cbn [splitFirst].
  now rewrite Hc, IH.
Qed.

Lemma trimEnd_cons (c : ascii) (s : string) :
  isWhiteSpace c = false -> trimEnd (String c s) = String c (trimEnd s).
Proof.
  intros Hc. cbn [trimEnd]. rewrite Hc. now destruct (trimEnd s).
Qed.

Lemma trimEnd_append (s t : string) :
  URL.allChars (fun c => negb (isWhiteSpace c)) s = true ->
  trimEnd (s ++ t) = (s ++ trimEnd t)%string.
Proof.
  induction s as [|c s IH]; [reflexivity|].
  cbn [URL.allChars]. rewrite andb_true_iff, negb_true_iff.
  intros [Hc Hs]. rewrite !append_cons, trimEnd_cons by exact Hc.
  now rewrite IH.
Qed.

Lemma trimStart_cons (c : ascii) (s : string) :
  isWhiteSpace c = false -> trimStart (String c s) = String c s.
Proof. intros Hc. cbn. now rewrite Hc. Qed.

Lemma toLowerCase_append (s t : string) :
  toLowerCase (s ++ t) = (toLowerCase s ++ toLowerCase t)%string.
Proof.
  induction s as [|c s IH]; [reflexivity|].
  rewrite append_cons. cbn [toLowerCase]. now rewrite append_cons, IH.
Qed.

Lemma toLowerCase_id (s : string) :
  URL.allChars (fun c => negb (isUpper c)) s = true -> toLowerCase s = s.
Proof.
  induction s as [|c s IH]; [reflexivity|]. cbn.
  rewrite andb_true_iff, negb_true_iff. intros [Hc Hs].
  unfold toLowerChar. now rewrite Hc, IH.
Qed.

Lemma prefix_cons (a b : ascii) (p s : string) :
  String.prefix (String a p) (String b s) = true ->
  a = b /\ String.prefix p s = true.
Proof. cbn. destruct (ascii_dec a b); [auto | discriminate]. Qed.

Ltac strip_prefix E :=
  repeat match type of E with
         | String.prefix (String _ _) ?s = true =>
             destruct s as [|? ?]; [now cbn in E|];
             apply prefix_cons in E as [<- E]
         end.

Lemma no_colon_no_scheme (s : string) :
  URL.allChars (fun c => negb (Ascii.eqb c ":")) s = true ->
  stripHttpScheme s = s.
Proof.
  intros H. unfold stripHttpScheme.
  destruct (String.prefix "https://" s) eqn:E1.
  { strip_prefix E1. cbn in H. discriminate H. }
  destruct (String.prefix "http://" s) eqn:E2; [|reflexivity].
  strip_prefix E2. cbn in H. discriminate H.
Qed.

Lemma hostPart_lower (c : ascii) :
  Aux.isHostPartChar (toLowerChar c) = Aux.isHostPartChar c.
Proof. each_char c. Qed.

Lemma hostPart_parts (h : string) :
  URL.allChars Aux.isHostPartChar h = true ->
  URL.allChars (fun c => negb (isWhiteSpace c)) h = true /\
  URL.allChars (fun c => negb (Ascii.eqb c "/")) h = true /\
  URL.allChars (fun c => negb (Ascii.eqb c ":")) h = true.
Proof.
  unfold Aux.isHostPartChar. rewrite !allChars_and, !andb_true_iff. tauto.
Qed.

Lemma hostPart_toLowerCase (h : string) :
  URL.allChars Aux.isHostPartChar h = true ->
  URL.allChars Aux.isHostPartChar (toLowerCase h) = true.
Proof.
  intros H. rewrite allChars_toLowerCase.
  eapply allChars_impl; [|exact H]. intros c. now rewrite hostPart_lower.
Qed.

(** The tail of an address after trimming and lowering is still a path,
    a port or nothing. *)
Lemma addressRest_lowered (rest : string) :
  Aux.isAddressRest rest = true ->
  exists rest', toLowerCase (trimEnd rest) = rest' /\
                (rest' = ""%string \/
                 exists r, rest' = String "/" r \/ rest' = String ":" r).
Proof.
  destruct rest as [|c r]; [intros _; exists ""%string; auto|].
  cbn [Aux.isAddressRest]. intros H. eexists. split; [reflexivity|]. right.
  apply orb_true_iff in H as [H|H]; apply Ascii.eqb_eq in H; subst c;
    rewrite trimEnd_cons by reflexivity; cbn [toLowerCase]; eauto.
Qed.

Lemma cut_port_and_path (h rest' : string) :
  URL.allChars Aux.isHostPartChar h = true ->
  (rest' = ""%string \/
   exists r, rest' = String "/" r \/ rest' = String ":" r) ->
  splitFirst ":" (splitFirst "/" (h ++ rest')) = h.
Proof.
  intros Hh Hrest. apply hostPart_parts in Hh as (_ & Hslash & Hcolon).
  rewrite splitFirst_append by exact Hslash.
  destruct Hrest as [->|[r [->| ->]]].
  - cbn [splitFirst]. rewrite append_nil_r. now apply splitFirst_id.
  - cbn [splitFirst]. rewrite Ascii.eqb_refl, append_nil_r.
    now apply splitFirst_id.
  - cbn [splitFirst].
    change (Ascii.eqb ":" "/") with false. cbn iota.
    now apply splitFirst_app.
Qed.

Lemma prefix_append (p x : string) : String.prefix p (p ++ x) = true.
Proof.
  induction p as [|c p IH]; [now destruct x|].
  rewrite append_cons. cbn. now destruct (ascii_dec c c).
Qed.

Lemma strip_http (x : string) : stripHttpScheme ("http://" ++ x) = x.
Proof.
  unfold stripHttpScheme.
  destruct (String.prefix "https://" ("http://" ++ x)) eqn:E.
  - change ("http://" ++ x)%string
      with (String "h" (String "t" (String "t" (String "p" (String ":"
             (String "/" (String "/" x))))))) in E.
    do 4 apply prefix_cons in E as [_ E].
    apply prefix_cons in E as [E _]. discriminate E.
  - now rewrite prefix_append.
Qed.

Lemma strip_https (x : string) : stripHttpScheme ("https://" ++ x) = x.
Proof. unfold stripHttpScheme. now rewrite prefix_append. Qed.

Lemma normalizeDomain_address (scheme h rest : string) :
  (scheme = ""%string /\ rest = ""%string) \/
  scheme = "http://"%string \/ scheme = "https://"%string ->
  h <> ""%string ->
  URL.allChars Aux.isHostPartChar h = true ->
  Aux.isAddressRest rest = true ->
  normalizeDomain (scheme ++ h ++ rest) = Some (toLowerCase h).
Proof.
  intros Hscheme Hne Hh Hrest.
  pose proof (hostPart_parts h Hh) as (Hws & _ & _).
  destruct (addressRest_lowered rest Hrest) as (rest' & Hr & Hshape).
  pose proof (hostPart_toLowerCase h Hh) as Hl.
  assert (Hcut := cut_port_and_path (toLowerCase h) rest' Hl Hshape).
  assert (Hfirst : exists c s, h = String c s /\ isWhiteSpace c = false).
  { destruct h as [|c s]; [contradiction|]. exists c, s. split; [reflexivity|].
    cbn in Hws. apply andb_true_iff in Hws as [Hc _].
    now apply negb_true_iff in Hc. }
  destruct Hfirst as (c & s & Eh & Hc).
  destruct Hscheme as [[-> ->]|[-> | ->]].
  - change (String.append "" (h ++ "")) with (h ++ "")%string.
    rewrite append_nil_r. unfold normalizeDomain.
    destruct (String.eqb_spec h "") as [|_]; [contradiction|].
    f_equal. unfold trim. rewrite Eh, trimStart_cons by exact Hc. rewrite <- Eh.
    rewrite <- (append_nil_r h) at 1. rewrite trimEnd_append by exact Hws.
    cbn [trimEnd]. rewrite append_nil_r.
    rewrite no_colon_no_scheme by apply (hostPart_parts _ Hl).
    destruct Hshape as [->|[r [->| ->]]];
      rewrite <- (append_nil_r (toLowerCase h)) at 1;
      apply cut_port_and_path; auto.
  - unfold normalizeDomain.
    change (String.eqb ("http://" ++ h ++ rest) "") with false. cbn iota.
    f_equal. unfold trim.
    change ("http://" ++ h ++ rest)%string
      with (String "h" (String "t" (String "t" (String "p" (String ":"
             (String "/" (String "/" (h ++ rest)))))))).
    rewrite trimStart_cons by reflexivity.
    rewrite !trimEnd_cons by reflexivity.
    rewrite trimEnd_append by exact Hws.
    change (String "h" (String "t" (String "t" (String "p" (String ":"
             (String "/" (String "/" (h ++ trimEnd rest))))))))
      with ("http://" ++ (h ++ trimEnd rest))%string.
    rewrite !toLowerCase_append, Hr.
    change (toLowerCase "http://") with "http://"%string.
    rewrite strip_http. exact Hcut.
  - unfold normalizeDomain.
    change (String.eqb ("https://" ++ h ++ rest) "") with false. cbn iota.
    f_equal. unfold trim.
    change ("https://" ++ h ++ rest)%string
      with (String "h" (String "t" (String "t" (String "p" (String "s"
             (String ":" (String "/" (String "/" (h ++ rest))))))))).
    rewrite trimStart_cons by reflexivity.
    rewrite !trimEnd_cons by reflexivity.
    rewrite trimEnd_append by exact Hws.
    change (String "h" (String "t" (String "t" (String "p" (String "s"
             (String ":" (String "/" (String "/" (h ++ trimEnd rest)))))))))
      with ("https://" ++ (h ++ trimEnd rest))%string.
    rewrite !toLowerCase_append, Hr.
    change (toLowerCase "https://") with "https://"%string.
    rewrite strip_https. exact Hcut.
Qed.

Lemma toLowerCase_nonempty (h : string) :
  h <> ""%string -> toLowerCase h <> ""%string.
Proof. destruct h; [contradiction | discriminate]. Qed.

Lemma normalizeDomain_lowered (h : string) :
  h <> ""%string ->
  URL.allChars Aux.isHostPartChar h = true ->
  normalizeDomain (toLowerCase h) = Some (toLowerCase h).
Proof.
  intros Hne Hh.
  pose proof (normalizeDomain_address "" (toLowerCase h) ""
                (or_introl (conj eq_refl eq_refl))
                (toLowerCase_nonempty h Hne)
                (hostPart_toLowerCase h Hh) eq_refl) as H.
  change (String.append "" (toLowerCase h ++ ""))
    with (toLowerCase h ++ "")%string in H.
  rewrite append_nil_r in H. rewrite H. f_equal.
  apply toLowerCase_id, toLowerCase_not_upper.
Qed.

Lemma plainHost_parts (h : string) :
  Aux.plainHost h = true ->
  h <> ""%string /\
  URL.allChars Aux.isHostPartChar h = true /\
  URL.allChars (fun c => negb (isUpper c)) h = true.
Proof.
  unfold Aux.plainHost. rewrite andb_true_iff, negb_true_iff, String.eqb_neq.
  intros [Hne Hall]. split; [exact Hne|]. split.
  - eapply allChars_impl; [|exact Hall]. intros c.
    unfold Aux.isPlainHostChar, Aux.isHostPartChar.
    rewrite !andb_true_iff. tauto.
  - eapply allChars_impl; [|exact Hall]. intros c.
    unfold Aux.isPlainHostChar. rewrite !andb_true_iff. tauto.
Qed.

Lemma normalizeDomain_plain (h : string) :
  Aux.plainHost h = true -> normalizeDomain h = Some h.
Proof.
  intros H. apply plainHost_parts in H as (Hne & Hh & Hup).
  pose proof (normalizeDomain_lowered h Hne Hh) as H.
  now rewrite (toLowerCase_id h Hup) in H.
Qed.

(** X20: for a host typed without white space, slash or colon, writing
    it with an [http://] or [https://] scheme in front and a port or a
    path behind makes no difference to [normalizeDomain], which answers
    the host in lower case; so the four mutators treat the full address
    and the bare lower-case host alike. *)
Theorem X20_mutators_see_only_the_host_of_an_address :
  forall (h rest : string) (m : t),
    h <> ""%string ->
    URL.allChars Aux.isHostPartChar h = true ->
    Aux.isAddressRest rest = true ->
    normalizeDomain h = Some (toLowerCase h) /\
    normalizeDomain ("http://" ++ h ++ rest) = Some (toLowerCase h) /\
    normalizeDomain ("https://" ++ h ++ rest) = Some (toLowerCase h) /\
    addToWhitelist ("https://" ++ h ++ rest) m =
      addToWhitelist (toLowerCase h) m /\
    addToBlacklist ("http://" ++ h ++ rest) m =
      addToBlacklist (toLowerCase h) m /\
    removeFromWhitelist ("https://" ++ h ++ rest) m =
      removeFromWhitelist (toLowerCase h) m /\
    removeFromBlacklist ("http://" ++ h ++ rest) m =
      removeFromBlacklist (toLowerCase h) m.
Proof.
  intros h rest m Hne Hh Hrest.
  pose proof (normalizeDomain_address "" h "" (or_introl (conj eq_refl eq_refl))
                Hne Hh eq_refl) as H0.
  change (String.append "" (h ++ "")) with (h ++ "")%string in H0.
  rewrite append_nil_r in H0.
  pose proof (normalizeDomain_address "http://" h rest
                (or_intror (or_introl eq_refl)) Hne Hh Hrest) as H1.
  pose proof (normalizeDomain_address "https://" h rest
                (or_intror (or_intror eq_refl)) Hne Hh Hrest) as H2.
  pose proof (normalizeDomain_lowered h Hne Hh) as H3.
  repeat split; try assumption.
  - unfold addToWhitelist. now rewrite H2, H3.
  - unfold addToBlacklist. now rewrite H1, H3.
  - unfold removeFromWhitelist. now rewrite H2, H3.
  - unfold removeFromBlacklist. now rewrite H1, H3.
Qed.

Lemma X20_mutators_see_only_the_host_of_an_address_witness :
  normalizeDomain "https://Mail.Example.com:8080/inbox" =
    Some "mail.example.com"%string /\
  addToWhitelist "https://Mail.Example.com:8080/inbox" constructor =
    addToWhitelist "mail.example.com" constructor.
Proof.
  pose proof (X20_mutators_see_only_the_host_of_an_address
                "Mail.Example.com" ":8080/inbox" constructor
                ltac:(discriminate) eq_refl eq_refl) as H.
  split; [exact (proj1 (proj2 (proj2 H))) |
          exact (proj1 (proj2 (proj2 (proj2 H))))].
Defined.

Lemma addToBlacklist_result (domain : string) (m m' : t) (b : bool) :
  addToBlacklist domain m = Some (b, m') ->
  (b = false /\ m' = m) \/
  (exists d, normalizeDomain domain = Some d /\ d <> ""%string /\ b = true /\
             blacklist m' = setAdd (blacklist m) d /\
             whitelist m' = whitelist m /\
             patterns_whitelist m' = patterns_whitelist m /\
             compileList (blacklist m') = Some (patterns_blacklist m')).
Proof.
  unfold addToBlacklist. destruct (normalizeDomain domain) as [d|];
    [|intros H; injection H as <- <-; now left].
  destruct (String.eqb_spec d "") as [->|Hd];
    [intros H; injection H as <- <-; now left|].
  unfold compilePatterns, setBlacklist. cbn [whitelist blacklist patterns_whitelist].
  destruct (compileList (setAdd (blacklist m) d)) as [ps|] eqn:E;
    [|discriminate].
  cbn. intros H. injection H as <- <-. right. exists d. cbn. auto 10.
Qed.

Lemma isWhitelisted_same (m m' : t) (u : string) :
  whitelist m' = whitelist m ->
  patterns_whitelist m' = patterns_whitelist m ->
  isWhitelisted m' u = isWhitelisted m u.
Proof. intros Hw Hp. unfold isWhitelisted. now rewrite Hw, Hp. Qed.

Lemma isBlacklisted_same (m m' : t) (u : string) :
  blacklist m' = blacklist m ->
  patterns_blacklist m' = patterns_blacklist m ->
  isBlacklisted m' u = isBlacklisted m u.
Proof. intros Hw Hp. unfold isBlacklisted. now rewrite Hw, Hp. Qed.

(** X21: the context-menu entry "Never Sleep This Domain", clicked on a
    tab whose URL has a plain hostname, puts that hostname into the
    allow-set; from then on every URL of that host has priority 0 and the
    service worker's selection loop never selects a tab of that host.
    "Always Sleep This Domain" gives the host's URLs priority 2 unless
    the allow-set already covers them, in which case they stay at 0.  A
    click on a tab without URL changes nothing. *)
Theorem X21_context_menu_click_sets_the_policy_of_the_host :
  forall (u h : string) (wm : t),
    URL.hostname u = Normal h ->
    Aux.plainHost h = true ->
    (forall wm' : t,
        Background.neverSleepClicked (Some u) wm = Some wm' ->
        In h (whitelist wm') /\
        (forall u' : string,
            URL.hostname u' = Normal h ->
            getSleepPriority wm' u' = Normal 0) /\
        (forall (ot : TabInfo -> Q) (tabs sel : list TabInfo) (tab : TabInfo),
            Background.tabsToSleep wm' ot tabs = Normal sel ->
            In tab sel -> URL.hostname (ResourceControls.url tab) <> Normal h)) /\
    (forall wm' : t,
        Background.alwaysSleepClicked (Some u) wm = Some wm' ->
        In h (blacklist wm') /\
        (forall u' : string,
            URL.hostname u' = Normal h ->
            getSleepPriority wm' u' =
            if isWhitelisted wm u' is Normal true then Normal 0 else Normal 2)) /\
    Background.neverSleepClicked None wm = Some wm /\
    Background.alwaysSleepClicked None wm = Some wm.
Proof.
  intros u h wm Hu Hplain.
  pose proof (normalizeDomain_plain h Hplain) as Hn.
  pose proof (plainHost_parts h Hplain) as (Hne & _).
  split; [|split; [|split; reflexivity]].
  - intros wm' Hclick. unfold Background.neverSleepClicked, default, from_option, Datatypes.id in Hclick.
    rewrite Hu in Hclick.
    destruct (addToWhitelist h wm) as [[b m1]|] eqn:E; [|discriminate].
    injection Hclick as ->.
    pose proof E as E'.
    apply addToWhitelist_result in E'
      as [[-> _]|(d & Hd & _ & _ & Hw & _)].
    + unfold addToWhitelist in E. rewrite Hn in E.
      destruct (String.eqb_spec h ""); [contradiction|].
      destruct (compilePatterns _ _); discriminate.
    + rewrite Hn in Hd. injection Hd as <-.
      assert (Hin : In h (whitelist wm'))
        by (rewrite Hw; apply In_setAdd; now right).
      assert (Hprio : forall u', URL.hostname u' = Normal h ->
                                 getSleepPriority wm' u' = Normal 0).
      { intros u' Hu'. apply whitelisted_is_never.
        rewrite (isWhitelisted_hostname wm' u' h Hu').
        apply setHas_In in Hin. now rewrite Hin. }
      split; [exact Hin|]. split; [exact Hprio|].
      intros ot tabs sel tab Hsel Htab Hhost.
      exact (background_loop_excludes_never wm' ot tabs sel Hsel tab Htab
               (Hprio _ Hhost)).
  - intros wm' Hclick. unfold Background.alwaysSleepClicked, default, from_option, Datatypes.id in Hclick.
    rewrite Hu in Hclick.
    destruct (addToBlacklist h wm) as [[b m1]|] eqn:E; [|discriminate].
    injection Hclick as ->.
    pose proof E as E'.
    apply addToBlacklist_result in E'
      as [[-> _]|(d & Hd & _ & _ & Hb & Hw & Hpw & _)].
    + unfold addToBlacklist in E. rewrite Hn in E.
      destruct (String.eqb_spec h ""); [contradiction|].
      destruct (compilePatterns _ _); discriminate.
    + rewrite Hn in Hd. injection Hd as <-.
      assert (Hin : In h (blacklist wm'))
        by (rewrite Hb; apply In_setAdd; now right).
      split; [exact Hin|]. intros u' Hu'.
      unfold getSleepPriority.
      rewrite (isWhitelisted_same wm wm' u' Hw Hpw).
      destruct (isWhitelisted_total wm u') as [w ->]. cbn [bind].
      destruct w; [reflexivity|].
      rewrite (isBlacklisted_hostname wm' u' h Hu').
      apply setHas_In in Hin. now rewrite Hin.
Qed.

Local Open Scope string_scope.

Lemma X21_context_menu_click_sets_the_policy_of_the_host_witness :
  URL.hostname "https://mail.example.com/inbox" = Normal "mail.example.com" /\
  Aux.plainHost "mail.example.com" = true /\
  Background.neverSleepClicked (Some "https://mail.example.com/inbox")
    constructor =
    Some (mk ["mail.example.com"] [] [Aux.nodesOf "mail.example.com"] []) /\
  In "mail.example.com"
    (whitelist
       (mk ["mail.example.com"] [] [Aux.nodesOf "mail.example.com"] [])).
Proof.
  assert (Hu : URL.hostname "https://mail.example.com/inbox" =
               Normal "mail.example.com") by (vm_compute; reflexivity).
  assert (Hc : Background.neverSleepClicked
                 (Some "https://mail.example.com/inbox") constructor =
               Some (mk ["mail.example.com"] []
                       [Aux.nodesOf "mail.example.com"] []))
    by (vm_compute; reflexivity).
  split; [exact Hu|]. split; [reflexivity|]. split; [exact Hc|].
  exact (proj1 (proj1 (X21_context_menu_click_sets_the_policy_of_the_host
                         _ _ constructor Hu eq_refl) _ Hc)).
Defined.

Local Close Scope string_scope.
Local Open Scope Z_scope.

(** *** The two queries agree *)

(** X22: [canSleep] and [getSleepPriority] never disagree and never
    throw: priority 0 goes with "never", 2 with "sleep quickly", 1 with
    "use the default rules"; the allow-set wins over the deny-set, and a
    manager without rules treats every URL by the default rules. *)
Theorem X22_canSleep_and_priority_agree :
  forall (m : t) (u : string),
    exists (w b : bool),
      isWhitelisted m u = Normal w /\
      isBlacklisted m u = Normal b /\
      canSleep m u =
        Normal (if w then Some false else if b then Some true else None) /\
      getSleepPriority m u = Normal (if w then 0 else if b then 2 else 1) /\
      (getSleepPriority m u = Normal 0 <-> canSleep m u = Normal (Some false)) /\
      (getSleepPriority m u = Normal 2 <-> canSleep m u = Normal (Some true)) /\
      (getSleepPriority m u = Normal 1 <-> canSleep m u = Normal None) /\
      canSleep constructor u = Normal None /\
      getSleepPriority (clearAll m) u = Normal 1.
Proof.
  intros m u.
  destruct (isWhitelisted_total m u) as [w Hw].
  destruct (isBlacklisted_total m u) as [b Hb].
  exists w, b. split; [exact Hw|]. split; [exact Hb|].
  assert (Hcan : canSleep m u =
                 Normal (if w then Some false
                         else if b then Some true else None)).
  { unfold canSleep. rewrite Hw. cbn [bind]. destruct w; [reflexivity|].
    rewrite Hb. now destruct b. }
  assert (Hprio : getSleepPriority m u =
                  Normal (if w then 0 else if b then 2 else 1)).
  { unfold getSleepPriority. rewrite Hw. cbn [bind]. destruct w; [reflexivity|].
    rewrite Hb. now destruct b. }
  split; [exact Hcan|]. split; [exact Hprio|].
  rewrite Hcan, Hprio.
  assert (Hempty : forall x, isWhitelisted constructor x = Normal false /\
                             isBlacklisted constructor x = Normal false).
  { intros x. unfold isWhitelisted, isBlacklisted.
    destruct (URL.hostname x); split; reflexivity. }
  destruct (Hempty u) as [He1 He2].
  repeat split; try (destruct w, b; congruence).
  - unfold canSleep. now rewrite He1, He2.
  - unfold getSleepPriority, clearAll. fold constructor. now rewrite He1, He2.
Qed.

(** *** Export, import and the sorted lists *)

Lemma insertString_perm (x : string) (l : list string) :
  Permutation (insertString x l) (x :: l).
Proof.
  induction l as [|y l IH]; cbn [insertString]; [reflexivity|].
  destruct (String.leb x y); [reflexivity|].
  rewrite IH. apply perm_swap.
Qed.

Lemma sortStrings_perm (l : list string) : Permutation (sortStrings l) l.
Proof.
  induction l as [|x l IH]; cbn [sortStrings]; [reflexivity|].
  rewrite insertString_perm. now constructor.
Qed.

Lemma insertString_sorted (x : string) (l : list string) :
  Sorted Aux.stringLe l -> Sorted Aux.stringLe (insertString x l).
Proof.
  induction l as [|y l IH]; intros Hs; cbn [insertString].
  - repeat constructor.
  - destruct (String.leb x y) eqn:E.
    + constructor; [exact Hs|]. constructor. exact E.
    + apply Sorted_inv in Hs as [Hs Hhd].
      constructor; [now apply IH|].
      assert (Hyx : Aux.stringLe y x).
      { destruct (String.leb_total x y) as [H|H]; [congruence | exact H]. }
      destruct l as [|z l]; cbn [insertString]; [now constructor|].
      destruct (String.leb x z); constructor; [exact Hyx|].
      now inversion Hhd.
Qed.

Lemma sortStrings_sorted (l : list string) :
  Sorted Aux.stringLe (sortStrings l).
Proof.
  induction l as [|x l IH]; cbn [sortStrings]; [constructor|].
  now apply insertString_sorted.
Qed.

Lemma sortStrings_fixed (l : list string) :
  Sorted Aux.stringLe l -> sortStrings l = l.
Proof.
  induction l as [|x l IH]; intros Hs; [reflexivity|].
  apply Sorted_inv in Hs as [Hs Hhd]. cbn [sortStrings]. rewrite (IH Hs).
  destruct l as [|y l]; [reflexivity|]. cbn [insertString].
  inversion Hhd as [|? ? Hxy]; subst. unfold Aux.stringLe in Hxy.
  now rewrite Hxy.
Qed.

Lemma existsb_perm {A : Type} (f : A -> bool) (l l' : list A) :
  Permutation l l' -> existsb f l = existsb f l'.
Proof.
  induction 1 as [|x l l' _ IH|x y l|l l' l'' _ IH1 _ IH2]; cbn.
  - reflexivity.
  - now rewrite IH.
  - now destruct (f x), (f y).
  - congruence.
Qed.

Lemma importRules_lists (w b : list string) (m0 : t) :
  List.NoDup w -> List.NoDup b ->
  Aux.inFragment w = true -> Aux.inFragment b = true ->
  importRules (RulesData.mk (Some w) (Some b)) m0 =
  Some (true, mk w b (map Aux.nodesOf w) (map Aux.nodesOf b)).
Proof.
  intros Hw Hb Hfw Hfb. unfold importRules.
  cbn [RulesData.whitelist RulesData.blacklist].
  rewrite (fold_setAdd_fresh w []) by exact Hw.
  rewrite (fold_setAdd_fresh b []) by exact Hb.
  cbn [app]. unfold compilePatterns, setWhitelist.
  cbn [whitelist blacklist patterns_whitelist patterns_blacklist].
  rewrite compileList_spec, Hfw. cbn [option_map].
  unfold setBlacklist.
  cbn [whitelist blacklist patterns_whitelist patterns_blacklist].
  rewrite compileList_spec, Hfb. reflexivity.
Qed.

Lemma compiled_inFragment (ds : list string) (ps : list RegExp) :
  compileList ds = Some ps ->
  Aux.inFragment ds = true /\ ps = map Aux.nodesOf ds.
Proof.
  rewrite compileList_spec. destruct (Aux.inFragment ds); [|discriminate].
  intros H. injection H as <-. split; reflexivity.
Qed.

Lemma isWhitelisted_perm (m m' : t) (u : string) :
  Permutation (whitelist m') (whitelist m) ->
  Permutation (patterns_whitelist m') (patterns_whitelist m) ->
  isWhitelisted m' u = isWhitelisted m u.
Proof.
  intros Hw Hp. unfold isWhitelisted, setHas.
  destruct (URL.hostname u) as [h|e]; [|reflexivity]. cbn [bind tryCatch].
  now rewrite (existsb_perm _ _ _ Hw), (existsb_perm _ _ _ Hp).
Qed.

Lemma isBlacklisted_perm (m m' : t) (u : string) :
  Permutation (blacklist m') (blacklist m) ->
  Permutation (patterns_blacklist m') (patterns_blacklist m) ->
  isBlacklisted m' u = isBlacklisted m u.
Proof.
  intros Hw Hp. unfold isBlacklisted, setHas.
  destruct (URL.hostname u) as [h|e]; [|reflexivity]. cbn [bind tryCatch].
  now rewrite (existsb_perm _ _ _ Hw), (existsb_perm _ _ _ Hp).
Qed.

(** X23: importing what [exportRules] produced rebuilds the exporting
    manager exactly, sets and patterns, whatever the importing manager
    held before.  Importing the sorted lists of [getLists] (what the
    service worker's backup does) gives a manager with the same domains
    in sorted order, which answers every priority and [canSleep] query
    as the original does and whose [getLists] is the same backup. *)
Theorem X23_exported_rules_import_back :
  forall (m m0 : t) (date : string),
    Aux.wellFormed m ->
    importRules (RulesExport.asData (exportRules date m)) m0 =
      Some (true, m) /\
    exists m' : t,
      importRules (getLists m) m0 = Some (true, m') /\
      Aux.wellFormed m' /\
      Permutation (whitelist m') (whitelist m) /\
      Permutation (blacklist m') (blacklist m) /\
      Sorted Aux.stringLe (whitelist m') /\
      Sorted Aux.stringLe (blacklist m') /\
      (forall u : string,
          getSleepPriority m' u = getSleepPriority m u /\
          canSleep m' u = canSleep m u) /\
      getLists m' = getLists m /\
      getStats m' = getStats m.
Proof.
  intros m m0 date ((Hcw & Hcb) & Hw & Hb).
  apply compiled_inFragment in Hcw as [Hfw Hpw].
  apply compiled_inFragment in Hcb as [Hfb Hpb].
  split.
  - unfold RulesExport.asData, exportRules.
    cbn [RulesExport.whitelist RulesExport.blacklist].
    rewrite importRules_lists by assumption.
    rewrite <- Hpw, <- Hpb. now destruct m.
  - pose proof (sortStrings_perm (whitelist m)) as Pw.
    pose proof (sortStrings_perm (blacklist m)) as Pb.
    assert (Hnw : List.NoDup (sortStrings (whitelist m)))
      by (eapply Permutation_NoDup; [symmetry; exact Pw | exact Hw]).
    assert (Hnb : List.NoDup (sortStrings (blacklist m)))
      by (eapply Permutation_NoDup; [symmetry; exact Pb | exact Hb]).
    assert (Hsw : Aux.inFragment (sortStrings (whitelist m)) = true).
    { apply (inFragment_incl (whitelist m)); [|exact Hfw].
      intros d. apply Permutation_in. exact Pw. }
    assert (Hsb : Aux.inFragment (sortStrings (blacklist m)) = true).
    { apply (inFragment_incl (blacklist m)); [|exact Hfb].
      intros d. apply Permutation_in. exact Pb. }
    eexists. split; [unfold getLists; now apply importRules_lists|].
    cbn [whitelist blacklist].
    split.
    { split; [|split; assumption]. split; cbn [whitelist blacklist
        patterns_whitelist patterns_blacklist]; rewrite compileList_spec.
      - now rewrite Hsw.
      - now rewrite Hsb. }
    split; [exact Pw|]. split; [exact Pb|].
    split; [apply sortStrings_sorted|]. split; [apply sortStrings_sorted|].
    split; [|split].
    + intros u.
      assert (Ew : isWhitelisted
                     (mk (sortStrings (whitelist m)) (sortStrings (blacklist m))
                        (map Aux.nodesOf (sortStrings (whitelist m)))
                        (map Aux.nodesOf (sortStrings (blacklist m)))) u =
                   isWhitelisted m u).
      { apply isWhitelisted_perm; cbn [whitelist patterns_whitelist];
          [exact Pw|]. rewrite Hpw. now apply Permutation_map. }
      assert (Eb : isBlacklisted
                     (mk (sortStrings (whitelist m)) (sortStrings (blacklist m))
                        (map Aux.nodesOf (sortStrings (whitelist m)))
                        (map Aux.nodesOf (sortStrings (blacklist m)))) u =
                   isBlacklisted m u).
      { apply isBlacklisted_perm; cbn [blacklist patterns_blacklist];
          [exact Pb|]. rewrite Hpb. now apply Permutation_map. }
      unfold getSleepPriority, canSleep. rewrite Ew, Eb. split; reflexivity.
    + unfold getLists. cbn [whitelist blacklist].
      now rewrite (sortStrings_fixed (sortStrings (whitelist m))),
        (sortStrings_fixed (sortStrings (blacklist m)))
        by apply sortStrings_sorted.
    + unfold getStats. cbn [whitelist blacklist].
      now rewrite (Permutation_length Pw), (Permutation_length Pb).
Qed.

Local Open Scope string_scope.

Lemma X23_exported_rules_import_back_witness :
  Aux.wellFormed Scenario.allowAndDeny /\
  importRules
    (RulesExport.asData
       (exportRules "2024-01-01T00:00:00.000Z" Scenario.allowAndDeny))
    constructor = Some (true, Scenario.allowAndDeny).
Proof.
  assert (H : Aux.wellFormed Scenario.allowAndDeny).
  { split; [split; vm_compute; reflexivity|].
    split; vm_compute; repeat constructor; intros []. }
  split; [exact H|].
  exact (proj1 (X23_exported_rules_import_back Scenario.allowAndDeny
                  constructor "2024-01-01T00:00:00.000Z" H)).
Defined.

Local Close Scope string_scope.
Local Open Scope Z_scope.

(** *** What the membership checks decide *)



Local Open Scope string_scope.


Local Close Scope string_scope.
Local Open Scope Z_scope.

(** *** The selection loop of the service worker *)

Lemma selectStep_keeps (wm : t) (ot : TabInfo -> Q) (acc : list TabInfo)
    (tab : TabInfo) :
  Background.selectStep wm ot (Normal acc) tab =
  Normal (if Aux.workerKeeps wm ot tab then acc ++ [tab] else acc).
Proof.
  unfold Background.selectStep, Aux.workerKeeps. cbn [bind].
  destruct (isActive tab || isSleeping tab || audible tab); [reflexivity|].
  destruct (startsWith (ResourceControls.url tab) "chrome://" ||
            startsWith (ResourceControls.url tab) "chrome-extension://");
    [reflexivity|].
  destruct (getSleepPriority_total wm (ResourceControls.url tab)) as [p ->].
  cbn [bind negb andb].
  destruct (p =? 0); [reflexivity|]. cbn [negb andb].
  destruct (p =? 2); [reflexivity|]. cbn [orb].
  now destruct (Qgtb _ _).
Qed.

Lemma select_loop_filter (wm : t) (ot : TabInfo -> Q) (l acc : list TabInfo) :
  fold_left (Background.selectStep wm ot) l (Normal acc) =
  Normal (acc ++ List.filter (Aux.workerKeeps wm ot) l).
Proof.
  revert acc. induction l as [|x l IH]; intros acc; cbn [fold_left List.filter].
  - now rewrite app_nil_r.
  - rewrite selectStep_keeps. destruct (Aux.workerKeeps wm ot x).
    + rewrite IH, <- app_assoc. reflexivity.
    + apply IH.
Qed.

(** X25: the selection loop of the service worker never fails and its
    result is the host's tab list filtered, in order: a tab is selected
    exactly when it is a background tab that is not discarded, not
    audible and not a [chrome://] or [chrome-extension://] page, its
    priority is not 0, and either its priority is 2 or it has been
    inactive for longer than the optimal time.  A deny-listed tab is
    therefore selected whatever its inactivity, even at inactivity 0. *)
Theorem X25_worker_loop_is_a_filter :
  forall (wm : t) (ot : TabInfo -> Q) (tabs : list TabInfo),
    Background.tabsToSleep wm ot tabs =
      Normal (List.filter (Aux.workerKeeps wm ot) tabs) /\
    (forall tab : TabInfo,
        In tab tabs ->
        isActive tab || isSleeping tab || audible tab = false ->
        startsWith (ResourceControls.url tab) "chrome://" ||
        startsWith (ResourceControls.url tab) "chrome-extension://" = false ->
        getSleepPriority wm (ResourceControls.url tab) = Normal 2 ->
        In tab (List.filter (Aux.workerKeeps wm ot) tabs)) /\
    (forall tab : TabInfo,
        In tab (List.filter (Aux.workerKeeps wm ot) tabs) ->
        getSleepPriority wm (ResourceControls.url tab) = Normal 1 ->
        (ot tab < inject_Z (inactiveTime tab))%Q) /\
    (length (List.filter (Aux.workerKeeps wm ot) tabs) <= length tabs)%nat.
Proof.
  intros wm ot tabs0. split; [|split; [|split]].
  - unfold Background.tabsToSleep. now rewrite select_loop_filter.
  - intros tab Hin Hbg Hsys Hp. apply filter_In. split; [exact Hin|].
    unfold Aux.workerKeeps. now rewrite Hbg, Hsys, Hp.
  - intros tab Hin Hp. apply filter_In in Hin as [_ Hk].
    unfold Aux.workerKeeps in Hk. rewrite Hp in Hk.
    rewrite !andb_true_iff in Hk. destruct Hk as (_ & _ & Hq).
    cbn in Hq. now apply Qgtb_true in Hq.
  - apply List.filter_length_le.
Qed.

(* ===================================================================== *)
(** ** Bookkeeping of a cycle *)
(* ===================================================================== *)

Lemma sleptSince_refl (now : Z) (md : TabMetadata) : Aux.sleptSince now md md.
Proof. unfold Aux.sleptSince. repeat split; auto; lia. Qed.

Lemma sleptSince_trans (now : Z) (a b c : TabMetadata) :
  Aux.sleptSince now a b -> Aux.sleptSince now b c -> Aux.sleptSince now a c.
Proof.
  unfold Aux.sleptSince.
  intros (H1 & H2 & H3 & H4 & H5 & H6 & H7 & H8)
         (G1 & G2 & G3 & G4 & G5 & G6 & G7 & G8).
  repeat split; try congruence; try lia.
  - intros E. rewrite G7, H7 by lia. reflexivity.
  - intros L. destruct (Z.eq_dec (sleepCount c) (sleepCount b)) as [E|N].
    + rewrite (G7 E). apply H8. lia.
    + apply G8. lia.
Qed.

Lemma sleepStep_books (d : DiscardOracle) (now : Z) (acc : Loop)
    (t : TabInfo) :
  let r := sleepStep d now acc t in
  stats (state r) = stats (state acc) /\
  (forall k, sleepHistory (state r) !! k = sleepHistory (state acc) !! k \/
             sleepHistory (state r) !! k = Some now) /\
  (forall k md', tabMetadata (state r) !! k = Some md' ->
                 exists md, tabMetadata (state acc) !! k = Some md /\
                            Aux.sleptSince now md md').
Proof.
  unfold sleepStep. destruct (d (requests acc) (id t)); cbn zeta; cbn [state].
  2:{ split; [reflexivity|]. split; [auto|].
      intros k md' H. exists md'. split; [exact H | apply sleptSince_refl]. }
  unfold recordSleep. cbn [stats sleepHistory tabMetadata].
  split; [reflexivity|]. split.
  - intros k. destruct (decide (id t = k)) as [<-|Hne].
    + right. apply lookup_insert_eq.
    + left. now apply lookup_insert_ne.
  - intros k md' H.
    destruct (tabMetadata (state acc) !! id t) as [md0|] eqn:E.
    + destruct (decide (id t = k)) as [<-|Hne].
      * rewrite lookup_insert_eq in H. injection H as <-.
        exists md0. split; [exact E|].
        unfold Aux.sleptSince. cbn. repeat split; auto; lia.
      * rewrite lookup_insert_ne in H by exact Hne.
        exists md'. split; [exact H | apply sleptSince_refl].
    + exists md'. split; [exact H | apply sleptSince_refl].
Qed.

Lemma sleep_loop_books (d : DiscardOracle) (now : Z) (l : list TabInfo)
    (acc : Loop) :
  let r := fold_left (sleepStep d now) l acc in
  stats (state r) = stats (state acc) /\
  (forall k, sleepHistory (state r) !! k = sleepHistory (state acc) !! k \/
             sleepHistory (state r) !! k = Some now) /\
  (forall k md', tabMetadata (state r) !! k = Some md' ->
                 exists md, tabMetadata (state acc) !! k = Some md /\
                            Aux.sleptSince now md md').
Proof.
  revert acc. induction l as [|t l IH]; intros acc; cbn [fold_left].
  - cbn zeta. split; [reflexivity|]. split; [auto|].
    intros k md' H. exists md'. split; [exact H | apply sleptSince_refl].
  - destruct (IH (sleepStep d now acc t)) as (Hs & Hh & Hm).
    destruct (sleepStep_books d now acc t) as (Hs' & Hh' & Hm').
    cbn zeta in *. split; [congruence|]. split.
    + intros k. destruct (Hh k) as [-> | ->]; [apply Hh' | now right].
    + intros k md' H. destruct (Hm k md' H) as (md1 & H1 & R1).
      destruct (Hm' k md1 H1) as (md & H0 & R0).
      exists md. split; [exact H0|]. now apply (sleptSince_trans now md md1).
Qed.

Lemma getMemoryInfo_stats (now : Z) (source : Completion MemoryInfo)
    (st : State) :
  stats (snd (getMemoryInfo now source st)) = stats st.
Proof.
  unfold getMemoryInfo. destruct (cacheIsFresh st now); [reflexivity|].
  destruct source; [reflexivity|]. destruct (memoryCache st); reflexivity.
Qed.

(** X26: the bookkeeping of a cycle.  A cycle counts itself as one check
    whenever auto-sleep is on, also when it stops for want of a memory
    reading, and not at all when auto-sleep is off.  [emergencySleeps]
    grows by at most one, and only in aggressive mode on a critical
    reading with a positive reported count.  A sleep-history entry is
    either untouched or set to the time of the cycle, and a metadata
    record keeps everything but its sleep fields: [sleepCount] never
    decreases, [lastSleepTime] is the time of the cycle when the count
    grew and is unchanged when it did not. *)
Theorem X26_cycle_bookkeeping :
  forall (now : Z) (source : Completion MemoryInfo)
         (query : Completion (list Tab.t * option Tab.t))
         (d : DiscardOracle) (st : State),
    let cycle := checkAndSleepTabs now source query d st in
    checksPerformed (stats (finalState cycle)) =
      checksPerformed (stats st) + (if autoSleep (config st) then 1 else 0) /\
    (emergencySleeps (stats (finalState cycle)) = emergencySleeps (stats st) \/
     emergencySleeps (stats (finalState cycle)) =
       emergencySleeps (stats st) + 1 /\
     aggressiveMode (config st) = true /\
     0 < sleptOf (result cycle) /\
     exists (s c n : Z) (mem : Q) (tmr : Z),
       result cycle = Checked s c n mem critical tmr) /\
    (forall k : Z,
        sleepHistory (finalState cycle) !! k = sleepHistory st !! k \/
        sleepHistory (finalState cycle) !! k = Some now) /\
    (forall (k : Z) (md' : TabMetadata),
        tabMetadata (finalState cycle) !! k = Some md' ->
        exists md : TabMetadata,
          tabMetadata st !! k = Some md /\ Aux.sleptSince now md md').
Proof.
  intros now source query d st. cbn zeta. unfold checkAndSleepTabs.
  destruct (autoSleep (config st)); cbn [negb].
  2:{ cbn [finalState]. split; [lia|]. split; [now left|]. split; [auto|].
      intros k md' H. exists md'. split; [exact H | apply sleptSince_refl]. }
  pose proof (getMemoryInfo_stats now source (countCheck st)) as Hst.
  destruct (getMemoryInfo_tracking now source (countCheck st))
    as (Hc & _ & Hm & Hh).
  destruct (getMemoryInfo now source (countCheck st)) as [[m|] st'];
    cbn [snd] in Hst, Hc, Hm, Hh.
  2:{ cbn [finalState]. rewrite Hst, Hm, Hh. cbn.
      split; [reflexivity|]. split; [now left|]. split; [auto|].
      intros k md' H. exists md'. split; [exact H | apply sleptSince_refl]. }
  cbn [finalState result sleptOf].
  set (ti := getTabsInfo now query st').
  destruct (sleep_loop_books d now
              (tieredSelection (status m)
                 (cycleCandidates now (config st') m ti))
              (mkLoop 0 [] st')) as (Hs1 & Hh1 & Hm1).
  pose proof (sleep_loop_bound d now
                (tieredSelection (status m)
                   (cycleCandidates now (config st') m ti))
                (mkLoop 0 [] st')) as [Hb1 _].
  cbn zeta in *. fold (tieredPass d now st' m ti) in Hs1, Hh1, Hm1, Hb1.
  cbn [state sleptCount] in Hs1, Hh1, Hm1, Hb1.
  pose proof (tieredPass_config d now st' m ti) as Hc1.
  destruct (emergencyPass_tracking d m ti (tieredPass d now st' m ti))
    as (_ & _ & Hm2 & Hh2).
  cbn zeta in Hm2, Hh2. rewrite Hm2, Hh2.
  assert (Hstats :
    stats (state (emergencyPass d m ti (tieredPass d now st' m ti))) =
      stats st' \/
    stats (state (emergencyPass d m ti (tieredPass d now st' m ti))) =
      mkStats (checksPerformed (stats st')) (emergencySleeps (stats st') + 1) /\
    emergencyPassRuns (config st') m = true /\
    0 < sleptCount (emergencyPass d m ti (tieredPass d now st' m ti))).
  { unfold emergencyPass. rewrite Hc1.
    destruct (emergencyPassRuns (config st') m); [|now left].
    destruct (emergencySleep d _ _ _) as [n reqs].
    destruct (n >? 0) eqn:En; cbn [state sleptCount stats setStats].
    - right. rewrite Hs1. split; [reflexivity|]. split; [reflexivity|]. lia.
    - now left. }
  rewrite Hm, Hh in *. rewrite Hst in Hstats. cbn [countCheck setStats stats
    checksPerformed emergencySleeps] in Hstats.
  split; [|split; [|split]].
  - destruct Hstats as [-> | [-> _]]; reflexivity.
  - destruct Hstats as [-> | (-> & Hruns & Hpos)]; [now left|]. right.
    apply emergencyPassRuns_iff in Hruns as [Hag Hcrit].
    rewrite Hc in Hag. cbn in Hag.
    split; [reflexivity|]. split; [exact Hag|]. split; [exact Hpos|].
    rewrite Hcrit. eauto 10.
  - exact Hh1.
  - exact Hm1.
Qed.

(* ===================================================================== *)
(** ** The allow-set and the selection loop of the service worker *)
(* ===================================================================== *)

Lemma not_never_not_whitelisted (wm : t) (u : string) :
  getSleepPriority wm u <> Normal 0 ->
  isWhitelisted wm u = Normal false /\
  canSleep wm u <> Normal (Some false).
Proof.
  intros H. destruct (isWhitelisted_total wm u) as [w Hw].
  destruct w.
  - elim H. now apply whitelisted_is_never.
  - split; [exact Hw|]. unfold canSleep. rewrite Hw. cbn [bind].
    destruct (isBlacklisted_total wm u) as [b ->]. now destruct b.
Qed.

(** C1 (as amended): the allow-set is honoured by the selection loop of
    the service worker, [checkAndSleepTabsWithML], the selector that
    every trigger runs.  For every allow / deny manager, every optimal
    sleep time and every snapshot the loop returns a selection, and no
    handle whose URL the allow-set matches is in it: every selected
    handle is one of the snapshot that [isWhitelisted] rejects, with a
    priority other than 0; a handle whose hostname is an allow entry, or
    is matched by an allow pattern, is never selected, whatever its
    inactivity, its optimal sleep time and the deny-set. *)
Theorem C1_worker_selection_excludes_allow_listed_handles :
  forall (wm : t) (ot : TabInfo -> Q) (snapshot : list TabInfo),
    exists sel : list TabInfo,
      Background.tabsToSleep wm ot snapshot = Normal sel /\
      (forall tab : TabInfo,
          In tab sel ->
          In tab snapshot /\
          isWhitelisted wm (ResourceControls.url tab) = Normal false /\
          canSleep wm (ResourceControls.url tab) <> Normal (Some false) /\
          getSleepPriority wm (ResourceControls.url tab) <>
            Normal (Spec.policyPriority Spec.never)) /\
      (forall (tab : TabInfo) (h : string),
          URL.hostname (ResourceControls.url tab) = Normal h ->
          In h (whitelist wm) -> ~ In tab sel) /\
      (forall (tab : TabInfo) (h p : string),
          compileList (whitelist wm) = Some (patterns_whitelist wm) ->
          URL.hostname (ResourceControls.url tab) = Normal h ->
          In p (whitelist wm) -> Spec.wildcardMatch p h ->
          ~ In tab sel).
Proof.
  intros wm ot snapshot.
  exists (List.filter (Aux.workerKeeps wm ot) snapshot).
  assert (Hsel : Background.tabsToSleep wm ot snapshot =
                 Normal (List.filter (Aux.workerKeeps wm ot) snapshot))
    by (unfold Background.tabsToSleep; now rewrite select_loop_filter).
  split; [exact Hsel|].
  assert (Hnever : forall tab,
             In tab (List.filter (Aux.workerKeeps wm ot) snapshot) ->
             getSleepPriority wm (ResourceControls.url tab) <> Normal 0)
    by exact (background_loop_excludes_never wm ot snapshot _ Hsel).
  split; [|split].
  - intros tab Hin. split; [now apply filter_In in Hin|].
    destruct (not_never_not_whitelisted wm _ (Hnever tab Hin)) as [Hw Hc].
    split; [exact Hw|]. split; [exact Hc|]. exact (Hnever tab Hin).
  - intros tab h Hh Hentry Hin.
    destruct (not_never_not_whitelisted wm _ (Hnever tab Hin)) as [Hw _].
    rewrite (isWhitelisted_hostname wm _ h Hh) in Hw.
    apply setHas_In in Hentry. rewrite Hentry in Hw. discriminate Hw.
  - intros tab h p Hc Hh Hp Hm Hin.
    destruct (not_never_not_whitelisted wm _ (Hnever tab Hin)) as [Hw _].
    rewrite (wildcard_entry_whitelists wm _ h p Hc Hh Hp Hm) in Hw.
    discriminate Hw.
Qed.

Lemma C1_worker_selection_excludes_allow_listed_handles_witness :
  exists sel : list TabInfo,
    Background.tabsToSleep Scenario.allowExample (fun _ => 0%Q)
      Scenario.mailSnapshot = Normal sel /\
    List.Forall (fun tab => ~ In tab sel) Scenario.mailSnapshot.
Proof.
  destruct (C1_worker_selection_excludes_allow_listed_handles
              Scenario.allowExample (fun _ => 0%Q) Scenario.mailSnapshot)
    as (sel & Hsel & _ & _ & Hpattern).
  exists sel. split; [exact Hsel|].
  repeat constructor.
  apply (Hpattern _ "mail.example.com"%string "*.example.com"%string).
  - vm_compute. reflexivity.
  - vm_compute. reflexivity.
  - left. vm_compute. reflexivity.
  - exact wildcard_example.
Defined.
